(** * STIX 2.1 generator and validator: a shallow embedding

    The development follows [stix2-generator/scripts/generate_stix.py]
    (class [STIXGenerator]) and [stix2-validator/scripts/validate_stix.py].

    Python values are represented as follows.
    - A [str] is a [string]; a character stands for one code point in the
      range U+0000..U+00FF, and the character tables of Python ([isspace],
      [lower], the regular-expression classes) are written out for that range.
    - A regular expression is a term of [regex]; [re.match] on a pattern that
      ends in [$] is language membership, [$] being the optional final newline.
    - A JSON document as [json.load] returns it is a term of [json]; a [dict]
      keeps its insertion order, so it is an association list.
    - The generator session is a record [state]; a method is a function
      from the session to an outcome (a value or a raised exception) and the
      session it leaves behind. *)

From Stdlib Require Import ZArith Lia Bool Ascii String.
From stdpp Require Import base list strings pretty.

Local Open Scope string_scope.
Local Open Scope list_scope.
Set Warnings "-register-all".

(** ** Python strings *)

Definition chars (s : string) : list ascii := list_ascii_of_string s.
Definition str (cs : list ascii) : string := string_of_list_ascii cs.

Definition code (c : ascii) : nat := nat_of_ascii c.

Definition in_range (lo hi c : ascii) : bool :=
  (code lo <=? code c)%nat && (code c <=? code hi)%nat.

(** [str.isspace] on one code point below U+0100: TAB..CR, FS..US, SPACE,
    NEL and NBSP. The class [\s] of [re] is the same set. *)
Definition isspace (c : ascii) : bool :=
  let n := code c in
  ((9 <=? n) && (n <=? 13) || (28 <=? n) && (n <=? 32)
   || (n =? 133) || (n =? 160))%nat.

Fixpoint lstrip_chars (cs : list ascii) : list ascii :=
  match cs with
  | c :: cs' => if isspace c then lstrip_chars cs' else cs
  | [] => []
  end.

Definition rstrip_chars (cs : list ascii) : list ascii :=
  rev (lstrip_chars (rev cs)).

(** [s.strip()] *)
Definition strip (s : string) : string :=
  str (rstrip_chars (lstrip_chars (chars s))).

(** [str.lower] on one code point below U+0100: A-Z and the Latin-1 capitals
    U+00C0..U+00DE (the multiplication sign U+00D7 apart) move up by 32. *)
Definition lower_char (c : ascii) : ascii :=
  let n := code c in
  if ((65 <=? n) && (n <=? 90)
      || (192 <=? n) && (n <=? 222) && negb (n =? 215))%nat
  then ascii_of_nat (n + 32) else c.

Definition lower (s : string) : string := str (map lower_char (chars s)).

(** [str.upper], exact on ASCII; the generator applies it to classifier tags
    only, which are ASCII. *)
Definition upper_char (c : ascii) : ascii :=
  let n := code c in
  if ((97 <=? n) && (n <=? 122))%nat then ascii_of_nat (n - 32) else c.

Definition upper (s : string) : string := str (map upper_char (chars s)).

(** [s.replace(c, new)] for a one-character [c] *)
Definition replace_char (c : ascii) (new : string) (s : string) : string :=
  str (flat_map (fun x => if Ascii.eqb x c then chars new else [x]) (chars s)).

(** [s.startswith(p)] *)
Definition startswith (p s : string) : bool := String.prefix p s.

(** [needle in haystack] for two strings *)
Fixpoint substring_of (needle haystack : string) : bool :=
  String.prefix needle haystack ||
  match haystack with
  | String _ rest => substring_of needle rest
  | EmptyString => false
  end.

(** ** Regular expressions *)

Inductive regex : Type :=
| Void : regex
| Eps : regex
| Class (p : ascii -> bool) : regex
| Cat (r1 r2 : regex) : regex
| Alt (r1 r2 : regex) : regex
| Star (r : regex) : regex.

(** The words of a regular expression. *)
Inductive Lang : regex -> list ascii -> Prop :=
| LEps : Lang Eps []
| LClass p c : p c = true -> Lang (Class p) [c]
| LCat r1 r2 u v : Lang r1 u -> Lang r2 v -> Lang (Cat r1 r2) (u ++ v)
| LAltL r1 r2 u : Lang r1 u -> Lang (Alt r1 r2) u
| LAltR r1 r2 u : Lang r2 u -> Lang (Alt r1 r2) u
| LStar0 r : Lang (Star r) []
| LStarS r u v : Lang r u -> Lang (Star r) v -> Lang (Star r) (u ++ v).

Fixpoint nullable (r : regex) : bool :=
  match r with
  | Void => false
  | Eps => true
  | Class _ => false
  | Cat r1 r2 => nullable r1 && nullable r2
  | Alt r1 r2 => nullable r1 || nullable r2
  | Star _ => true
  end.

(** The residual of [r] after reading [c]. *)
Fixpoint deriv (c : ascii) (r : regex) : regex :=
  match r with
  | Void => Void
  | Eps => Void
  | Class p => if p c then Eps else Void
  | Cat r1 r2 =>
      if nullable r1 then Alt (Cat (deriv c r1) r2) (deriv c r2)
      else Cat (deriv c r1) r2
  | Alt r1 r2 => Alt (deriv c r1) (deriv c r2)
  | Star r1 => Cat (deriv c r1) (Star r1)
  end.

Fixpoint accepts (r : regex) (cs : list ascii) : bool :=
  match cs with
  | [] => nullable r
  | c :: cs' => accepts (deriv c r) cs'
  end.

(** Pattern syntax: a literal character, [r?], [r+], [r{n}], [r{0,n}],
    [r{m,n}], [r{m,}] and [$]. *)
Definition lit (c : ascii) : regex := Class (Ascii.eqb c).
Definition opt (r : regex) : regex := Alt r Eps.
Definition plus (r : regex) : regex := Cat r (Star r).

Fixpoint times (n : nat) (r : regex) : regex :=
  match n with
  | O => Eps
  | S n' => Cat r (times n' r)
  end.

Fixpoint upto (n : nat) (r : regex) : regex :=
  match n with
  | O => Eps
  | S n' => opt (Cat r (upto n' r))
  end.

Definition between (m n : nat) (r : regex) : regex :=
  Cat (times m r) (upto (n - m) r).

Definition at_least (m : nat) (r : regex) : regex :=
  Cat (times m r) (Star r).

Fixpoint lits (cs : list ascii) : regex :=
  match cs with
  | [] => Eps
  | c :: cs' => Cat (lit c) (lits cs')
  end.

Definition newline : ascii := "010"%char.

(** [$] without [re.MULTILINE]: the end of the string, or just before a
    newline that ends the string. *)
Definition Dollar : regex := opt (lit newline).

(** [pattern.match(s)] for a pattern written [^ body $]; the result is used
    as a truth value only. *)
Definition re_match (body : regex) (s : string) : bool :=
  accepts (Cat body Dollar) (chars s).

(** Character classes of the patterns. *)
Definition digit (c : ascii) : bool := in_range "0" "9" c.
Definition alpha (c : ascii) : bool := in_range "a" "z" c || in_range "A" "Z" c.
Definition alnum (c : ascii) : bool := alpha c || digit c.
Definition hexdigit (c : ascii) : bool :=
  digit c || in_range "a" "f" c || in_range "A" "F" c.
Definition is_char (x c : ascii) : bool := Ascii.eqb x c.

(** ** The generator's patterns (class attributes of [STIXGenerator]) *)

(** [^(?:[0-9]{1,3}\.){3}[0-9]{1,3}$] *)
Definition IPV4_PATTERN : regex :=
  Cat (times 3 (Cat (between 1 3 (Class digit)) (lit ".")))
      (between 1 3 (Class digit)).

(** [^(?:[0-9a-fA-F]{0,4}:){7}[0-9a-fA-F]{0,4}$] *)
Definition IPV6_PATTERN : regex :=
  Cat (times 7 (Cat (between 0 4 (Class hexdigit)) (lit ":")))
      (between 0 4 (Class hexdigit)).

(** [^(?:[a-zA-Z0-9](?:[a-zA-Z0-9-]{0,61}[a-zA-Z0-9])?\.)+[a-zA-Z]{2,}$] *)
Definition DOMAIN_PATTERN : regex :=
  Cat (plus (Cat (Class alnum)
               (Cat (opt (Cat (between 0 61 (Class (fun c => alnum c || is_char "-" c)))
                              (Class alnum)))
                    (lit "."))))
      (at_least 2 (Class alpha)).

(** [^[a-fA-F0-9]{32}$], [{40}], [{64}] *)
Definition MD5_PATTERN : regex := times 32 (Class hexdigit).
Definition SHA1_PATTERN : regex := times 40 (Class hexdigit).
Definition SHA256_PATTERN : regex := times 64 (Class hexdigit).

(** [^[a-zA-Z0-9._%+-]+@[a-zA-Z0-9.-]+\.[a-zA-Z]{2,}$] *)
Definition EMAIL_PATTERN : regex :=
  Cat (plus (Class (fun c => alnum c || is_char "." c || is_char "_" c
                             || is_char "%" c || is_char "+" c || is_char "-" c)))
      (Cat (lit "@")
           (Cat (plus (Class (fun c => alnum c || is_char "." c || is_char "-" c)))
                (Cat (lit ".") (at_least 2 (Class alpha))))).

(** [^https?://[^\s]+$] *)
Definition URL_PATTERN : regex :=
  Cat (lits (chars "http"))
      (Cat (opt (lit "s"))
           (Cat (lits (chars "://")) (plus (Class (fun c => negb (isspace c)))))).

(** [^T\d{4}(\.\d{3})?$]; below U+0100 the class [\d] is [0-9]. *)
Definition TECHNIQUE_PATTERN : regex :=
  Cat (lit "T")
      (Cat (times 4 (Class digit))
           (opt (Cat (lit ".") (times 3 (Class digit))))).

(** ** IOC classification and pattern synthesis *)

(** [STIXGenerator.detect_ioc_type]; [None] is Python's [None]. *)
Definition detect_ioc_type (ioc : string) : option string :=
  let ioc := strip ioc in
  if re_match IPV4_PATTERN ioc then Some "ipv4"
  else if re_match IPV6_PATTERN ioc then Some "ipv6"
  else if re_match DOMAIN_PATTERN ioc then Some "domain"
  else if re_match URL_PATTERN ioc then Some "url"
  else if re_match EMAIL_PATTERN ioc then Some "email"
  else if re_match MD5_PATTERN ioc then Some "md5"
  else if re_match SHA1_PATTERN ioc then Some "sha1"
  else if re_match SHA256_PATTERN ioc then Some "sha256"
  else None.

(** [dict.get(key, default)] on a dictionary literal with distinct keys. *)
Fixpoint assoc_get {A : Type} (key : string) (d : list (string * A)) (default : A) : A :=
  match d with
  | [] => default
  | (k, v) :: d' => if String.eqb k key then v else assoc_get key d' default
  end.

(** [STIXGenerator.create_indicator_pattern] *)
Definition create_indicator_pattern (ioc ioc_type : string) : string :=
  let patterns :=
    [ ("ipv4", "[network-traffic:dst_ref.type = 'ipv4-addr' AND network-traffic:dst_ref.value = '" +:+ ioc +:+ "']");
      ("ipv6", "[network-traffic:dst_ref.type = 'ipv6-addr' AND network-traffic:dst_ref.value = '" +:+ ioc +:+ "']");
      ("domain", "[domain-name:value = '" +:+ ioc +:+ "']");
      ("url", "[url:value = '" +:+ ioc +:+ "']");
      ("email", "[email-addr:value = '" +:+ ioc +:+ "']");
      ("md5", "[file:hashes.MD5 = '" +:+ lower ioc +:+ "']");
      ("sha1", "[file:hashes.SHA-1 = '" +:+ lower ioc +:+ "']");
      ("sha256", "[file:hashes.SHA-256 = '" +:+ lower ioc +:+ "']") ] in
  assoc_get ioc_type patterns ("[" +:+ ioc_type +:+ ":value = '" +:+ ioc +:+ "']").

(** ** JSON documents and Python's dynamic operations on them *)

Inductive json : Type :=
| JNull : json
| JBool (b : bool) : json
| JInt (n : Z) : json
| JFloat (m e : Z) : json   (* the double m * 2^e *)
| JStr (s : string) : json
| JArr (items : list json) : json
| JObj (fields : list (string * json)) : json.

(** A [dict] with string keys, in insertion order. *)
Definition dict (A : Type) : Type := list (string * A).

(** [d[key]] when present *)
Fixpoint dict_lookup {A : Type} (key : string) (d : dict A) : option A :=
  match d with
  | [] => None
  | (k, v) :: d' => if String.eqb k key then Some v else dict_lookup key d'
  end.

(** [key in d] *)
Definition dict_has {A : Type} (key : string) (d : dict A) : bool :=
  match dict_lookup key d with Some _ => true | None => false end.

(** [d.get(key, default)] *)
Definition dict_get {A : Type} (key : string) (d : dict A) (default : A) : A :=
  match dict_lookup key d with Some v => v | None => default end.

(** [d[key] = v]: an existing key keeps its place, a new one goes last. *)
Fixpoint dict_set {A : Type} (key : string) (v : A) (d : dict A) : dict A :=
  match d with
  | [] => [(key, v)]
  | (k, w) :: d' => if String.eqb k key then (k, v) :: d' else (k, w) :: dict_set key v d'
  end.

(** An exception: its class and [str(e)]. Message texts are CPython's. *)
Record exn : Type := Exn { exn_class : string; exn_message : string }.

Inductive outcome (A : Type) : Type :=
| Returns (a : A) : outcome A
| Raises (e : exn) : outcome A.
Arguments Returns {A} a.
Arguments Raises {A} e.

Declare Scope outcome_scope.
Delimit Scope outcome_scope with outcome.

Definition obind {A B : Type} (m : outcome A) (k : A -> outcome B) : outcome B :=
  match m with
  | Returns a => k a
  | Raises e => Raises e
  end.

Notation "'let?' x := m 'in' k" := (obind m (fun x => k))
  (at level 10, x name, m at level 100, k at level 200) : outcome_scope.

Definition type_name (v : json) : string :=
  match v with
  | JNull => "NoneType"
  | JBool _ => "bool"
  | JInt _ => "int"
  | JFloat _ _ => "float"
  | JStr _ => "str"
  | JArr _ => "list"
  | JObj _ => "dict"
  end.

Definition TypeError (msg : string) : exn := Exn "TypeError" msg.
Definition AttributeError (msg : string) : exn := Exn "AttributeError" msg.
Definition ValueError (msg : string) : exn := Exn "ValueError" msg.

Definition is_JStr (s : string) (v : json) : bool :=
  match v with JStr t => String.eqb t s | _ => false end.

(** [key in v] for a string [key] and any JSON value [v] *)
Definition py_in (key : string) (v : json) : outcome bool :=
  match v with
  | JObj d => Returns (dict_has key d)
  | JArr l => Returns (existsb (is_JStr key) l)
  | JStr s => Returns (substring_of key s)
  | _ => Raises (TypeError ("argument of type '" +:+ type_name v +:+ "' is not iterable"))
  end.

(** [v[key]] for a string [key], reached only after [key in v] held *)
Definition py_getitem (v : json) (key : string) : outcome json :=
  match v with
  | JObj d =>
      match dict_lookup key d with
      | Some x => Returns x
      | None => Raises (Exn "KeyError" ("'" +:+ key +:+ "'"))
      end
  | JArr _ => Raises (TypeError "list indices must be integers or slices, not str")
  | JStr _ => Raises (TypeError "string indices must be integers, not 'str'")
  | _ => Raises (TypeError ("'" +:+ type_name v +:+ "' object is not subscriptable"))
  end.

(** [v.get(key, default)] *)
Definition py_get (v : json) (key : string) (default : json) : outcome json :=
  match v with
  | JObj d => Returns (dict_get key d default)
  | _ => Raises (AttributeError ("'" +:+ type_name v +:+ "' object has no attribute 'get'"))
  end.

(** The items [for x in v] runs over. *)
Definition py_iter (v : json) : outcome (list json) :=
  match v with
  | JArr l => Returns l
  | JObj d => Returns (map (fun kv => JStr (fst kv)) d)
  | JStr s => Returns (map (fun c => JStr (String c EmptyString)) (chars s))
  | _ => Raises (TypeError ("'" +:+ type_name v +:+ "' object is not iterable"))
  end.

(** [bool(v)] *)
Definition truthy (v : json) : bool :=
  match v with
  | JNull => false
  | JBool b => b
  | JInt n => negb (n =? 0)%Z
  | JFloat m _ => negb (m =? 0)%Z
  | JStr s => negb (String.eqb s EmptyString)
  | JArr l => match l with [] => false | _ => true end
  | JObj d => match d with [] => false | _ => true end
  end.

(** ** STIX objects and the generator session *)

(** A [datetime], as microseconds since the epoch. *)
Definition datetime : Type := Z.

(** A keyword argument handed to a constructor of the [stix2] library. *)
Inductive pyval : Type :=
| PJson (v : json) : pyval
| PDatetime (t : datetime) : pyval.

Definition PStr (s : string) : pyval := PJson (JStr s).

(** An object built by the [stix2] library: its type, its generated id and
    the keyword arguments it was built from. *)
Record stix_object : Type := mk_object {
  obj_type : string;
  obj_id : string;
  obj_kwargs : dict pyval
}.

(** The attributes of a [STIXGenerator] and, after them, the process state
    its methods touch: the lines written to [sys.stderr], the number of
    identifiers drawn and the number of clock readings. *)
Record state : Type := mk_state {
  identity : stix_object;
  objects : list stix_object;
  relationships : list stix_object;
  stderr : list string;
  uuids : nat;
  ticks : nat
}.

Definition M (A : Type) : Type := state -> outcome A * state.

Definition ret {A : Type} (a : A) : M A := fun st => (Returns a, st).
Definition raise {A : Type} (e : exn) : M A := fun st => (Raises e, st).
Definition bind {A B : Type} (m : M A) (k : A -> M B) : M B :=
  fun st =>
    match m st with
    | (Returns a, st') => k a st'
    | (Raises e, st') => (Raises e, st')
    end.
Definition lift {A : Type} (o : outcome A) : M A := fun st => (o, st).

Declare Scope gen_scope.
Delimit Scope gen_scope with gen.
Notation "x <- m ;; k" := (bind m (fun x => k))
  (at level 100, m at next level, right associativity) : gen_scope.
Notation "m ;;; k" := (bind m (fun _ => k))
  (at level 100, right associativity) : gen_scope.
Local Open Scope gen_scope.

(** [for x in xs: body x] *)
Fixpoint for_each {A : Type} (xs : list A) (body : A -> M unit) : M unit :=
  match xs with
  | [] => ret tt
  | x :: xs' => body x ;;; for_each xs' body
  end.

(** [print(msg, file=sys.stderr)] *)
Definition print_stderr (msg : string) : M unit :=
  fun st => (Returns tt,
             mk_state (identity st) (objects st) (relationships st)
                      (stderr st ++ [msg]) (uuids st) (ticks st)).

(** [self.objects.append(o)] *)
Definition objects_append (o : stix_object) : M unit :=
  fun st => (Returns tt,
             mk_state (identity st) (objects st ++ [o]) (relationships st)
                      (stderr st) (uuids st) (ticks st)).

(** [self.relationships.append(o)] *)
Definition relationships_append (o : stix_object) : M unit :=
  fun st => (Returns tt,
             mk_state (identity st) (objects st) (relationships st ++ [o])
                      (stderr st) (uuids st) (ticks st)).

(** [self.identity.id] *)
Definition identity_id : M string := fun st => (Returns (obj_id (identity st)), st).

Section Generator.

(** What the session takes from outside the repository: the identifiers
    [uuid.uuid4] hands out, the readings of the clock, the parser
    [datetime.fromisoformat] ([None] when it raises [ValueError]), the schema
    validation a [stix2] constructor runs on its arguments ([Some msg] when
    it raises), and [repr] of a JSON value. *)
Variable uuid4 : nat -> string.
Variable clock : nat -> datetime.
Variable fromisoformat : string -> option datetime.
Variable stix2_check : string -> dict pyval -> option string.
Variable py_repr : json -> string.

(** [str(v)], as an f-string formats a value *)
Definition py_str (v : json) : string :=
  match v with
  | JStr s => s
  | _ => py_repr v
  end.

(** A constructor call of the library, [Indicator] on its keyword arguments
    and the like:
    the arguments are validated and an identifier [<type>--<uuid4>] is
    generated. *)
Definition stix2_new (type : string) (kwargs : dict pyval) : M stix_object :=
  fun st =>
    match stix2_check type kwargs with
    | Some msg => (Raises (Exn "InvalidValueError" msg), st)
    | None =>
        (Returns (mk_object type (type +:+ "--" +:+ uuid4 (uuids st)) kwargs),
         mk_state (identity st) (objects st) (relationships st)
                  (stderr st) (S (uuids st)) (ticks st))
    end.

(** [datetime.now(timezone.utc)] *)
Definition datetime_now : M datetime :=
  fun st => (Returns (clock (ticks st)),
             mk_state (identity st) (objects st) (relationships st)
                      (stderr st) (uuids st) (S (ticks st))).

(** The process state a session starts from. *)
Record world : Type := mk_world {
  w_stderr : list string;
  w_uuids : nat;
  w_ticks : nat
}.

(** [STIXGenerator._create_default_identity], before [self] has attributes *)
Definition _create_default_identity (w : world) : outcome stix_object * world :=
  let kwargs := [("name", PStr "STIX Generator");
                 ("identity_class", PStr "system");
                 ("description", PStr "Automated STIX object generator")] in
  match stix2_check "identity" kwargs with
  | Some msg => (Raises (Exn "InvalidValueError" msg), w)
  | None =>
      (Returns (mk_object "identity" ("identity--" +:+ uuid4 (w_uuids w)) kwargs),
       mk_world (w_stderr w) (S (w_uuids w)) (w_ticks w))
  end.

(** [STIXGenerator.__init__]: [identity or self._create_default_identity()];
    a library object is never falsy. *)
Definition __init__ (identity : option stix_object) (w : world) : outcome state :=
  match identity with
  | Some i => Returns (mk_state i [] [] (w_stderr w) (w_uuids w) (w_ticks w))
  | None =>
      match _create_default_identity w with
      | (Returns i, w') => Returns (mk_state i [] [] (w_stderr w') (w_uuids w') (w_ticks w'))
      | (Raises e, _) => Raises e
      end
  end.

(** The keyword arguments of [generate_indicator] after [ioc]. *)
Record indicator_options : Type := mk_options {
  opt_labels : option (list string);
  opt_pattern_type : string;
  opt_valid_from : option datetime;
  opt_valid_until : option datetime;
  opt_confidence : Z;
  opt_description : option string
}.

Definition default_options : indicator_options :=
  mk_options None "stix" None None 75 None.

(** [STIXGenerator.generate_indicator] *)
Definition generate_indicator (ioc : string) (o : indicator_options)
  : M (option stix_object) :=
  match detect_ioc_type ioc with
  | None =>
      print_stderr ("Warning: Could not detect IOC type for: " +:+ ioc) ;;;
      ret None
  | Some ioc_type =>
      let pattern := create_indicator_pattern ioc ioc_type in
      valid_from <- match opt_valid_from o with
                    | Some t => ret t
                    | None => datetime_now
                    end ;;
      let indicator_name := upper ioc_type +:+ ": " +:+ ioc in
      let description :=
        match opt_description o with
        | Some d => if String.eqb d EmptyString then "Indicator for " +:+ ioc_type +:+ " " +:+ ioc else d
        | None => "Indicator for " +:+ ioc_type +:+ " " +:+ ioc
        end in
      let labels :=
        match opt_labels o with
        | Some (l :: ls) => l :: ls
        | _ => ["malicious-activity"]
        end in
      created_by <- identity_id ;;
      let kwargs :=
        [("name", PStr indicator_name);
         ("pattern", PStr pattern);
         ("pattern_type", PStr (opt_pattern_type o));
         ("valid_from", PDatetime valid_from);
         ("labels", PJson (JArr (map JStr labels)));
         ("confidence", PJson (JInt (opt_confidence o)));
         ("description", PStr description);
         ("created_by_ref", PStr created_by)] in
      let kwargs :=
        match opt_valid_until o with
        | Some t => dict_set "valid_until" (PDatetime t) kwargs
        | None => kwargs
        end in
      i <- stix2_new "indicator" kwargs ;;
      ret (Some i)
  end.

(** [STIXGenerator.generate_indicators_from_file], from the lines of the
    opened file on. *)
Fixpoint generate_indicators_from_lines (lines : list string) (o : indicator_options)
  (indicators : list stix_object) : M (list stix_object) :=
  match lines with
  | [] => ret indicators
  | line :: rest =>
      let ioc := strip line in
      if negb (String.eqb ioc EmptyString) && negb (startswith "#" ioc) then
        r <- generate_indicator ioc o ;;
        match r with
        | Some indicator =>
            objects_append indicator ;;;
            generate_indicators_from_lines rest o (indicators ++ [indicator])
        | None => generate_indicators_from_lines rest o indicators
        end
      else generate_indicators_from_lines rest o indicators
  end.

Definition generate_indicators_from_file (lines : list string) (o : indicator_options)
  : M (list stix_object) :=
  generate_indicators_from_lines lines o [].

(** [STIXGenerator.generate_attack_pattern] *)
Definition generate_attack_pattern (technique_id : string)
  (name description : option string) : M (option stix_object) :=
  if negb (re_match TECHNIQUE_PATTERN technique_id) then
    print_stderr ("Warning: Invalid MITRE ATT&CK technique ID: " +:+ technique_id) ;;;
    ret None
  else
    let name :=
      match name with
      | Some n => if String.eqb n EmptyString then "MITRE ATT&CK Technique " +:+ technique_id else n
      | None => "MITRE ATT&CK Technique " +:+ technique_id
      end in
    let description :=
      match description with
      | Some d =>
          if String.eqb d EmptyString
          then "Attack pattern based on MITRE ATT&CK technique " +:+ technique_id
          else d
      | None => "Attack pattern based on MITRE ATT&CK technique " +:+ technique_id
      end in
    created_by <- identity_id ;;
    attack_pattern <-
      stix2_new "attack-pattern"
        [("name", PStr name);
         ("description", PStr description);
         ("external_references",
           PJson (JArr [JObj [("source_name", JStr "mitre-attack");
                              ("external_id", JStr technique_id);
                              ("url", JStr ("https://attack.mitre.org/techniques/"
                                            +:+ replace_char "." "/" technique_id +:+ "/"))]]));
         ("created_by_ref", PStr created_by)] ;;
    objects_append attack_pattern ;;;
    ret (Some attack_pattern).

(** [if field in config: kwargs[field] = config[field]] *)
Definition copy_field (config : dict json) (field : string) (kwargs : dict pyval)
  : dict pyval :=
  match dict_lookup field config with
  | Some v => dict_set field (PJson v) kwargs
  | None => kwargs
  end.

(** [STIXGenerator.generate_malware] *)
Definition generate_malware (config : dict json) : M stix_object :=
  created_by <- identity_id ;;
  let kwargs :=
    [("name", PJson (dict_get "name" config (JStr "Unknown Malware")));
     ("malware_types", PJson (dict_get "malware_types" config (JArr [JStr "unknown"])));
     ("is_family", PJson (dict_get "is_family" config (JBool true)));
     ("created_by_ref", PStr created_by)] in
  let kwargs := copy_field config "description" kwargs in
  let kwargs := copy_field config "capabilities" kwargs in
  let kwargs := copy_field config "kill_chain_phases" kwargs in
  let kwargs := copy_field config "aliases" kwargs in
  malware <- stix2_new "malware" kwargs ;;
  objects_append malware ;;;
  ret malware.

(** A Relationship built and recorded by a composite generator:
    [rel = Relationship(...)], [self.relationships.append(rel)],
    [self.objects.append(rel)]. *)
Definition add_relationship (relationship_type source_ref target_ref : string) : M unit :=
  created_by <- identity_id ;;
  rel <- stix2_new "relationship"
           [("relationship_type", PStr relationship_type);
            ("source_ref", PStr source_ref);
            ("target_ref", PStr target_ref);
            ("created_by_ref", PStr created_by)] ;;
  relationships_append rel ;;;
  objects_append rel.

(** The call [self.generate_attack_pattern(ttp)] on an element of a JSON
    list: [TECHNIQUE_PATTERN.match] raises on anything but a string. *)
Definition generate_attack_pattern_of (ttp : json) : M (option stix_object) :=
  match ttp with
  | JStr technique_id => generate_attack_pattern technique_id None None
  | _ => raise (TypeError ("expected string or bytes-like object, got '"
                           +:+ type_name ttp +:+ "'"))
  end.

(** [STIXGenerator.generate_threat_actor] *)
Definition generate_threat_actor (config : dict json) : M stix_object :=
  created_by <- identity_id ;;
  let kwargs :=
    [("name", PJson (dict_get "name" config (JStr "Unknown Threat Actor")));
     ("threat_actor_types",
       PJson (dict_get "threat_actor_types" config (JArr [JStr "unknown"])));
     ("created_by_ref", PStr created_by)] in
  let optional_fields :=
    ["description"; "aliases"; "roles"; "goals"; "sophistication";
     "resource_level"; "primary_motivation"; "secondary_motivations";
     "personal_motivations"] in
  let kwargs := fold_left (fun kw field => copy_field config field kw)
                          optional_fields kwargs in
  threat_actor <- stix2_new "threat-actor" kwargs ;;
  objects_append threat_actor ;;;
  match dict_lookup "observed_ttps" config with
  | Some ttps =>
      items <- lift (py_iter ttps) ;;
      for_each items (fun ttp =>
        r <- generate_attack_pattern_of ttp ;;
        match r with
        | Some attack_pattern =>
            add_relationship "uses" (obj_id threat_actor) (obj_id attack_pattern)
        | None => ret tt
        end)
  | None => ret tt
  end ;;;
  ret threat_actor.

(** The call of a generator on a value taken from a JSON document: the
    first [config.get] raises on anything but a dictionary. *)
Definition as_config (v : json) : M (dict json) :=
  match v with
  | JObj d => ret d
  | _ => raise (AttributeError ("'" +:+ type_name v +:+ "' object has no attribute 'get'"))
  end.

(** One round of the loop over [optional_fields] in [generate_campaign]. *)
Definition campaign_field (config : dict json) (kwargs : dict pyval) (field : string)
  : outcome (dict pyval) :=
  match dict_lookup field config with
  | Some v =>
      match v with
      | JStr s =>
          if String.eqb field "first_seen" || String.eqb field "last_seen" then
            let text := replace_char "Z" "+00:00" s in
            match fromisoformat text with
            | Some t => Returns (dict_set field (PDatetime t) kwargs)
            | None => Raises (ValueError ("Invalid isoformat string: " +:+ py_repr (JStr text)))
            end
          else Returns (dict_set field (PJson v) kwargs)
      | _ => Returns (dict_set field (PJson v) kwargs)
      end
  | None => Returns kwargs
  end.

Fixpoint campaign_fields (config : dict json) (fields : list string) (kwargs : dict pyval)
  : outcome (dict pyval) :=
  match fields with
  | [] => Returns kwargs
  | field :: rest =>
      obind (campaign_field config kwargs field) (campaign_fields config rest)
  end.

(** [STIXGenerator.generate_campaign] *)
Definition generate_campaign (config : dict json) : M stix_object :=
  created_by <- identity_id ;;
  let kwargs :=
    [("name", PJson (dict_get "name" config (JStr "Unknown Campaign")));
     ("created_by_ref", PStr created_by)] in
  let optional_fields := ["description"; "aliases"; "first_seen"; "last_seen"; "objective"] in
  kwargs <- lift (campaign_fields config optional_fields kwargs) ;;
  campaign <- stix2_new "campaign" kwargs ;;
  objects_append campaign ;;;
  match dict_lookup "threat_actor" config with
  | Some actor_config =>
      actor_config <- as_config actor_config ;;
      threat_actor <- generate_threat_actor actor_config ;;
      add_relationship "attributed-to" (obj_id campaign) (obj_id threat_actor)
  | None => ret tt
  end ;;;
  match dict_lookup "malware" config with
  | Some malware_list =>
      items <- lift (py_iter malware_list) ;;
      for_each items (fun malware_config =>
        malware_config <- as_config malware_config ;;
        malware <- generate_malware malware_config ;;
        add_relationship "uses" (obj_id campaign) (obj_id malware))
  | None => ret tt
  end ;;;
  ret campaign.

(** ** Bundles *)

(** What [validate_bundle] asks of its argument: the value of
    [json.loads(bundle.serialize())], or the exception the expression raises. *)
Record Bundle : Type := mk_bundle { loads_serialize : outcome json }.

(** The properties the library serialises for an object besides its type
    and its id. *)
Variable stix2_properties : stix_object -> dict json.

Definition object_json (o : stix_object) : json :=
  JObj (("type", JStr (obj_type o)) :: ("id", JStr (obj_id o)) :: stix2_properties o).

(** The library's [Bundle(objects=objs)]: the constructor drops a keyword
    argument that is an empty list, so the bundle of no objects has no
    [objects] property. *)
Definition stix2_Bundle (id : string) (objs : list stix_object) : Bundle :=
  mk_bundle
    (Returns (JObj ([("type", JStr "bundle"); ("id", JStr id)]
                    ++ match objs with
                       | [] => []
                       | _ :: _ => [("objects", JArr (map object_json objs))]
                       end))).

(** [STIXGenerator.create_bundle] *)
Definition create_bundle : M Bundle :=
  fun st =>
    (Returns (stix2_Bundle ("bundle--" +:+ uuid4 (uuids st)) (objects st)),
     mk_state (identity st) (objects st) (relationships st)
              (stderr st) (S (uuids st)) (ticks st)).

Local Open Scope outcome_scope.
Local Open Scope list_scope.

(** The body of the loop [for obj in bundle_dict.get("objects", [])]. *)
Definition check_object (errors : list string) (obj : json) : outcome (list string) :=
  let? has_type := py_in "type" obj in
  let? errors :=
    (if negb has_type then
       let? i := py_get obj "id" (JStr "unknown") in
       Returns (errors ++ ["Object missing type: " +:+ py_str i])
     else Returns errors) in
  let? has_id := py_in "id" obj in
  if negb has_id then
    let? t := py_get obj "type" (JStr "unknown") in
    Returns (errors ++ ["Object missing id: " +:+ py_str t])
  else Returns errors.

Fixpoint check_objects (errors : list string) (objs : list json) : outcome (list string) :=
  match objs with
  | [] => Returns errors
  | obj :: rest => let? errors := check_object errors obj in check_objects errors rest
  end.

(** [v != "bundle"] and the like *)
Definition differs_from (s : string) (v : json) : bool := negb (is_JStr s v).

(** The [try] block of [validate_bundle], from [bundle_dict] on. *)
Definition check_bundle (bundle_dict : json) : outcome (bool * list string) :=
  let errors := [] in
  let? has_type := py_in "type" bundle_dict in
  let? bad_type :=
    (if negb has_type then Returns true
     else let? t := py_getitem bundle_dict "type" in Returns (differs_from "bundle" t)) in
  let errors := if bad_type then errors ++ ["Invalid bundle type"] else errors in
  let? has_objects := py_in "objects" bundle_dict in
  let? no_objects :=
    (if negb has_objects then Returns true
     else let? o := py_getitem bundle_dict "objects" in Returns (negb (truthy o))) in
  let errors := if no_objects then errors ++ ["Bundle has no objects"] else errors in
  let? objs := py_get bundle_dict "objects" (JArr []) in
  let? items := py_iter objs in
  let? errors := check_objects errors items in
  Returns (Nat.eqb (length errors) 0, errors).

(** [STIXGenerator.validate_bundle] *)
Definition validate_bundle (bundle : Bundle) : bool * list string :=
  match (let? bundle_dict := loads_serialize bundle in check_bundle bundle_dict) with
  | Returns report => report
  | Raises e => (false, [exn_message e])
  end.

Local Close Scope outcome_scope.

(** ** A session as a sequence of generator calls *)

Inductive call : Type :=
| CallIndicator (ioc : string) (o : indicator_options)
| CallIndicatorsFromFile (lines : list string) (o : indicator_options)
| CallAttackPattern (technique_id : string) (name description : option string)
| CallMalware (config : dict json)
| CallThreatActor (config : dict json)
| CallCampaign (config : dict json).

(** The session after one call, whether the call returned or raised. *)
Definition run_call (c : call) (st : state) : state :=
  match c with
  | CallIndicator ioc o => snd (generate_indicator ioc o st)
  | CallIndicatorsFromFile lines o => snd (generate_indicators_from_file lines o st)
  | CallAttackPattern t n d => snd (generate_attack_pattern t n d st)
  | CallMalware config => snd (generate_malware config st)
  | CallThreatActor config => snd (generate_threat_actor config st)
  | CallCampaign config => snd (generate_campaign config st)
  end.

Definition run_calls (cs : list call) (st : state) : state :=
  fold_left (fun st c => run_call c st) cs st.

End Generator.

(** ** The validator script ([validate_stix.py]) *)

(** [stix2validator.ValidationOptions], with the fields the script sets. *)
Record ValidationOptions : Type := mk_validation_options {
  version : string;
  strict : bool;
  enforce_refs : bool
}.

(** [create_options] *)
Definition create_options (strict enforce_refs : bool) : ValidationOptions :=
  mk_validation_options "2.1" strict enforce_refs.

(** The result objects of [stix2validator.validate_file], with the
    attributes the script reads. *)
Record object_result : Type := mk_object_result {
  object_id : string;
  object_type : string;
  result_errors : list string;
  result_warnings : list string
}.

Record file_results : Type := mk_file_results {
  is_valid : bool;
  object_results : list object_result;
  fatal : option string
}.

(** An entry of [output["errors"]] or [output["warnings"]]. *)
Record error_info : Type := mk_error_info {
  info_id : string;
  info_type : string;
  info_message : string
}.

(** The dictionary [output] of [validate_single_file]. *)
Record report : Type := mk_report {
  report_file : string;
  report_valid : bool;
  report_errors : list error_info;
  report_warnings : list error_info
}.

Section ValidatorScript.

(** [stix2validator.validate_file], applied to a path and the options. *)
Variable validate_file : string -> ValidationOptions -> file_results.

(** [validate_single_file], without the printing. *)
Definition validate_single_file (filepath : string) (options : ValidationOptions)
  : bool * report :=
  let results := validate_file filepath options in
  let errors :=
    flat_map (fun r => map (fun e => mk_error_info (object_id r) (object_type r) e)
                           (result_errors r))
             (object_results results) in
  let warnings :=
    flat_map (fun r => map (fun w => mk_error_info (object_id r) (object_type r) w)
                           (result_warnings r))
             (object_results results) in
  match fatal results with
  | Some f =>
      (false, mk_report filepath false (errors ++ [mk_error_info EmptyString "fatal" f]) warnings)
  | None =>
      (is_valid results, mk_report filepath (is_valid results) errors warnings)
  end.

End ValidatorScript.

(** *** The library's checks *)

Definition str_field (key : string) (o : json) : option string :=
  match o with
  | JObj d =>
      match dict_lookup key d with
      | Some (JStr s) => Some s
      | _ => None
      end
  | _ => None
  end.

Definition bundle_objects (doc : json) : list json :=
  match doc with
  | JObj d =>
      match dict_lookup "objects" d with
      | Some (JArr l) => l
      | _ => []
      end
  | _ => []
  end.

(** The ids present in a bundle's object list. *)
Definition object_ids (objs : list json) : list string :=
  flat_map (fun o => match str_field "id" o with Some i => [i] | None => [] end) objs.

Definition is_relationship (o : json) : bool :=
  match str_field "type" o with
  | Some t => String.eqb t "relationship"
  | None => false
  end.

(** A reference resolves when it is the id of an object of the bundle. *)
Definition resolves (ids : list string) (ref : option string) : bool :=
  match ref with
  | Some r => existsb (String.eqb r) ids
  | None => false
  end.

(** A relationship with an endpoint that does not resolve. *)
Definition dangling (ids : list string) (o : json) : bool :=
  is_relationship o
  && negb (resolves ids (str_field "source_ref" o) && resolves ids (str_field "target_ref" o)).

Definition unresolved_reference : string :=
  "Relationship reference does not resolve within the bundle".

(** Modelled from the spec: the checks of [stix2validator.validate_file],
    which the script imports and which is not part of the repository, as the
    Bundle Validator is specified: (a) the type tag is "bundle", (b) the
    object list is not empty, (c) every member has a type and an id and,
    when reference enforcement is requested, (d) the source and the target id
    of every relationship are ids of objects of the same bundle. The first
    argument is the parsed content of the file. *)
Definition validate_document (doc : json) (options : ValidationOptions) : file_results :=
  let objs := bundle_objects doc in
  let ids := object_ids objs in
  let check (o : json) : object_result :=
    mk_object_result
      (match str_field "id" o with Some i => i | None => EmptyString end)
      (match str_field "type" o with Some t => t | None => EmptyString end)
      ((match str_field "type" o with Some _ => [] | None => ["Object has no type"] end)
       ++ (match str_field "id" o with Some _ => [] | None => ["Object has no id"] end)
       ++ (if enforce_refs options && dangling ids o
           then [unresolved_reference]
           else []))
      [] in
  let results := map check objs in
  let fatal :=
    if negb (match str_field "type" doc with Some t => String.eqb t "bundle" | None => false end)
    then Some "Invalid bundle type"
    else match objs with
         | [] => Some "Bundle has no objects"
         | _ :: _ => None
         end in
  mk_file_results
    (forallb (fun r => match result_errors r with [] => true | _ :: _ => false end) results
     && match fatal with None => true | Some _ => false end)
    results fatal.

(** ** Specification vocabulary *)

(** The classifier as a list of format tests tried in order. *)
Definition priority : list (regex * string) :=
  [ (IPV4_PATTERN, "ipv4"); (IPV6_PATTERN, "ipv6"); (DOMAIN_PATTERN, "domain");
    (URL_PATTERN, "url"); (EMAIL_PATTERN, "email"); (MD5_PATTERN, "md5");
    (SHA1_PATTERN, "sha1"); (SHA256_PATTERN, "sha256") ].

Fixpoint first_match (tests : list (regex * string)) (s : string) : option string :=
  match tests with
  | [] => None
  | (r, tag) :: rest => if re_match r s then Some tag else first_match rest s
  end.

(** No test of the list matches. *)
Definition no_match (s : string) (tests : list (regex * string)) : bool :=
  forallb (fun t => negb (re_match (fst t) s)) tests.

(** One to three decimal digits. *)
Definition digit_group (g : list ascii) : Prop :=
  (1 <= length g <= 3)%nat /\ forallb digit g = true.

(** Four digit groups separated by dots. *)
Definition dotted_quad (s : string) : Prop :=
  exists a b c d : list ascii,
    chars s = a ++ "."%char :: b ++ "."%char :: c ++ "."%char :: d
    /\ digit_group a /\ digit_group b /\ digit_group c /\ digit_group d.

(** Exactly [n] hexadecimal digits. *)
Definition hex_string (n : nat) (s : string) : Prop :=
  length (chars s) = n /\ forallb hexdigit (chars s) = true.

(** All characters. *)
Definition all_ascii : list ascii := map ascii_of_nat (seq 0 256).

(** [requires q r]: every word of [r] has a character outside [q]. *)
Fixpoint requires (q : ascii -> bool) (r : regex) : bool :=
  match r with
  | Void => true
  | Eps => false
  | Class p => forallb (fun c => negb (p c && q c)) all_ascii
  | Cat r1 r2 => requires q r1 || requires q r2
  | Alt r1 r2 => requires q r1 && requires q r2
  | Star _ => false
  end.

(** A bound on the length of the words of [r], when there is one. *)
Fixpoint max_length (r : regex) : option nat :=
  match r with
  | Void => Some 0%nat
  | Eps => Some 0%nat
  | Class _ => Some 1%nat
  | Cat r1 r2 =>
      match max_length r1, max_length r2 with
      | Some a, Some b => Some (a + b)%nat
      | _, _ => None
      end
  | Alt r1 r2 =>
      match max_length r1, max_length r2 with
      | Some a, Some b => Some (Nat.max a b)
      | _, _ => None
      end
  | Star _ => None
  end.

(** The type tags [create_indicator_pattern] has a template for. *)
Definition recognized_types : list string :=
  ["ipv4"; "ipv6"; "domain"; "url"; "email"; "md5"; "sha1"; "sha256"].

(** A keyword argument of the constructor call that built the object. *)
Definition kwarg (key : string) (o : stix_object) : option pyval :=
  dict_lookup key (obj_kwargs o).

(** The technique identifier format: [T], four digits and, optionally, a
    dot and three digits. *)
Definition technique_format (s : string) : bool :=
  match chars s with
  | [t; a; b; c; d] => is_char "T" t && forallb digit [a; b; c; d]
  | [t; a; b; c; d; dot; x; y; z] =>
      is_char "T" t && forallb digit [a; b; c; d] && is_char "." dot && forallb digit [x; y; z]
  | _ => false
  end.

(** The identifier "T1055" followed by a newline. *)
Definition T1055_newline : string := "T1055" +:+ String newline EmptyString.

(** The technique identifier in the external reference of an attack
    pattern. *)
Definition external_id_of (o : stix_object) : option string :=
  match kwarg "external_references" o with
  | Some (PJson (JArr [JObj d])) =>
      match dict_lookup "external_id" d with
      | Some (JStr s) => Some s
      | _ => None
      end
  | _ => None
  end.

(** An object of type relationship. *)
Definition is_relationship_object (o : stix_object) : bool :=
  String.eqb (obj_type o) "relationship".

(** From [st] to [st'] the session kept its identity, appended the objects
    [new] to its object list and the relationships among them to its
    relationship list. *)
Definition grows (st st' : state) (new : list stix_object) : Prop :=
  identity st' = identity st
  /\ objects st' = objects st ++ new
  /\ relationships st' = relationships st ++ List.filter is_relationship_object new.

(** The exception is one a library constructor raised on rejecting its
    arguments. *)
Definition rejected (stix2_check : string -> dict pyval -> option string)
  (e : exn) : Prop :=
  exists type kw, stix2_check type kw = Some (exn_message e).

(** A relationship object with the given type, endpoints and creator. *)
Definition relationship_is (rtype src tgt creator : string) (o : stix_object) : Prop :=
  obj_type o = "relationship"
  /\ obj_kwargs o = [("relationship_type", PStr rtype); ("source_ref", PStr src);
                     ("target_ref", PStr tgt); ("created_by_ref", PStr creator)].



(** The identifier the library gave the object starts with its type. *)
Definition identified (o : stix_object) : Prop :=
  exists u, obj_id o = obj_type o +:+ "--" +:+ u.

(** The strings of a list of JSON strings. *)
Fixpoint strings_of (items : list json) : option (list string) :=
  match items with
  | [] => Some []
  | JStr s :: rest =>
      match strings_of rest with
      | Some l => Some (s :: l)
      | None => None
      end
  | _ :: _ => None
  end.

(** The technique identifiers the loop over [config["observed_ttps"]] runs
    over, when each of them is a string. *)
Definition observed_ttps (config : dict json) : option (list string) :=
  match dict_lookup "observed_ttps" config with
  | None => Some []
  | Some v =>
      match py_iter v with
      | Returns items => strings_of items
      | Raises _ => None
      end
  end.

(** The objects appended by the loop over the observed techniques of the
    actor [actor_id]: for each identifier that matches the pattern, an attack
    pattern and the relationship "uses" from the actor to it. *)
Inductive ttp_trace (actor_id creator : string) : list string -> list stix_object -> Prop :=
| ttp_nil : ttp_trace actor_id creator [] []
| ttp_skip t ttps new :
    re_match TECHNIQUE_PATTERN t = false ->
    ttp_trace actor_id creator ttps new ->
    ttp_trace actor_id creator (t :: ttps) new
| ttp_add t ttps ap rel new :
    re_match TECHNIQUE_PATTERN t = true ->
    obj_type ap = "attack-pattern" ->
    external_id_of ap = Some t ->
    relationship_is "uses" actor_id (obj_id ap) creator rel ->
    ttp_trace actor_id creator ttps new ->
    ttp_trace actor_id creator (t :: ttps) (ap :: rel :: new).

(** A time stamp field of a campaign configuration that is a string is one
    [datetime.fromisoformat] parses, after the replacement of "Z". *)
Definition timestamp_parses (fromisoformat : string -> option datetime)
  (config : dict json) (field : string) : Prop :=
  match dict_lookup field config with
  | Some (JStr s) => fromisoformat (replace_char "Z" "+00:00" s) <> None
  | _ => True
  end.

Definition is_JObj (v : json) : bool :=
  match v with JObj _ => true | _ => false end.

(** The objects appended by the loop over the malware records of the
    campaign [campaign_id]: for each record, a malware object and the
    relationship "uses" from the campaign to it. *)
Inductive malware_trace (campaign_id creator : string) : list json -> list stix_object -> Prop :=
| malware_nil : malware_trace campaign_id creator [] []
| malware_add d items malware rel new :
    obj_type malware = "malware" ->
    identified malware ->
    kwarg "created_by_ref" malware = Some (PStr creator) ->
    relationship_is "uses" campaign_id (obj_id malware) creator rel ->
    malware_trace campaign_id creator items new ->
    malware_trace campaign_id creator (JObj d :: items) (malware :: rel :: new).

(** The configuration of a campaign raises no exception of its own: its
    time stamps parse, its threat actor is a record whose observed techniques
    are strings, and its malware entry is a collection of records. *)
Definition campaign_config_ok (fromisoformat : string -> option datetime)
  (config : dict json) : Prop :=
  timestamp_parses fromisoformat config "first_seen"
  /\ timestamp_parses fromisoformat config "last_seen"
  /\ match dict_lookup "threat_actor" config with
     | None => True
     | Some (JObj actor_config) => observed_ttps actor_config <> None
     | Some _ => False
     end
  /\ match dict_lookup "malware" config with
     | None => True
     | Some v => exists items, py_iter v = Returns items /\ forallb is_JObj items = true
     end.
(** The objects a campaign appends for its threat actor: the actor, what
    the actor's observed techniques yield, and the relationship
    "attributed-to" from the campaign to the actor. *)
Definition actor_part_of (config : dict json) (campaign_id creator : string)
  (part : list stix_object) : Prop :=
  match dict_lookup "threat_actor" config with
  | None => part = []
  | Some v =>
      exists actor_config actor ttps extra rel,
        v = JObj actor_config
        /\ obj_type actor = "threat-actor" /\ identified actor
        /\ kwarg "created_by_ref" actor = Some (PStr creator)
        /\ observed_ttps actor_config = Some ttps
        /\ ttp_trace (obj_id actor) creator ttps extra
        /\ relationship_is "attributed-to" campaign_id (obj_id actor) creator rel
        /\ part = actor :: extra ++ [rel]
  end.

(** The objects a campaign appends for its malware records. *)
Definition malware_part_of (config : dict json) (campaign_id creator : string)
  (part : list stix_object) : Prop :=
  match dict_lookup "malware" config with
  | None => part = []
  | Some v =>
      exists items, py_iter v = Returns items
                    /\ malware_trace campaign_id creator items part
  end.

(** The invariant of a session: the relationship list is the list of the
    relationship objects of the object list, in the same order. *)
Definition relationships_recorded (st : state) : Prop :=
  relationships st = List.filter is_relationship_object (objects st).

(** The errors the validator reports for a member object, as specified:
    one for a missing type field, one for a missing id field. *)
Definition member_errors (py_repr : json -> string) (o : dict json) : list string :=
  (if dict_has "type" o then []
   else ["Object missing type: " +:+ py_str py_repr (dict_get "id" o (JStr "unknown"))])
  ++ (if dict_has "id" o then []
      else ["Object missing id: " +:+ py_str py_repr (dict_get "type" o (JStr "unknown"))]).

(** The errors the validator reports for a bundle with the given members,
    as specified: in check order, one for a type tag that is not "bundle",
    one for an empty or missing object list, and those of each member. *)
Definition expected_errors (py_repr : json -> string) (doc : dict json)
  (members : list (dict json)) : list string :=
  (match dict_lookup "type" doc with
   | Some t => if is_JStr "bundle" t then [] else ["Invalid bundle type"]
   | None => ["Invalid bundle type"]
   end)
  ++ (match members with
      | [] => ["Bundle has no objects"]
      | _ :: _ => []
      end)
  ++ flat_map (member_errors py_repr) members.

(** The object list of the bundle document is [members], or it is missing
    and [members] is empty. *)
Definition has_members (doc : dict json) (members : list (dict json)) : Prop :=
  dict_lookup "objects" doc = Some (JArr (map JObj members))
  \/ (dict_lookup "objects" doc = None /\ members = []).

Definition no_errors (errors : list string) : bool :=
  match errors with [] => true | _ :: _ => false end.

(** [validate_file] on a path, given the parsed content of the file at each
    path: the checks on that content. *)
Definition validate_file_on (contents : string -> json) (filepath : string)
  (options : ValidationOptions) : file_results :=
  validate_document (contents filepath) options.

Definition id_of (o : json) : string :=
  match str_field "id" o with Some i => i | None => EmptyString end.

Definition type_of (o : json) : string :=
  match str_field "type" o with Some t => t | None => EmptyString end.

(** ** A sample environment and sample inputs *)

Definition sample_uuid4 (n : nat) : string := pretty n.
Definition sample_clock (n : nat) : datetime := Z.of_nat n.
Definition sample_fromisoformat (s : string) : option datetime := Some 0%Z.
Definition accept_all (type : string) (kw : dict pyval) : option string := None.
Definition sample_repr (v : json) : string := "<value>".
Definition sample_properties (o : stix_object) : dict json :=
  [("spec_version", JStr "2.1")].

Definition sample_identity : stix_object :=
  mk_object "identity" "identity--analyst"
    [("name", PStr "Analyst"); ("identity_class", PStr "organization")].

Definition sample_world : world := mk_world [] 0 0.

Definition sample_session : state := mk_state sample_identity [] [] [] 0 0.

(** A campaign with one threat actor, who was observed using one technique,
    and two malware records. *)
Definition sample_actor : dict json :=
  [("name", JStr "Group"); ("observed_ttps", JArr [JStr "T1055"])].

Definition sample_campaign : dict json :=
  [("name", JStr "Operation");
   ("first_seen", JStr "2024-01-01T00:00:00Z");
   ("threat_actor", JObj sample_actor);
   ("malware", JArr [JObj [("name", JStr "Loader")]; JObj [("name", JStr "Implant")]])].

(** A bundle document whose only object is a relationship between two
    objects that are not in the bundle. *)
Definition dangling_relationship : json :=
  JObj [("type", JStr "relationship"); ("id", JStr "relationship--1");
        ("relationship_type", JStr "uses");
        ("source_ref", JStr "campaign--1"); ("target_ref", JStr "malware--1")].

Definition dangling_document : json :=
  JObj [("type", JStr "bundle"); ("id", JStr "bundle--1");
        ("objects", JArr [dangling_relationship])].

(** Every character is white space. *)
Definition blank (s : string) : Prop := forallb isspace (chars s) = true.

(** The tag of a string of hexadecimal digits, by its length. *)
Definition hash_tag (n : nat) : option string :=
  if Nat.eqb n 32 then Some "md5"
  else if Nat.eqb n 40 then Some "sha1"
  else if Nat.eqb n 64 then Some "sha256"
  else None.

(** At most four hexadecimal digits. *)
Definition hex_group (g : list ascii) : Prop :=
  (length g <= 4)%nat /\ forallb hexdigit g = true.

(** Eight groups of at most four hexadecimal digits, separated by colons. *)
Definition colon_groups (s : string) : Prop :=
  exists g0 g1 g2 g3 g4 g5 g6 g7 : list ascii,
    chars s = g0 ++ ":"%char :: g1 ++ ":"%char :: g2 ++ ":"%char :: g3 ++ ":"%char
              :: g4 ++ ":"%char :: g5 ++ ":"%char :: g6 ++ ":"%char :: g7
    /\ hex_group g0 /\ hex_group g1 /\ hex_group g2 /\ hex_group g3
    /\ hex_group g4 /\ hex_group g5 /\ hex_group g6 /\ hex_group g7.

(** The types of the objects the generators append to the object list. *)
Definition generated_types : list string :=
  ["indicator"; "attack-pattern"; "malware"; "threat-actor"; "campaign"; "relationship"].

(** The endpoints of a relationship are among the known identifiers. *)
Definition endpoints_known (known : list string) (o : stix_object) : Prop :=
  is_relationship_object o = true ->
  exists src tgt,
    kwarg "source_ref" o = Some (PStr src) /\ kwarg "target_ref" o = Some (PStr tgt)
    /\ In src known /\ In tgt known.

(** The objects [new], appended in this order after objects with the
    identifiers [known]: each is of a generated type, has an identifier made
    of its type and of a uuid drawn at or after the draw [lo] and before the
    draw [hi], later than those of the objects before it, names [creator] as
    its creator and, when it is a relationship, has endpoints among the
    identifiers of the objects before it. *)
Inductive well_formed (uuid4 : nat -> string) (creator : string)
  : list string -> nat -> list stix_object -> nat -> Prop :=
| wf_nil known lo hi :
    (lo <= hi)%nat -> well_formed uuid4 creator known lo [] hi
| wf_cons known lo o new n hi :
    (lo <= n)%nat ->
    In (obj_type o) generated_types ->
    obj_id o = obj_type o +:+ "--" +:+ uuid4 n ->
    kwarg "created_by_ref" o = Some (PStr creator) ->
    endpoints_known known o ->
    well_formed uuid4 creator (known ++ [obj_id o]) (S n) new hi ->
    well_formed uuid4 creator known lo (o :: new) hi.

(** From [st] to [st'] the session appended the objects [new], well formed
    after the objects it had. *)
Definition advances (uuid4 : nat -> string) (st st' : state) (new : list stix_object)
  : Prop :=
  grows st st' new
  /\ well_formed uuid4 (obj_id (identity st)) (map obj_id (objects st)) (uuids st)
       new (uuids st').

(** The invariant of a session on its object list. *)
Definition session_ok (uuid4 : nat -> string) (st : state) : Prop :=
  well_formed uuid4 (obj_id (identity st)) [] 0 (objects st) (uuids st).






(** A member of a bundle's object list passes the checks of
    [validate_bundle] when ["type" in obj] and ["id" in obj] both hold. *)
Definition has_type_and_id (obj : json) : bool :=
  match py_in "type" obj, py_in "id" obj with
  | Returns true, Returns true => true
  | _, _ => false
  end.

(** ** The validator script's output ([validate_stix.py]) *)

(** The dictionary of an entry of [output["errors"]] or [output["warnings"]]. *)
Definition info_dict (e : error_info) : dict string :=
  [("id", info_id e); ("type", info_type e); ("message", info_message e)].

(** [format_error] *)
Definition format_error (error : dict string) : string :=
  let msg := dict_get "message" error "Unknown error" in
  let obj_id := dict_get "id" error EmptyString in
  let obj_type := dict_get "type" error EmptyString in
  if negb (String.eqb obj_id EmptyString)
  then "  [" +:+ obj_type +:+ "] " +:+ obj_id +:+ ": " +:+ msg
  else "  " +:+ msg.

(** The command line of the script, parsed. *)
Record arguments : Type := mk_arguments {
  arg_path : string;
  arg_strict : bool;
  arg_enforce_refs : bool;
  arg_recursive : bool;
  arg_json : bool;
  arg_quiet : bool
}.

(** What [parser.parse_args()] does with a command line: it returns the
    parsed arguments, or it prints a message of its own and exits, with
    status 2 on a usage error and with status 0 after the help text. *)
Inductive parsed : Type :=
| Parsed (args : arguments)
| Exits (status : nat) (out err : list string).

(** The value [json.dumps] is given for [output]. *)
Definition info_json (e : error_info) : json :=
  JObj [("id", JStr (info_id e)); ("type", JStr (info_type e));
        ("message", JStr (info_message e))].

Definition report_json (output : report) : json :=
  JObj [("file", JStr (report_file output)); ("valid", JBool (report_valid output));
        ("errors", JArr (map info_json (report_errors output)));
        ("warnings", JArr (map info_json (report_warnings output)))].

Definition nl : string := String newline EmptyString.

Section ValidatorOutput.

Variable validate_file : string -> ValidationOptions -> file_results.

(** The marks U+2705 and U+274C of the status texts; they lie outside the
    code points of [string]. *)
Variable check_mark : string.
Variable cross_mark : string.

(** [list(dirpath.glob(pattern))], [sorted], [path.exists()],
    [path.is_file()], [json.dumps(_, indent=2)] and [parser.parse_args()]
    with the parser of [main]. *)
Variable glob : string -> string -> list string.
Variable sorted : list string -> list string.
Variable path_exists : string -> bool.
Variable path_is_file : string -> bool.
Variable json_dumps : json -> string.
Variable parse_args : list string -> parsed.

(** The lines an entry list prints under its heading. *)
Definition print_entries (heading : string) (entries : list error_info) : list string :=
  match entries with
  | [] => []
  | _ :: _ =>
      (nl +:+ "  " +:+ heading +:+ " (" +:+ pretty (length entries) +:+ "):")
        :: map (fun e => format_error (info_dict e)) entries
  end.

(** [print_results]: the texts it prints, one for each call of [print]. *)
Definition print_results (filepath : string) (output : report) : list string :=
  let status :=
    if report_valid output then check_mark +:+ " VALID" else cross_mark +:+ " INVALID" in
  [nl +:+ status +:+ ": " +:+ filepath]
  ++ print_entries "Errors" (report_errors output)
  ++ print_entries "Warnings" (report_warnings output).

(** [validate_single_file] with what it prints. *)
Definition validate_single_file_printing (filepath : string) (options : ValidationOptions)
  (output_json quiet : bool) : (bool * report) * list string :=
  let r := validate_single_file validate_file filepath options in
  (r, if negb output_json && negb quiet then print_results filepath (snd r) else []).

(** The loop of [validate_directory]. *)
Fixpoint validate_files (files : list string) (options : ValidationOptions)
  (output_json quiet : bool) (all_valid : bool) (all_results : list report)
  : (bool * list report) * list string :=
  match files with
  | [] => ((all_valid, all_results), [])
  | filepath :: rest =>
      let '((is_valid, result), out) :=
        validate_single_file_printing filepath options output_json quiet in
      let '(r, out') :=
        validate_files rest options output_json quiet
                       (if negb is_valid then false else all_valid)
                       (all_results ++ [result]) in
      (r, out ++ out')
  end.

(** [validate_directory] *)
Definition validate_directory (dirpath : string) (options : ValidationOptions)
  (recursive output_json quiet : bool) : (bool * list report) * list string :=
  let pattern := if recursive then "**/*.json" else "*.json" in
  let files := glob dirpath pattern in
  match files with
  | [] => ((true, []), ["No JSON files found in " +:+ dirpath])
  | _ :: _ => validate_files (sorted files) options output_json quiet true []
  end.

(** [main], from the parsed arguments on (what follows
    [args = parser.parse_args()]): the exit status, the texts printed on the
    standard output and those printed on the standard error stream. *)
Definition main (args : arguments) : nat * list string * list string :=
  if negb (path_exists (arg_path args)) then
    (1, [], ["Error: Path not found: " +:+ arg_path args])
  else
    let options := create_options (arg_strict args) (arg_enforce_refs args) in
    let '(is_valid, out) :=
      if path_is_file (arg_path args) then
        let '((is_valid, results), out) :=
          validate_single_file_printing (arg_path args) options (arg_json args)
                                        (arg_quiet args) in
        (is_valid,
         out ++ if arg_json args then [json_dumps (report_json results)] else [])
      else
        let '((is_valid, results), out) :=
          validate_directory (arg_path args) options (arg_recursive args)
                             (arg_json args) (arg_quiet args) in
        (is_valid,
         out ++ if arg_json args
                then [json_dumps (JObj [("results", JArr (map report_json results));
                                        ("all_valid", JBool is_valid)])]
                else []) in
    let out :=
      out ++ if negb (arg_json args)
             then [nl +:+ str (repeat "="%char 50);
                   "Overall: " +:+ (if is_valid then check_mark +:+ " All files valid"
                                    else cross_mark +:+ " Validation errors found")]
             else [] in
    (if is_valid then 0 else 1, out, []).

(** [main], from the command line on: [parser.parse_args()] exits by itself
    on a command line it does not accept and on a request for help. *)
Definition main_argv (argv : list string) : nat * list string * list string :=
  match parse_args argv with
  | Parsed args => main args
  | Exits status out err => (status, out, err)
  end.

End ValidatorOutput.

(** The keyword arguments [generate_malware] can pass to the library. *)
Definition malware_fields : list string :=
  ["name"; "malware_types"; "is_family"; "created_by_ref";
   "description"; "capabilities"; "kill_chain_phases"; "aliases"].

(** A sample run of the validator script: a directory with two files, each
    holding the bundle with the unresolved relationship. *)
Definition sample_validate_file : string -> ValidationOptions -> file_results :=
  validate_file_on (fun _ => dangling_document).

Definition sample_glob (dirpath pattern : string) : list string :=
  [dirpath +:+ "/b.json"; dirpath +:+ "/a.json"].

Definition sample_dumps (v : json) : string := "{...}".

Definition sample_json_arguments : arguments :=
  mk_arguments "bundles" false true false true false.

Definition sample_quiet_arguments : arguments :=
  mk_arguments "bundles" false true false false true.

(** A bundle document whose only member is a string. *)
Definition string_member_bundle : Bundle :=
  mk_bundle (Returns (JObj [("type", JStr "bundle"); ("objects", JArr [JStr "type-id"])])).

(** The session after a batch of indicators and a campaign. *)
Definition sample_run : state :=
  run_calls sample_uuid4 sample_clock sample_fromisoformat accept_all sample_repr
    [CallIndicatorsFromFile ["192.0.2.1"; "# comment"; "not-an-ioc"] default_options;
     CallCampaign sample_campaign]
    sample_session.

(** From [st] to [st'] as many objects were appended to the object list
    as identifiers were drawn from [uuid4]: each object the library built
    was recorded. *)
Definition balanced (st st' : state) : Prop :=
  (uuids st' + length (objects st) = uuids st + length (objects st'))%nat.

(** A computation that records each object it has the library build,
    whether it returns or raises. *)
Definition keeps_balance {A : Type} (m : M A) : Prop :=
  forall st, balanced st (snd (m st)).

(** The indicators that direct calls of [generate_indicator] returned to
    their caller in a sequence of calls that starts in [st]. *)
Fixpoint handed_back (uuid4 : nat -> string) (clock : nat -> datetime)
  (fromisoformat : string -> option datetime)
  (stix2_check : string -> dict pyval -> option string) (py_repr : json -> string)
  (cs : list call) (st : state) : list stix_object :=
  match cs with
  | [] => []
  | c :: rest =>
      match c with
      | CallIndicator ioc o =>
          match fst (generate_indicator uuid4 clock stix2_check ioc o st) with
          | Returns (Some i) => [i]
          | _ => []
          end
      | _ => []
      end
      ++ handed_back uuid4 clock fromisoformat stix2_check py_repr rest
           (run_call uuid4 clock fromisoformat stix2_check py_repr c st)
  end.

(** * Properties *)

(** ** Regular expressions: the matcher decides the language *)

Lemma nullable_Lang (r : regex) : nullable r = true <-> Lang r [].
Proof.
  induction r; simpl; split; intros H.
  - discriminate.
  - inversion H.
  - constructor.
  - reflexivity.
  - discriminate.
  - inversion H.
  - apply andb_true_iff in H as [H1 H2].
    change (@nil ascii) with (@nil ascii ++ []). constructor; tauto.
  - inversion H as [| | r1' r2' u v Hu Hv Heq1 Heq2 | | | |]; subst.
    apply app_eq_nil in Heq2 as [-> ->]. apply andb_true_iff; tauto.
  - apply orb_true_iff in H as [H | H]; [apply LAltL | apply LAltR]; tauto.
  - apply orb_true_iff. inversion H; subst; tauto.
  - constructor.
  - reflexivity.
Qed.

Lemma Lang_Star_cons (r : regex) (c : ascii) (w : list ascii) :
  Lang (Star r) (c :: w) ->
  exists u v, w = u ++ v /\ Lang r (c :: u) /\ Lang (Star r) v.
Proof.
  intros H. remember (Star r) as sr eqn:Er. remember (c :: w) as cw eqn:Ew.
  revert w Ew. induction H; intros w Ew; try discriminate.
  injection Er as ->. destruct u as [| x u].
  - simpl in Ew. apply IHLang2; auto.
  - simpl in Ew. injection Ew as -> <-. exists u, v. auto.
Qed.

Lemma deriv_Lang (r : regex) : forall c w, Lang (deriv c r) w <-> Lang r (c :: w).
Proof.
  induction r; intros c w; simpl.
  - split; intros H; inversion H.
  - split; intros H; inversion H.
  - destruct (p c) eqn:Hp; split; intros H.
    + inversion H; subst. constructor; auto.
    + inversion H; subst. constructor.
    + inversion H.
    + inversion H; subst. congruence.
  - destruct (nullable r1) eqn:Hn.
    + split; intros H.
      * inversion H as [| | | ? ? ? H1 | ? ? ? H1 | |]; subst.
        -- inversion H1; subst. change (c :: u ++ v) with ((c :: u) ++ v).
           constructor; auto. apply IHr1; auto.
        -- change (c :: w) with ([] ++ c :: w). constructor.
           ++ apply nullable_Lang; auto.
           ++ apply IHr2; auto.
      * inversion H as [| | ? ? u v Hu Hv Heq1 Heq2 | | | |]; subst.
        destruct u as [| x u]; simpl in Heq2.
        -- subst v. apply LAltR. apply IHr2; auto.
        -- injection Heq2 as -> <-. apply LAltL. constructor; auto. apply IHr1; auto.
    + split; intros H.
      * inversion H; subst. change (c :: u ++ v) with ((c :: u) ++ v).
        constructor; auto. apply IHr1; auto.
      * inversion H as [| | ? ? u v Hu Hv Heq1 Heq2 | | | |]; subst.
        destruct u as [| x u]; simpl in Heq2.
        -- apply nullable_Lang in Hu. congruence.
        -- injection Heq2 as -> <-. constructor; auto. apply IHr1; auto.
  - split; intros H; inversion H; subst;
      try (apply LAltL; apply IHr1; assumption);
      try (apply LAltR; apply IHr2; assumption).
  - split; intros H.
    + inversion H; subst. change (c :: u ++ v) with ((c :: u) ++ v).
      constructor; auto. apply IHr; auto.
    + apply Lang_Star_cons in H as (u & v & -> & Hu & Hv).
      constructor; auto. apply IHr; auto.
Qed.

Lemma accepts_Lang (w : list ascii) : forall r, accepts r w = true <-> Lang r w.
Proof.
  induction w as [| c w IH]; intros r; simpl.
  - apply nullable_Lang.
  - rewrite IH. apply deriv_Lang.
Qed.

Lemma re_match_Lang (r : regex) (s : string) :
  re_match r s = true <-> Lang (Cat r Dollar) (chars s).
Proof. unfold re_match. apply accepts_Lang. Qed.

Lemma in_all_ascii (c : ascii) : In c all_ascii.
Proof.
  unfold all_ascii. rewrite <- (ascii_nat_embedding c).
  apply in_map. apply in_seq. pose proof (nat_ascii_bounded c). lia.
Qed.

Lemma requires_Lang (q : ascii -> bool) (r : regex) (w : list ascii) :
  requires q r = true -> Lang r w -> forallb q w = true -> False.
Proof.
  intros Hr HL. revert Hr. induction HL; cbn [requires forallb]; intros Hr Hq.
  - discriminate.
  - rewrite forallb_forall in Hr. specialize (Hr c (in_all_ascii c)).
    rewrite andb_true_r in Hq. rewrite H, Hq in Hr. discriminate.
  - rewrite forallb_app in Hq. apply andb_true_iff in Hq as [Hu Hv].
    apply orb_true_iff in Hr as [Hr | Hr]; auto.
  - apply andb_true_iff in Hr as [Hr _]. auto.
  - apply andb_true_iff in Hr as [_ Hr]. auto.
  - discriminate.
  - discriminate.
Qed.

Lemma max_length_Lang (r : regex) (w : list ascii) :
  Lang r w -> forall n, max_length r = Some n -> (length w <= n)%nat.
Proof.
  induction 1; simpl; intros n Hn; try discriminate.
  - injection Hn as <-. lia.
  - injection Hn as <-. simpl. lia.
  - destruct (max_length r1) as [a |]; [| discriminate].
    destruct (max_length r2) as [b |]; [| discriminate].
    injection Hn as <-. rewrite length_app.
    specialize (IHLang1 _ eq_refl). specialize (IHLang2 _ eq_refl). lia.
  - destruct (max_length r1) as [a |]; [| discriminate].
    destruct (max_length r2) as [b |]; [| discriminate].
    injection Hn as <-. specialize (IHLang _ eq_refl). lia.
  - destruct (max_length r1) as [a |]; [| discriminate].
    destruct (max_length r2) as [b |]; [| discriminate].
    injection Hn as <-. specialize (IHLang _ eq_refl). lia.
Qed.

Lemma Lang_times_class (p : ascii -> bool) (n : nat) :
  forall g, length g = n -> forallb p g = true -> Lang (times n (Class p)) g.
Proof.
  induction n as [| n IH]; intros g Hlen Hp.
  - destruct g; [constructor | discriminate].
  - destruct g as [| c g]; [discriminate |]. simpl in *.
    apply andb_true_iff in Hp as [Hc Hg].
    change (c :: g) with ([c] ++ g). constructor.
    + constructor; auto.
    + apply IH; auto.
Qed.

Lemma Lang_upto_class (p : ascii -> bool) (n : nat) :
  forall g, (length g <= n)%nat -> forallb p g = true -> Lang (upto n (Class p)) g.
Proof.
  induction n as [| n IH]; intros g Hlen Hp.
  - destruct g; [constructor | simpl in Hlen; lia].
  - destruct g as [| c g]; simpl in *.
    + apply LAltR. constructor.
    + apply andb_true_iff in Hp as [Hc Hg]. apply LAltL.
      change (c :: g) with ([c] ++ g). constructor.
      * constructor; auto.
      * apply IH; auto. lia.
Qed.

Lemma Lang_between_class (p : ascii -> bool) (m n : nat) (g : list ascii) :
  (m <= length g <= n)%nat -> forallb p g = true -> Lang (between m n (Class p)) g.
Proof.
  intros Hlen Hp. unfold between.
  rewrite <- (firstn_skipn m g) in Hp. rewrite forallb_app in Hp.
  apply andb_true_iff in Hp as [H1 H2].
  rewrite <- (firstn_skipn m g). constructor.
  - apply Lang_times_class; auto. rewrite length_take. lia.
  - apply Lang_upto_class; auto. rewrite length_drop. lia.
Qed.

Lemma Lang_Dollar_nil : Lang Dollar [].
Proof. apply LAltR. constructor. Qed.

Lemma Lang_anchored (r : regex) (w : list ascii) : Lang r w -> Lang (Cat r Dollar) w.
Proof.
  intros H. rewrite <- (app_nil_r w). constructor; auto. apply Lang_Dollar_nil.
Qed.

(** ** Python strings *)

Lemma str_chars (s : string) : str (chars s) = s.
Proof. apply string_of_list_ascii_of_string. Qed.

Lemma chars_str (w : list ascii) : chars (str w) = w.
Proof. apply list_ascii_of_string_of_list_ascii. Qed.

Lemma lstrip_keeps (c : ascii) (w : list ascii) :
  isspace c = false -> lstrip_chars (c :: w) = c :: w.
Proof. intros H. simpl. rewrite H. reflexivity. Qed.

Lemma rstrip_keeps (c : ascii) (w : list ascii) :
  isspace c = false -> rstrip_chars (w ++ [c]) = w ++ [c].
Proof.
  intros H. unfold rstrip_chars. rewrite rev_app_distr. simpl.
  rewrite H. simpl. rewrite rev_involutive. reflexivity.
Qed.

(** A string that neither starts nor ends with white space is its own
    [strip]. *)
Lemma strip_keeps (s : string) (x y : ascii) (m1 m2 : list ascii) :
  chars s = x :: m1 -> chars s = m2 ++ [y] ->
  isspace x = false -> isspace y = false -> strip s = s.
Proof.
  intros H1 H2 Hx Hy. unfold strip. rewrite H1, lstrip_keeps by auto.
  rewrite <- H1, H2, rstrip_keeps by auto. rewrite <- H2. apply str_chars.
Qed.

Lemma strip_keeps_class (p : ascii -> bool) (s : string) :
  (forall c, p c = true -> isspace c = false) ->
  chars s <> [] -> forallb p (chars s) = true -> strip s = s.
Proof.
  intros Hp Hne Hall.
  destruct (chars s) as [| x m1] eqn:E1; [congruence |].
  destruct (exists_last Hne) as (m2 & y & E2).
  rewrite forallb_forall in Hall.
  apply (strip_keeps s x y m1 m2).
  - exact E1.
  - rewrite E1. exact E2.
  - apply Hp, Hall. left. reflexivity.
  - apply Hp, Hall. rewrite E2. apply in_or_app. right. left. reflexivity.
Qed.

Lemma digit_not_space (c : ascii) : digit c = true -> isspace c = false.
Proof. destruct c as [[] [] [] [] [] [] [] []]; vm_compute; congruence. Qed.

Lemma hexdigit_not_space (c : ascii) : hexdigit c = true -> isspace c = false.
Proof. destruct c as [[] [] [] [] [] [] [] []]; vm_compute; congruence. Qed.

(** ** IOC classification *)

Lemma first_match_Some (tests : list (regex * string)) (s tag : string) :
  first_match tests s = Some tag <->
  exists before r after,
    tests = before ++ (r, tag) :: after
    /\ re_match r s = true /\ no_match s before = true.
Proof.
  induction tests as [| [r0 t0] rest IH]; simpl.
  - split; [discriminate |]. intros (before & r & after & H & _).
    destruct before; discriminate.
  - destruct (re_match r0 s) eqn:E.
    + split.
      * intros [= <-]. exists [], r0, rest. auto.
      * intros (before & r & after & H & Hr & Hb).
        destruct before as [| [r1 t1] before]; simpl in H.
        -- injection H as -> -> ->. reflexivity.
        -- injection H as -> -> ->. simpl in Hb. rewrite E in Hb. discriminate.
    + rewrite IH. split.
      * intros (before & r & after & -> & Hr & Hb).
        exists ((r0, t0) :: before), r, after. simpl. rewrite E. auto.
      * intros (before & r & after & H & Hr & Hb).
        destruct before as [| [r1 t1] before]; simpl in H.
        -- injection H as -> -> ->. congruence.
        -- injection H as -> -> ->. simpl in Hb. rewrite E in Hb.
           exists before, r, after. auto.
Qed.

Lemma first_match_None (tests : list (regex * string)) (s : string) :
  first_match tests s = None <-> no_match s tests = true.
Proof.
  induction tests as [| [r0 t0] rest IH]; simpl.
  - tauto.
  - destruct (re_match r0 s); simpl.
    + split; discriminate.
    + exact IH.
Qed.

Lemma detect_ioc_type_first_match (s : string) :
  detect_ioc_type s = first_match priority (strip s).
Proof.
  unfold detect_ioc_type, priority. cbn [first_match].
  repeat match goal with |- context [re_match ?r ?x] => destruct (re_match r x) end;
    reflexivity.
Qed.

Lemma detect_ioc_type_range (s : string) :
  In (detect_ioc_type s)
     [Some "ipv4"; Some "ipv6"; Some "domain"; Some "url"; Some "email";
      Some "md5"; Some "sha1"; Some "sha256"; None].
Proof.
  unfold detect_ioc_type.
  repeat match goal with |- context [re_match ?r ?x] => destruct (re_match r x) end;
    simpl; tauto.
Qed.

Lemma digit_group_Lang (g : list ascii) :
  digit_group g -> Lang (between 1 3 (Class digit)) g.
Proof. intros [Hlen Hd]. apply Lang_between_class; auto. Qed.

Lemma dotted_quad_Lang (a b c d : list ascii) :
  digit_group a -> digit_group b -> digit_group c -> digit_group d ->
  Lang IPV4_PATTERN (a ++ "."%char :: b ++ "."%char :: c ++ "."%char :: d).
Proof.
  intros Ha Hb Hc Hd.
  assert (Hdot : forall g, digit_group g ->
            Lang (Cat (between 1 3 (Class digit)) (lit ".")) (g ++ ["."%char])).
  { intros g Hg. constructor.
    - apply digit_group_Lang; auto.
    - constructor. reflexivity. }
  replace (a ++ "."%char :: b ++ "."%char :: c ++ "."%char :: d)
    with (((a ++ ["."%char]) ++ (b ++ ["."%char]) ++ (c ++ ["."%char]) ++ []) ++ d).
  - unfold IPV4_PATTERN. constructor.
    + cbn [times]. repeat (constructor; auto).
    + apply digit_group_Lang; auto.
  - rewrite app_nil_r. rewrite <- !app_assoc. reflexivity.
Qed.

Lemma dotted_quad_ipv4 (s : string) : dotted_quad s -> detect_ioc_type s = Some "ipv4".
Proof.
  intros (a & b & c & d & Hs & Ha & Hb & Hc & Hd).
  assert (Hall : forallb (fun x => digit x || is_char "." x) (chars s) = true).
  { assert (Hw : forall g, digit_group g ->
              forallb (fun x => digit x || is_char "." x) g = true).
    { intros g [_ Hg]. rewrite forallb_forall in Hg. apply forallb_forall.
      intros x Hx. rewrite (Hg x Hx). reflexivity. }
    rewrite Hs. rewrite forallb_app. cbn [forallb]. rewrite forallb_app. cbn [forallb].
    rewrite forallb_app. cbn [forallb].
    rewrite (Hw a Ha), (Hw b Hb), (Hw c Hc), (Hw d Hd). reflexivity. }
  assert (Hstrip : strip s = s).
  { apply (strip_keeps_class (fun x => digit x || is_char "." x)); auto.
    - intros x Hx. destruct x as [[] [] [] [] [] [] [] []]; vm_compute in Hx |- *; congruence.
    - rewrite Hs. destruct a; discriminate. }
  unfold detect_ioc_type. rewrite Hstrip.
  assert (Hm : re_match IPV4_PATTERN s = true).
  { apply re_match_Lang. rewrite Hs. apply Lang_anchored. apply dotted_quad_Lang; auto. }
  rewrite Hm. reflexivity.
Qed.

Lemma hex_string_no_match (r : regex) (n : nat) (s : string) :
  hex_string n s ->
  requires hexdigit (Cat r Dollar) = true
  \/ (exists m, max_length (Cat r Dollar) = Some m /\ (m < n)%nat) ->
  re_match r s = false.
Proof.
  intros [Hlen Hhex] H. destruct (re_match r s) eqn:E; [| reflexivity].
  apply re_match_Lang in E. destruct H as [H | (m & Hm & Hlt)].
  - destruct (requires_Lang _ _ _ H E Hhex).
  - pose proof (max_length_Lang _ _ E _ Hm). lia.
Qed.

Lemma hex_string_sha256 (s : string) :
  hex_string 64 s -> detect_ioc_type s = Some "sha256".
Proof.
  intros Hs. pose proof Hs as [Hlen Hhex].
  assert (Hstrip : strip s = s).
  { apply (strip_keeps_class hexdigit); auto using hexdigit_not_space.
    intros E. rewrite E in Hlen. discriminate. }
  unfold detect_ioc_type. rewrite Hstrip.
  rewrite (hex_string_no_match IPV4_PATTERN 64 s Hs) by (left; vm_compute; reflexivity).
  rewrite (hex_string_no_match IPV6_PATTERN 64 s Hs) by (left; vm_compute; reflexivity).
  rewrite (hex_string_no_match DOMAIN_PATTERN 64 s Hs) by (left; vm_compute; reflexivity).
  rewrite (hex_string_no_match URL_PATTERN 64 s Hs) by (left; vm_compute; reflexivity).
  rewrite (hex_string_no_match EMAIL_PATTERN 64 s Hs) by (left; vm_compute; reflexivity).
  rewrite (hex_string_no_match MD5_PATTERN 64 s Hs)
    by (right; exists 33%nat; split; [vm_compute; reflexivity | lia]).
  rewrite (hex_string_no_match SHA1_PATTERN 64 s Hs)
    by (right; exists 41%nat; split; [vm_compute; reflexivity | lia]).
  assert (Hm : re_match SHA256_PATTERN s = true).
  { apply re_match_Lang, Lang_anchored. apply Lang_times_class; auto. }
  rewrite Hm. reflexivity.
Qed.

(** C1. [detect_ioc_type] is a total function: on every string it returns
    one of the eight tags or [None]. It is the first match of the format
    tests tried in the order ipv4, ipv6, domain, url, email, md5, sha1,
    sha256 on the stripped string: a tag is returned exactly when its test
    matches and no earlier test does, [None] exactly when no test matches.
    Every dotted quad of four groups of one to three digits yields ipv4,
    every string of 64 hexadecimal digits yields sha256, and "not-an-ioc"
    yields [None]. *)
Theorem detect_ioc_type_priority (s : string) :
  In (detect_ioc_type s)
     [Some "ipv4"; Some "ipv6"; Some "domain"; Some "url"; Some "email";
      Some "md5"; Some "sha1"; Some "sha256"; None]
  /\ detect_ioc_type s = first_match priority (strip s)
  /\ (forall tag, detect_ioc_type s = Some tag <->
        exists before r after,
          priority = before ++ (r, tag) :: after
          /\ re_match r (strip s) = true /\ no_match (strip s) before = true)
  /\ (detect_ioc_type s = None <-> no_match (strip s) priority = true)
  /\ (dotted_quad s -> detect_ioc_type s = Some "ipv4")
  /\ (hex_string 64 s -> detect_ioc_type s = Some "sha256")
  /\ detect_ioc_type "not-an-ioc" = None.
Proof.
  split; [apply detect_ioc_type_range |].
  split; [apply detect_ioc_type_first_match |].
  split; [intros tag; rewrite detect_ioc_type_first_match; apply first_match_Some |].
  split; [rewrite detect_ioc_type_first_match; apply first_match_None |].
  split; [apply dotted_quad_ipv4 |].
  split; [apply hex_string_sha256 |].
  vm_compute. reflexivity.
Qed.

(** ** The technique identifier format *)

Lemma Lang_Cat_inv (a b : regex) (w : list ascii) :
  Lang (Cat a b) w -> exists u v, w = u ++ v /\ Lang a u /\ Lang b v.
Proof. intros H. inversion H; subst. eauto. Qed.

Lemma Lang_Class_inv (p : ascii -> bool) (w : list ascii) :
  Lang (Class p) w -> exists c, w = [c] /\ p c = true.
Proof. intros H. inversion H; subst. eauto. Qed.

Lemma Lang_opt_inv (r : regex) (w : list ascii) :
  Lang (opt r) w -> w = [] \/ Lang r w.
Proof.
  intros H. inversion H as [| | | ? ? ? H1 | ? ? ? H1 | |]; subst; auto.
  inversion H1. auto.
Qed.

Lemma Lang_times_class_inv (p : ascii -> bool) (n : nat) :
  forall w, Lang (times n (Class p)) w -> length w = n /\ forallb p w = true.
Proof.
  induction n as [| n IH]; intros w H; cbn [times] in H.
  - inversion H. auto.
  - apply Lang_Cat_inv in H as (u & v & -> & Hu & Hv).
    apply Lang_Class_inv in Hu as (c & -> & Hc). apply IH in Hv as [Hl Hp].
    simpl. rewrite Hc, Hp, Hl. auto.
Qed.

Lemma technique_pattern_shape (w : list ascii) :
  Lang (Cat TECHNIQUE_PATTERN Dollar) w <->
  exists d4 sub nl,
    w = "T"%char :: d4 ++ sub ++ nl
    /\ length d4 = 4%nat /\ forallb digit d4 = true
    /\ (sub = [] \/ exists d3, sub = "."%char :: d3 /\ length d3 = 3%nat /\ forallb digit d3 = true)
    /\ (nl = [] \/ nl = [newline]).
Proof.
  unfold TECHNIQUE_PATTERN, Dollar. split.
  - intros H.
    apply Lang_Cat_inv in H as (u & nl & -> & Hu & Hnl).
    apply Lang_Cat_inv in Hu as (t & u' & -> & Ht & Hu).
    apply Lang_Cat_inv in Hu as (d4 & sub & -> & Hd4 & Hsub).
    apply Lang_Class_inv in Ht as (c & -> & Hc). apply Ascii.eqb_eq in Hc. subst c.
    apply Lang_times_class_inv in Hd4 as [Hl4 Hp4].
    exists d4, sub, nl. split; [simpl; rewrite <- app_assoc; reflexivity |].
    split; [exact Hl4 |]. split; [exact Hp4 |]. split.
    + apply Lang_opt_inv in Hsub as [-> | Hsub]; [left; reflexivity | right].
      apply Lang_Cat_inv in Hsub as (dot & d3 & -> & Hdot & Hd3).
      apply Lang_Class_inv in Hdot as (c & -> & Hc). apply Ascii.eqb_eq in Hc. subst c.
      apply Lang_times_class_inv in Hd3 as [Hl3 Hp3]. exists d3. auto.
    + apply Lang_opt_inv in Hnl as [-> | Hnl]; [left; reflexivity | right].
      apply Lang_Class_inv in Hnl as (c & -> & Hc). apply Ascii.eqb_eq in Hc. subst c.
      reflexivity.
  - intros (d4 & sub & nl & -> & Hl4 & Hp4 & Hsub & Hnl).
    replace ("T"%char :: d4 ++ sub ++ nl) with ((["T"%char] ++ d4 ++ sub) ++ nl)
      by (simpl; rewrite <- app_assoc; reflexivity).
    constructor; [constructor; [| constructor] |].
    + constructor. reflexivity.
    + apply Lang_times_class; auto.
    + destruct Hsub as [-> | (d3 & -> & Hl3 & Hp3)].
      * apply LAltR. constructor.
      * apply LAltL. change ("."%char :: d3) with (["."%char] ++ d3). constructor.
        -- constructor. reflexivity.
        -- apply Lang_times_class; auto.
    + destruct Hnl as [-> | ->].
      * apply LAltR. constructor.
      * apply LAltL. constructor. reflexivity.
Qed.

Lemma technique_format_shape (s : string) :
  technique_format s = true <->
  exists d4 sub,
    chars s = "T"%char :: d4 ++ sub
    /\ length d4 = 4%nat /\ forallb digit d4 = true
    /\ (sub = [] \/ exists d3, sub = "."%char :: d3 /\ length d3 = 3%nat /\ forallb digit d3 = true).
Proof.
  unfold technique_format. split.
  - intros H. destruct (chars s) as [| t [| a [| b [| c [| d [| dot [| x [| y [| z [| ? ?]]]]]]]]]];
      try discriminate.
    + apply andb_true_iff in H as [Ht Hd]. apply Ascii.eqb_eq in Ht. subst t.
      exists [a; b; c; d], []. repeat split; auto.
    + apply andb_true_iff in H as [H H3]. apply andb_true_iff in H as [H Hdot].
      apply andb_true_iff in H as [Ht Hd].
      apply Ascii.eqb_eq in Ht. subst t. apply Ascii.eqb_eq in Hdot. subst dot.
      exists [a; b; c; d], ["."%char; x; y; z].
      split; [reflexivity |]. split; [reflexivity |]. split; [exact Hd |].
      right. exists [x; y; z]. auto.
  - intros (d4 & sub & -> & Hl4 & Hp4 & Hsub).
    destruct d4 as [| a [| b [| c [| d [| ? ?]]]]]; try discriminate.
    destruct Hsub as [-> | (d3 & -> & Hl3 & Hp3)].
    + cbn [app]. rewrite Hp4. reflexivity.
    + destruct d3 as [| x [| y [| z [| ? ?]]]]; try discriminate.
      cbn [app]. rewrite Hp4, Hp3. reflexivity.
Qed.

Lemma technique_match (s : string) :
  re_match TECHNIQUE_PATTERN s = true <->
  technique_format s = true
  \/ exists s0, chars s = chars s0 ++ [newline] /\ technique_format s0 = true.
Proof.
  rewrite re_match_Lang, technique_pattern_shape. split.
  - intros (d4 & sub & nl & Hw & Hl4 & Hp4 & Hsub & [-> | ->]).
    + left. apply technique_format_shape. exists d4, sub.
      rewrite app_nil_r in Hw. auto.
    + right. exists (str ("T"%char :: d4 ++ sub)). rewrite chars_str. split.
      * rewrite Hw. simpl. rewrite app_assoc. reflexivity.
      * apply technique_format_shape. exists d4, sub. rewrite chars_str. auto.
  - intros [H | (s0 & Hs & H)]; apply technique_format_shape in H
      as (d4 & sub & Hw & Hl4 & Hp4 & Hsub).
    + exists d4, sub, []. rewrite app_nil_r. repeat split; auto.
    + exists d4, sub, [newline]. rewrite Hs, Hw. simpl. rewrite <- app_assoc.
      repeat split; auto.
Qed.

(** ** Pattern synthesis *)

Lemma assoc_get_default {A : Type} (key : string) (d : list (string * A)) (default : A) :
  ~ In key (map fst d) -> assoc_get key d default = default.
Proof.
  induction d as [| [k v] d IH]; simpl; intros H.
  - reflexivity.
  - destruct (String.eqb k key) eqn:E.
    + apply String.eqb_eq in E. tauto.
    + apply IH. tauto.
Qed.

Section GeneratorProperties.

Set Default Proof Using "Type".

Variable uuid4 : nat -> string.
Variable clock : nat -> datetime.
Variable fromisoformat : string -> option datetime.
Variable stix2_check : string -> dict pyval -> option string.
Variable py_repr : json -> string.
Variable stix2_properties : stix_object -> dict json.

Lemma generate_indicator_ipv4_example (o : indicator_options) (st : state) :
  match generate_indicator uuid4 clock stix2_check "192.0.2.1" o st with
  | (Returns r, _) =>
      exists i, r = Some i /\ obj_type i = "indicator" /\
        kwarg "pattern" i =
          Some (PStr "[network-traffic:dst_ref.type = 'ipv4-addr' AND network-traffic:dst_ref.value = '192.0.2.1']")
  | (Raises e, st') => rejected stix2_check e
  end.
Proof.
  unfold generate_indicator.
  replace (detect_ioc_type "192.0.2.1") with (Some "ipv4") by (vm_compute; reflexivity).
  unfold bind, ret, identity_id, stix2_new, datetime_now, kwarg.
  destruct (opt_valid_from o), (opt_valid_until o); cbn [fst snd uuids];
    match goal with
    | |- context [stix2_check "indicator" ?kw] =>
        destruct (stix2_check "indicator" kw) eqn:E
    end;
    try (eexists; split; [reflexivity | split; reflexivity]).
  all: eexists _, _; exact E.
Qed.

(** C8. [create_indicator_pattern] is a total function of the value and
    the type tag. For each of the eight recognized types it returns the
    template of that type around the value, the value lower-cased for the
    three hash types; for every other type tag it returns the generic
    template with the tag as the field name. The Indicator that
    [generate_indicator] builds from "192.0.2.1" carries the ipv4 pattern
    around that address; the call returns it whenever the library accepts
    the arguments of the Indicator. *)
Theorem create_indicator_pattern_templates (ioc ioc_type : string)
    (o : indicator_options) (st : state) :
  create_indicator_pattern ioc "ipv4" =
    "[network-traffic:dst_ref.type = 'ipv4-addr' AND network-traffic:dst_ref.value = '" +:+ ioc +:+ "']"
  /\ create_indicator_pattern ioc "ipv6" =
    "[network-traffic:dst_ref.type = 'ipv6-addr' AND network-traffic:dst_ref.value = '" +:+ ioc +:+ "']"
  /\ create_indicator_pattern ioc "domain" = "[domain-name:value = '" +:+ ioc +:+ "']"
  /\ create_indicator_pattern ioc "url" = "[url:value = '" +:+ ioc +:+ "']"
  /\ create_indicator_pattern ioc "email" = "[email-addr:value = '" +:+ ioc +:+ "']"
  /\ create_indicator_pattern ioc "md5" = "[file:hashes.MD5 = '" +:+ lower ioc +:+ "']"
  /\ create_indicator_pattern ioc "sha1" = "[file:hashes.SHA-1 = '" +:+ lower ioc +:+ "']"
  /\ create_indicator_pattern ioc "sha256" = "[file:hashes.SHA-256 = '" +:+ lower ioc +:+ "']"
  /\ (~ In ioc_type recognized_types ->
      create_indicator_pattern ioc ioc_type = "[" +:+ ioc_type +:+ ":value = '" +:+ ioc +:+ "']")
  /\ create_indicator_pattern "192.0.2.1" "ipv4" =
      "[network-traffic:dst_ref.type = 'ipv4-addr' AND network-traffic:dst_ref.value = '192.0.2.1']"
  /\ (forall r st',
        generate_indicator uuid4 clock stix2_check "192.0.2.1" o st = (Returns r, st') ->
        exists i, r = Some i /\
          kwarg "pattern" i =
            Some (PStr "[network-traffic:dst_ref.type = 'ipv4-addr' AND network-traffic:dst_ref.value = '192.0.2.1']"))
  /\ ((forall type kw, stix2_check type kw = None) ->
      exists i st',
        generate_indicator uuid4 clock stix2_check "192.0.2.1" o st = (Returns (Some i), st')
        /\ kwarg "pattern" i =
            Some (PStr "[network-traffic:dst_ref.type = 'ipv4-addr' AND network-traffic:dst_ref.value = '192.0.2.1']")).
Proof.
  repeat (split; [reflexivity |]).
  split; [| split; [reflexivity | split]].
  - intros H. unfold create_indicator_pattern. apply assoc_get_default. exact H.
  - intros r st' E. pose proof (generate_indicator_ipv4_example o st) as H.
    rewrite E in H. destruct H as (i & -> & _ & H). eauto.
  - intros Hok. pose proof (generate_indicator_ipv4_example o st) as H.
    destruct (generate_indicator uuid4 clock stix2_check "192.0.2.1" o st) as [[r | e] st'].
    + destruct H as (i & -> & _ & H). eauto.
    + destruct H as (ty & kw & H). rewrite Hok in H. discriminate.
Qed.

(** ** The generators, call by call *)

Lemma grows_refl (st : state) : grows st st [].
Proof. unfold grows. simpl. rewrite !app_nil_r. auto. Qed.

Lemma grows_trans (st1 st2 st3 : state) (new1 new2 : list stix_object) :
  grows st1 st2 new1 -> grows st2 st3 new2 -> grows st1 st3 (new1 ++ new2).
Proof.
  intros (Hi1 & Ho1 & Hr1) (Hi2 & Ho2 & Hr2). unfold grows.
  rewrite Hi2, Hi1, Ho2, Ho1, Hr2, Hr1, List.filter_app, !app_assoc. auto.
Qed.

(** What a call of [generate_attack_pattern] does, by outcome. *)
Lemma generate_attack_pattern_effect (technique_id : string)
    (name description : option string) (st : state) :
  match generate_attack_pattern uuid4 stix2_check technique_id name description st with
  | (Returns None, st') =>
      re_match TECHNIQUE_PATTERN technique_id = false /\ grows st st' []
  | (Returns (Some ap), st') =>
      re_match TECHNIQUE_PATTERN technique_id = true
      /\ grows st st' [ap]
      /\ obj_type ap = "attack-pattern"
      /\ external_id_of ap = Some technique_id
      /\ kwarg "created_by_ref" ap = Some (PStr (obj_id (identity st)))
  | (Raises e, st') =>
      re_match TECHNIQUE_PATTERN technique_id = true
      /\ grows st st' [] /\ rejected stix2_check e
  end.
Proof.
  unfold generate_attack_pattern.
  destruct (re_match TECHNIQUE_PATTERN technique_id) eqn:E; cbn [negb].
  - unfold bind, identity_id, stix2_new, objects_append, ret.
    match goal with
    | |- context [stix2_check "attack-pattern" ?kw] =>
        destruct (stix2_check "attack-pattern" kw) eqn:Hc
    end.
    + split; [reflexivity |]. split; [apply grows_refl |]. eexists _, _. exact Hc.
    + split; [reflexivity |]. split; [| repeat split; reflexivity].
      unfold grows. simpl. rewrite app_nil_r. auto.
  - unfold bind, print_stderr, ret. split; [reflexivity |].
    unfold grows. simpl. rewrite !app_nil_r. auto.
Qed.

(** C5. [generate_attack_pattern] returns [None] exactly when the technique
    identifier does not match [TECHNIQUE_PATTERN]: "abc", "T12" and "T12345"
    are rejected, "T1055" and "T1055.001" are accepted. The pattern matches a
    string in the format T, four digits, optional dot and three digits, and
    also such a string followed by one newline; so "T1055" followed by a
    newline, which is not in the format, is not rejected: unless the library
    refuses the object, the call returns an attack pattern whose external
    reference carries that identifier and appends it to the object list. *)
Theorem generate_attack_pattern_trailing_newline (technique_id : string)
    (name description : option string) (st : state) :
  (fst (generate_attack_pattern uuid4 stix2_check technique_id name description st)
     = Returns None
   <-> re_match TECHNIQUE_PATTERN technique_id = false)
  /\ (re_match TECHNIQUE_PATTERN technique_id = true
      <-> technique_format technique_id = true
          \/ exists s0, chars technique_id = chars s0 ++ [newline]
                        /\ technique_format s0 = true)
  /\ re_match TECHNIQUE_PATTERN "abc" = false
  /\ re_match TECHNIQUE_PATTERN "T12" = false
  /\ re_match TECHNIQUE_PATTERN "T12345" = false
  /\ re_match TECHNIQUE_PATTERN "T1055" = true
  /\ re_match TECHNIQUE_PATTERN "T1055.001" = true
  /\ technique_format T1055_newline = false
  /\ match generate_attack_pattern uuid4 stix2_check T1055_newline name description st with
     | (Returns r, st') =>
         exists ap, r = Some ap /\ objects st' = objects st ++ [ap]
                    /\ external_id_of ap = Some T1055_newline
     | (Raises e, _) => rejected stix2_check e
     end.
Proof.
  clear fromisoformat.
  split.
  { pose proof (generate_attack_pattern_effect technique_id name description st) as H.
    destruct (generate_attack_pattern uuid4 stix2_check technique_id name description st)
      as [[[ap |] | e] st']; simpl; split; intros H'; try discriminate; try tauto.
    - destruct H as (H & _). congruence.
    - destruct H as (H & _). congruence. }
  split; [apply technique_match |].
  do 6 (split; [vm_compute; reflexivity |]).
  pose proof (generate_attack_pattern_effect T1055_newline name description st) as H.
  destruct (generate_attack_pattern uuid4 stix2_check T1055_newline name description st)
    as [[[ap |] | e] st'].
  - destruct H as (_ & (_ & Ho & _) & _ & Hid & _). eauto.
  - destruct H as (H & _). vm_compute in H. discriminate.
  - tauto.
Qed.

(** ** The composite generators *)

Lemma identified_new (type u : string) (kw : dict pyval) :
  identified (mk_object type (type +:+ "--" +:+ u) kw).
Proof. exists u. reflexivity. Qed.

Lemma grows_same_lists (st st' : state) :
  identity st' = identity st -> objects st' = objects st ->
  relationships st' = relationships st -> grows st st' [].
Proof. intros Hi Ho Hr. unfold grows. simpl. rewrite !app_nil_r. auto. Qed.

Lemma add_relationship_effect (rtype src tgt : string) (st : state) :
  match add_relationship uuid4 stix2_check rtype src tgt st with
  | (Returns _, st') =>
      exists rel, relationship_is rtype src tgt (obj_id (identity st)) rel
                  /\ grows st st' [rel]
  | (Raises e, st') => grows st st' [] /\ rejected stix2_check e
  end.
Proof.
  unfold add_relationship, bind, identity_id, stix2_new, relationships_append,
    objects_append.
  match goal with
  | |- context [stix2_check "relationship" ?kw] =>
      destruct (stix2_check "relationship" kw) eqn:Hc
  end.
  - split; [apply grows_refl | eexists _, _; exact Hc].
  - eexists. split; cycle 1.
    + unfold grows. split; [reflexivity | split; reflexivity].
    + split; reflexivity.
Qed.

Lemma dict_lookup_set_other {A : Type} (key k : string) (v : A) (d : dict A) :
  String.eqb k key = false -> dict_lookup key (dict_set k v d) = dict_lookup key d.
Proof.
  intros Hne. induction d as [| [k' w] d IH]; simpl.
  - rewrite Hne. reflexivity.
  - destruct (String.eqb k' k) eqn:E; simpl.
    + apply String.eqb_eq in E. subst k'. rewrite Hne. reflexivity.
    + destruct (String.eqb k' key); auto.
Qed.

Lemma dict_lookup_copy_field (config : dict json) (field key : string) (kw : dict pyval) :
  String.eqb field key = false ->
  dict_lookup key (copy_field config field kw) = dict_lookup key kw.
Proof.
  intros Hne. unfold copy_field. destruct (dict_lookup field config); auto.
  apply dict_lookup_set_other. exact Hne.
Qed.

Lemma generate_malware_effect (config : dict json) (st : state) :
  match generate_malware uuid4 stix2_check config st with
  | (Returns malware, st') =>
      obj_type malware = "malware" /\ identified malware
      /\ kwarg "created_by_ref" malware = Some (PStr (obj_id (identity st)))
      /\ grows st st' [malware]
  | (Raises e, st') => grows st st' [] /\ rejected stix2_check e
  end.
Proof.
  unfold generate_malware, bind, identity_id, stix2_new, objects_append, ret.
  match goal with
  | |- context [stix2_check "malware" ?kw] =>
      destruct (stix2_check "malware" kw) eqn:Hc
  end.
  - split; [apply grows_refl | eexists _, _; exact Hc].
  - split; [reflexivity |]. split; [apply identified_new |]. split.
    + unfold kwarg. cbn [obj_kwargs].
      rewrite !dict_lookup_copy_field by reflexivity. reflexivity.
    + unfold grows. split; [reflexivity | split; [reflexivity |]].
      simpl. rewrite app_nil_r. reflexivity.
Qed.

(** The loop over the observed techniques. *)
Lemma ttp_loop_effect (actor_id : string) (items : list json) :
  forall st,
  match for_each items (fun ttp =>
          r <- generate_attack_pattern_of uuid4 stix2_check ttp ;;
          match r with
          | Some attack_pattern =>
              add_relationship uuid4 stix2_check "uses" actor_id (obj_id attack_pattern)
          | None => ret tt
          end) st with
  | (Returns _, st') =>
      exists ttps new,
        strings_of items = Some ttps
        /\ grows st st' new
        /\ ttp_trace actor_id (obj_id (identity st)) ttps new
  | (Raises e, st') =>
      (exists new, grows st st' new)
      /\ (rejected stix2_check e \/ strings_of items = None)
  end.
Proof.
  set (body := fun ttp : json => _).
  induction items as [| item items IH]; intros st; cbn [for_each].
  - exists [], []. split; [reflexivity |]. split; [apply grows_refl | constructor].
  - unfold bind at 1. unfold body at 1. unfold bind at 1.
    destruct item as [| b | n | m e | t | l | d];
      try (split; [exists []; apply grows_refl | right; reflexivity]).
    cbn [generate_attack_pattern_of strings_of].
    pose proof (generate_attack_pattern_effect t None None st) as Ha.
    destruct (generate_attack_pattern uuid4 stix2_check t None None st)
      as [[[ap |] | e] st1].
    + destruct Ha as (Hm & Hg1 & Hty & Hid & _).
      pose proof (add_relationship_effect "uses" actor_id (obj_id ap) st1) as Hr.
      destruct (add_relationship uuid4 stix2_check "uses" actor_id (obj_id ap) st1)
        as [[[] | e] st2].
      * destruct Hr as (rel & Hrel & Hg2).
        assert (Hi2 : identity st2 = identity st).
        { destruct Hg2 as (-> & _). destruct Hg1 as (-> & _). reflexivity. }
        assert (Hg12 : grows st st2 [ap; rel])
          by (apply (grows_trans st st1 st2 [ap] [rel]); auto).
        specialize (IH st2). destruct (for_each items body st2) as [[[] | e] st3].
        -- destruct IH as (ttps & new & -> & Hg3 & Htr). exists (t :: ttps), (ap :: rel :: new).
           split; [reflexivity |]. split.
           ++ apply (grows_trans st st2 st3 [ap; rel] new); auto.
           ++ rewrite Hi2 in Htr. destruct Hg1 as (Hi1 & _). rewrite Hi1 in Hrel.
              apply ttp_add; auto.
        -- destruct IH as ((new & Hg3) & Hrej). split.
           ++ exists ([ap; rel] ++ new). apply (grows_trans st st2 st3); auto.
           ++ destruct Hrej as [Hrej | ->]; auto.
      * destruct Hr as (Hg2 & Hrej). split; auto.
        exists ([ap] ++ []). apply (grows_trans st st1 st2); auto.
    + destruct Ha as (Hm & Hg1).
      unfold ret at 1.
      assert (Hi1 : identity st1 = identity st) by (destruct Hg1 as (-> & _); reflexivity).
      specialize (IH st1). destruct (for_each items body st1) as [[[] | e] st3].
      * destruct IH as (ttps & new & -> & Hg3 & Htr). exists (t :: ttps), new.
        split; [reflexivity |]. split.
        -- apply (grows_trans st st1 st3 [] new); auto.
        -- rewrite Hi1 in Htr. apply ttp_skip; auto.
      * destruct IH as ((new & Hg3) & Hrej). split.
        -- exists ([] ++ new). apply (grows_trans st st1 st3); auto.
        -- destruct Hrej as [Hrej | ->]; auto.
    + destruct Ha as (_ & Hg1 & Hrej). split; eauto.
Qed.

(** What a call of [generate_threat_actor] does, by outcome. *)
Lemma generate_threat_actor_effect (config : dict json) (st : state) :
  match generate_threat_actor uuid4 stix2_check config st with
  | (Returns actor, st') =>
      obj_type actor = "threat-actor" /\ identified actor
      /\ kwarg "created_by_ref" actor = Some (PStr (obj_id (identity st)))
      /\ exists ttps extra,
           observed_ttps config = Some ttps
           /\ ttp_trace (obj_id actor) (obj_id (identity st)) ttps extra
           /\ grows st st' (actor :: extra)
  | (Raises e, st') =>
      (exists new, grows st st' new)
      /\ (rejected stix2_check e \/ observed_ttps config = None)
  end.
Proof.
  unfold generate_threat_actor.
  unfold bind at 1. unfold identity_id at 1. cbv beta iota.
  unfold bind at 1. unfold stix2_new at 1.
  match goal with
  | |- context [stix2_check "threat-actor" ?kw] =>
      assert (Hcb : dict_lookup "created_by_ref" kw = Some (PStr (obj_id (identity st))))
        by (cbn [fold_left]; rewrite !dict_lookup_copy_field by reflexivity; reflexivity);
      set (kwargs := kw) in *; clearbody kwargs;
      destruct (stix2_check "threat-actor" kwargs) eqn:Hc
  end.
  - split; [exists []; apply grows_refl | left; eexists _, _; exact Hc].
  - unfold bind at 1. unfold objects_append at 1. cbv beta iota.
    set (actor := mk_object "threat-actor" _ kwargs).
    set (st1 := mk_state _ _ _ _ _ _).
    assert (Hg1 : grows st st1 [actor]).
    { unfold grows, st1. simpl. rewrite app_nil_r. auto. }
    unfold bind at 1. unfold observed_ttps.
    destruct (dict_lookup "observed_ttps" config) as [v |].
    + unfold bind at 1. unfold lift at 1.
      destruct (py_iter v) as [items | e].
      * pose proof (ttp_loop_effect (obj_id actor) items st1) as Hl.
        match goal with
        | |- context [for_each items ?b st1] => destruct (for_each items b st1) as [[[] | e] st2]
        end.
        -- destruct Hl as (ttps & new & Hs & Hg2 & Htr). unfold ret.
           split; [reflexivity |]. split; [apply identified_new |]. split; [exact Hcb |].
           exists ttps, new. split; [exact Hs |]. split; [exact Htr |].
           apply (grows_trans st st1 st2 [actor] new); auto.
        -- destruct Hl as ((new & Hg2) & Hrej). split; [| exact Hrej].
           exists ([actor] ++ new). apply (grows_trans st st1 st2); auto.
      * split; [eauto | right; reflexivity].
    + unfold ret. split; [reflexivity |]. split; [apply identified_new |].
      split; [exact Hcb |]. exists [], []. split; [reflexivity |].
      split; [constructor | exact Hg1].
Qed.

(** The loop over the malware records of a campaign. *)
Lemma malware_loop_effect (campaign_id : string) (items : list json) :
  forall st,
  match for_each items (fun malware_config =>
          malware_config <- as_config malware_config ;;
          malware <- generate_malware uuid4 stix2_check malware_config ;;
          add_relationship uuid4 stix2_check "uses" campaign_id (obj_id malware)) st with
  | (Returns _, st') =>
      exists new, grows st st' new
                  /\ malware_trace campaign_id (obj_id (identity st)) items new
  | (Raises e, st') =>
      (exists new, grows st st' new)
      /\ (rejected stix2_check e \/ forallb is_JObj items = false)
  end.
Proof.
  set (body := fun malware_config : json => _).
  induction items as [| item items IH]; intros st; cbn [for_each].
  - exists []. split; [apply grows_refl | constructor].
  - unfold bind at 1. unfold body at 1. unfold bind at 1.
    destruct item as [| b | n | m e | t | l | d];
      try (split; [exists []; apply grows_refl | right; reflexivity]).
    cbn [as_config]. unfold ret at 1. cbv beta iota. unfold bind at 1.
    pose proof (generate_malware_effect d st) as Hm.
    destruct (generate_malware uuid4 stix2_check d st) as [[mw | e] st1].
    + destruct Hm as (Hty & Hid & Hcb & Hg1).
      pose proof (add_relationship_effect "uses" campaign_id (obj_id mw) st1) as Hr.
      destruct (add_relationship uuid4 stix2_check "uses" campaign_id (obj_id mw) st1)
        as [[[] | e] st2].
      * destruct Hr as (rel & Hrel & Hg2).
        assert (Hi1 : identity st1 = identity st) by (destruct Hg1 as (-> & _); reflexivity).
        assert (Hi2 : identity st2 = identity st).
        { destruct Hg2 as (-> & _). exact Hi1. }
        assert (Hg12 : grows st st2 [mw; rel])
          by (apply (grows_trans st st1 st2 [mw] [rel]); auto).
        specialize (IH st2). destruct (for_each items body st2) as [[[] | e] st3].
        -- destruct IH as (new & Hg3 & Htr). exists (mw :: rel :: new). split.
           ++ apply (grows_trans st st2 st3 [mw; rel] new); auto.
           ++ rewrite Hi2 in Htr. rewrite Hi1 in Hrel. apply malware_add; auto.
        -- destruct IH as ((new & Hg3) & Hrej). split.
           ++ exists ([mw; rel] ++ new). apply (grows_trans st st2 st3); auto.
           ++ destruct Hrej as [Hrej | Hrej]; auto.
      * destruct Hr as (Hg2 & Hrej). split; auto.
        exists ([mw] ++ []). apply (grows_trans st st1 st2); auto.
    + destruct Hm as (Hg1 & Hrej). split; eauto.
Qed.

Lemma campaign_field_outcome (config : dict json) (kw : dict pyval) (field : string) :
  String.eqb field "created_by_ref" = false ->
  match campaign_field fromisoformat py_repr config kw field with
  | Returns kw' => dict_lookup "created_by_ref" kw' = dict_lookup "created_by_ref" kw
  | Raises _ =>
      (String.eqb field "first_seen" || String.eqb field "last_seen") = true
      /\ ~ timestamp_parses fromisoformat config field
  end.
Proof.
  clear stix2_check.
  intros Hne. unfold campaign_field, timestamp_parses.
  destruct (dict_lookup field config) as [v |]; [| reflexivity].
  destruct v; try (apply dict_lookup_set_other; exact Hne).
  destruct (String.eqb field "first_seen" || String.eqb field "last_seen").
  - destruct (fromisoformat (replace_char "Z" "+00:00" s)) as [t |].
    + apply dict_lookup_set_other; exact Hne.
    + split; [reflexivity | tauto].
  - apply dict_lookup_set_other; exact Hne.
Qed.

Lemma campaign_fields_outcome (config : dict json) (kw : dict pyval) :
  match campaign_fields fromisoformat py_repr config
          ["description"; "aliases"; "first_seen"; "last_seen"; "objective"] kw with
  | Returns kw' => dict_lookup "created_by_ref" kw' = dict_lookup "created_by_ref" kw
  | Raises _ =>
      ~ (timestamp_parses fromisoformat config "first_seen"
         /\ timestamp_parses fromisoformat config "last_seen")
  end.
Proof.
  cbn [campaign_fields]. unfold obind.
  pose proof (campaign_field_outcome config kw "description" eq_refl) as H1.
  destruct (campaign_field fromisoformat py_repr config kw "description") as [kw1 | e];
    [| destruct H1 as (H1 & _); discriminate].
  pose proof (campaign_field_outcome config kw1 "aliases" eq_refl) as H2.
  destruct (campaign_field fromisoformat py_repr config kw1 "aliases") as [kw2 | e];
    [| destruct H2 as (H2 & _); discriminate].
  pose proof (campaign_field_outcome config kw2 "first_seen" eq_refl) as H3.
  destruct (campaign_field fromisoformat py_repr config kw2 "first_seen") as [kw3 | e];
    [| tauto].
  pose proof (campaign_field_outcome config kw3 "last_seen" eq_refl) as H4.
  destruct (campaign_field fromisoformat py_repr config kw3 "last_seen") as [kw4 | e];
    [| tauto].
  pose proof (campaign_field_outcome config kw4 "objective" eq_refl) as H5.
  destruct (campaign_field fromisoformat py_repr config kw4 "objective") as [kw5 | e];
    [| destruct H5 as (H5 & _); discriminate].
  congruence.
Qed.

Lemma grows_identity (st st' : state) (new : list stix_object) :
  grows st st' new -> identity st' = identity st.
Proof. intros (H & _). exact H. Qed.

(** What a call of [generate_campaign] does, by outcome. *)
Lemma generate_campaign_effect (config : dict json) (st : state) :
  match generate_campaign uuid4 fromisoformat stix2_check py_repr config st with
  | (Returns campaign, st') =>
      obj_type campaign = "campaign" /\ identified campaign
      /\ kwarg "created_by_ref" campaign = Some (PStr (obj_id (identity st)))
      /\ exists actor_part malware_part,
           grows st st' (campaign :: actor_part ++ malware_part)
           /\ actor_part_of config (obj_id campaign) (obj_id (identity st)) actor_part
           /\ malware_part_of config (obj_id campaign) (obj_id (identity st)) malware_part
  | (Raises e, st') =>
      (exists new, grows st st' new)
      /\ (rejected stix2_check e \/ ~ campaign_config_ok fromisoformat config)
  end.
Proof.
  clear stix2_properties.
  unfold generate_campaign.
  unfold bind at 1. unfold identity_id at 1. cbv beta iota.
  unfold bind at 1. unfold lift at 1.
  match goal with
  | |- context [campaign_fields fromisoformat py_repr config ?fs ?kw] =>
      pose proof (campaign_fields_outcome config kw) as Hf;
      destruct (campaign_fields fromisoformat py_repr config fs kw) as [kwargs | e]
  end; cycle 1.
  { split; [exists []; apply grows_refl |]. right. unfold campaign_config_ok. tauto. }
  cbn [dict_lookup String.eqb Ascii.eqb Bool.eqb] in Hf.
  unfold bind at 1. unfold stix2_new at 1.
  destruct (stix2_check "campaign" kwargs) eqn:Hc.
  { split; [exists []; apply grows_refl | left; eexists _, _; exact Hc]. }
  unfold bind at 1. unfold objects_append at 1. cbv beta iota.
  set (campaign := mk_object "campaign" _ kwargs).
  set (st1 := mk_state _ _ _ _ _ _).
  assert (Hg1 : grows st st1 [campaign]).
  { unfold grows, st1. simpl. rewrite app_nil_r. auto. }
  assert (Hi1 : identity st1 = identity st) by reflexivity.
  unfold bind at 1.
  (* the threat actor *)
  assert (Hactor :
    match
      match dict_lookup "threat_actor" config with
      | Some actor_config =>
          actor_config <- as_config actor_config ;;
          threat_actor <- generate_threat_actor uuid4 stix2_check actor_config ;;
          add_relationship uuid4 stix2_check "attributed-to" (obj_id campaign)
            (obj_id threat_actor)
      | None => ret tt
      end st1
    with
    | (Returns _, st2) =>
        exists part, grows st1 st2 part
                     /\ actor_part_of config (obj_id campaign) (obj_id (identity st)) part
    | (Raises e, st2) =>
        (exists new, grows st1 st2 new)
        /\ (rejected stix2_check e \/ ~ campaign_config_ok fromisoformat config)
    end).
  { unfold actor_part_of, campaign_config_ok.
    destruct (dict_lookup "threat_actor" config) as [v |];
      [| exists []; split; [apply grows_refl | reflexivity]].
    unfold bind at 1.
    destruct v as [| b | n | m e | t | l | actor_config];
      try (split; [exists []; apply grows_refl | right; tauto]).
    cbn [as_config]. unfold ret at 1. cbv beta iota. unfold bind at 1.
    pose proof (generate_threat_actor_effect actor_config st1) as Ha.
    destruct (generate_threat_actor uuid4 stix2_check actor_config st1) as [[actor | e] st2].
    - destruct Ha as (Hty & Hid & Hcb & ttps & extra & Ho & Htr & Hg2).
      pose proof (add_relationship_effect "attributed-to" (obj_id campaign) (obj_id actor) st2)
        as Hr.
      destruct (add_relationship uuid4 stix2_check "attributed-to" (obj_id campaign)
                  (obj_id actor) st2) as [[[] | e] st3].
      + destruct Hr as (rel & Hrel & Hg3).
        rewrite (grows_identity _ _ _ Hg2), Hi1 in Hrel. rewrite Hi1 in Hcb, Htr.
        exists ((actor :: extra) ++ [rel]). split.
        * apply (grows_trans st1 st2 st3); auto.
        * exists actor_config, actor, ttps, extra, rel.
          split; [reflexivity |]. do 6 (split; [assumption |]). reflexivity.
      + destruct Hr as (Hg3 & Hrej). split; [| auto].
        exists ((actor :: extra) ++ []). apply (grows_trans st1 st2 st3); auto.
    - destruct Ha as (Hg2 & [Hrej | Hbad]); split; auto.
      right. intros (_ & _ & H & _). congruence. }
  match goal with
  | H : match ?m st1 with _ => _ end |- context [?m' st1] =>
      change (m' st1) with (m st1); destruct (m st1) as [[[] | e] st2]
  end; cycle 1.
  { destruct Hactor as ((new & Hg2) & Hrej). split; [| exact Hrej].
    exists ([campaign] ++ new). apply (grows_trans st st1 st2); auto. }
  destruct Hactor as (actor_part & Hg2 & Hap).
  assert (Hi2 : identity st2 = identity st).
  { rewrite (grows_identity _ _ _ Hg2). exact Hi1. }
  unfold bind at 1.
  (* the malware records *)
  assert (Hmalware :
    match
      match dict_lookup "malware" config with
      | Some malware_list =>
          items <- lift (py_iter malware_list) ;;
          for_each items (fun malware_config =>
            malware_config <- as_config malware_config ;;
            malware <- generate_malware uuid4 stix2_check malware_config ;;
            add_relationship uuid4 stix2_check "uses" (obj_id campaign) (obj_id malware))
      | None => ret tt
      end st2
    with
    | (Returns _, st3) =>
        exists part, grows st2 st3 part
                     /\ malware_part_of config (obj_id campaign) (obj_id (identity st)) part
    | (Raises e, st3) =>
        (exists new, grows st2 st3 new)
        /\ (rejected stix2_check e \/ ~ campaign_config_ok fromisoformat config)
    end).
  { unfold malware_part_of, campaign_config_ok.
    destruct (dict_lookup "malware" config) as [v |];
      [| exists []; split; [apply grows_refl | reflexivity]].
    unfold bind at 1. unfold lift at 1.
    destruct (py_iter v) as [items | e] eqn:Hit; cycle 1.
    { split; [exists []; apply grows_refl |]. right.
      intros (_ & _ & _ & items & H & _). discriminate. }
    pose proof (malware_loop_effect (obj_id campaign) items st2) as Hl.
    match goal with
    | |- context [for_each items ?b st2] => destruct (for_each items b st2) as [[[] | e] st3]
    end.
    - destruct Hl as (new & Hg3 & Htr). exists new. split; [exact Hg3 |].
      exists items. rewrite Hi2 in Htr. auto.
    - destruct Hl as (Hg3 & [Hrej | Hbad]); split; auto.
      right. intros (_ & _ & _ & items' & H & Hd). congruence. }
  match goal with
  | H : match ?m st2 with _ => _ end |- context [?m' st2] =>
      change (m' st2) with (m st2); destruct (m st2) as [[[] | e] st3]
  end; cycle 1.
  { destruct Hmalware as ((new & Hg3) & Hrej). split; [| exact Hrej].
    exists (([campaign] ++ actor_part) ++ new).
    apply (grows_trans st st2 st3); auto. apply (grows_trans st st1 st2); auto. }
  destruct Hmalware as (malware_part & Hg3 & Hmp).
  unfold ret. split; [reflexivity |]. split; [apply identified_new |].
  split; [exact Hf |]. exists actor_part, malware_part. split; [| auto].
  change (campaign :: actor_part ++ malware_part)
    with (([campaign] ++ actor_part) ++ malware_part).
  apply (grows_trans st st2 st3); auto. apply (grows_trans st st1 st2); auto.
Qed.

(** ** Campaigns *)

Lemma relationship_is_object (rtype src tgt creator : string) (r : stix_object) :
  relationship_is rtype src tgt creator r -> is_relationship_object r = true.
Proof. intros (H & _). unfold is_relationship_object. rewrite H. reflexivity. Qed.




Lemma not_relationship_object (o : stix_object) (type : string) :
  obj_type o = type -> String.eqb type "relationship" = false ->
  is_relationship_object o = false.
Proof. intros H1 H2. unfold is_relationship_object. rewrite H1. exact H2. Qed.






(** ** Indicators *)

(** What a call of [generate_indicator] does, by outcome: it leaves the
    object list and the relationship list as they are. *)
Lemma generate_indicator_effect (ioc : string) (o : indicator_options) (st : state) :
  match generate_indicator uuid4 clock stix2_check ioc o st with
  | (Returns (Some i), st') =>
      obj_type i = "indicator"
      /\ (exists ioc_type, detect_ioc_type ioc = Some ioc_type
            /\ kwarg "pattern" i = Some (PStr (create_indicator_pattern ioc ioc_type)))
      /\ grows st st' []
  | (Returns None, st') => detect_ioc_type ioc = None /\ grows st st' []
  | (Raises e, st') => grows st st' [] /\ rejected stix2_check e
  end.
Proof.
  unfold generate_indicator. destruct (detect_ioc_type ioc) as [ioc_type |].
  - unfold bind, ret, identity_id, stix2_new, datetime_now, kwarg.
    destruct (opt_valid_from o), (opt_valid_until o); cbn [fst snd uuids];
      match goal with
      | |- context [stix2_check "indicator" ?kw] =>
          destruct (stix2_check "indicator" kw) eqn:E
      end;
      try (split; [apply grows_same_lists; reflexivity | eexists _, _; exact E]);
      (split; [reflexivity |]; split;
       [exists ioc_type; split; reflexivity | apply grows_same_lists; reflexivity]).
  - unfold bind, print_stderr, ret. split; [reflexivity |].
    apply grows_same_lists; reflexivity.
Qed.

(** The loop of [generate_indicators_from_file]. *)
Lemma generate_indicators_from_lines_effect (o : indicator_options) (lines : list string) :
  forall (indicators : list stix_object) (st : state),
  match generate_indicators_from_lines uuid4 clock stix2_check lines o indicators st with
  | (Returns result, st') =>
      exists new, result = indicators ++ new
                  /\ Forall (fun i => obj_type i = "indicator") new
                  /\ grows st st' new
  | (Raises e, st') => (exists new, grows st st' new) /\ rejected stix2_check e
  end.
Proof.
  induction lines as [| line lines IH]; intros indicators st;
    cbn [generate_indicators_from_lines].
  - unfold ret. exists []. rewrite app_nil_r.
    split; [reflexivity |]. split; [constructor | apply grows_refl].
  - destruct (negb (String.eqb (strip line) EmptyString) && negb (startswith "#" (strip line))).
    + unfold bind at 1.
      pose proof (generate_indicator_effect (strip line) o st) as Hi.
      destruct (generate_indicator uuid4 clock stix2_check (strip line) o st)
        as [[[i |] | e] st1].
      * destruct Hi as (Hty & _ & Hg1).
        unfold bind at 1. unfold objects_append at 1. cbv beta iota.
        set (st2 := mk_state _ _ _ _ _ _).
        assert (Hg2 : grows st st2 [i]).
        { destruct Hg1 as (Hi1 & Ho1 & Hr1). unfold grows, st2. cbn [identity objects relationships].
          rewrite Hi1, Ho1, Hr1. cbn [List.filter].
          rewrite (not_relationship_object i _ Hty eq_refl).
          rewrite !app_nil_r. auto. }
        specialize (IH (indicators ++ [i]) st2).
        destruct (generate_indicators_from_lines uuid4 clock stix2_check lines o
                    (indicators ++ [i]) st2) as [[result | e] st3].
        -- destruct IH as (new & -> & Hall & Hg3). exists (i :: new).
           split; [rewrite <- app_assoc; reflexivity |]. split; [constructor; auto |].
           apply (grows_trans st st2 st3 [i] new); auto.
        -- destruct IH as ((new & Hg3) & Hrej). split; [| exact Hrej].
           exists ([i] ++ new). apply (grows_trans st st2 st3); auto.
      * destruct Hi as (_ & Hg1). specialize (IH indicators st1).
        destruct (generate_indicators_from_lines uuid4 clock stix2_check lines o
                    indicators st1) as [[result | e] st3].
        -- destruct IH as (new & -> & Hall & Hg3). exists new.
           split; [reflexivity |]. split; [exact Hall |].
           apply (grows_trans st st1 st3 [] new); auto.
        -- destruct IH as ((new & Hg3) & Hrej). split; [| exact Hrej].
           exists ([] ++ new). apply (grows_trans st st1 st3); auto.
      * destruct Hi as (Hg1 & Hrej). split; eauto.
    + apply IH.
Qed.

(** ** What a generation records *)

(** C6. A successful call of [generate_attack_pattern], [generate_malware],
    [generate_threat_actor] or [generate_campaign] appends the object it
    returns to the object list, followed by the objects and relationships it
    induces, and appends those relationships to the relationship list as
    well. For a threat actor these are, for each observed technique
    identifier that matches the pattern, an attack pattern and the
    relationship "uses" from the actor to it; for a campaign, the actor with
    what it induces and the relationship "attributed-to" from the campaign
    to the actor, then each malware followed by the relationship "uses" from
    the campaign to it. [generate_indicators_from_file] appends every
    indicator it returns.
    [generate_indicator] itself returns its indicator without touching the
    object list or the relationship list: recording an indicator is the work
    of [generate_indicators_from_file]. *)
Theorem successful_generation_recorded (st : state) :
  (forall technique_id name description ap st',
      generate_attack_pattern uuid4 stix2_check technique_id name description st
        = (Returns (Some ap), st') ->
      grows st st' [ap])
  /\ (forall config malware st',
        generate_malware uuid4 stix2_check config st = (Returns malware, st') ->
        grows st st' [malware])
  /\ (forall config actor st',
        generate_threat_actor uuid4 stix2_check config st = (Returns actor, st') ->
        exists ttps induced,
          observed_ttps config = Some ttps
          /\ ttp_trace (obj_id actor) (obj_id (identity st)) ttps induced
          /\ grows st st' (actor :: induced))
  /\ (forall config campaign st',
        generate_campaign uuid4 fromisoformat stix2_check py_repr config st
          = (Returns campaign, st') ->
        exists actor_part malware_part,
          actor_part_of config (obj_id campaign) (obj_id (identity st)) actor_part
          /\ malware_part_of config (obj_id campaign) (obj_id (identity st)) malware_part
          /\ grows st st' (campaign :: actor_part ++ malware_part))
  /\ (forall lines o indicators st',
        generate_indicators_from_file uuid4 clock stix2_check lines o st
          = (Returns indicators, st') ->
        grows st st' indicators)
  /\ (forall ioc o r st',
        generate_indicator uuid4 clock stix2_check ioc o st = (r, st') ->
        objects st' = objects st /\ relationships st' = relationships st).
Proof.
  clear stix2_properties.
  split; [| split; [| split; [| split; [| split]]]].
  - intros technique_id name description ap st' E.
    pose proof (generate_attack_pattern_effect technique_id name description st) as H.
    rewrite E in H. tauto.
  - intros config malware st' E. pose proof (generate_malware_effect config st) as H.
    rewrite E in H. tauto.
  - intros config actor st' E. pose proof (generate_threat_actor_effect config st) as H.
    rewrite E in H. destruct H as (_ & _ & _ & ttps & extra & Ho & Htr & Hg).
    exists ttps, extra. auto.
  - intros config campaign st' E. pose proof (generate_campaign_effect config st) as H.
    rewrite E in H. destruct H as (_ & _ & _ & ap & mp & Hg & Hap & Hmp).
    exists ap, mp. auto.
  - intros lines o indicators st' E.
    pose proof (generate_indicators_from_lines_effect o lines [] st) as H.
    unfold generate_indicators_from_file in E. rewrite E in H.
    destruct H as (new & -> & _ & Hg). exact Hg.
  - intros ioc o r st' E. pose proof (generate_indicator_effect ioc o st) as H.
    rewrite E in H.
    assert (Hg : grows st st' []) by (destruct r as [[i |] | e]; tauto).
    destruct Hg as (_ & Ho & Hr). simpl in Ho, Hr. rewrite app_nil_r in Ho, Hr. auto.
Qed.

(** ** The session invariant *)

Lemma filter_sublist {A : Type} (f : A -> bool) (l : list A) :
  sublist (List.filter f l) l.
Proof.
  induction l as [| x l IH]; cbn [List.filter].
  - constructor.
  - destruct (f x); constructor; exact IH.
Qed.

Lemma grows_recorded (st st' : state) (new : list stix_object) :
  grows st st' new -> relationships_recorded st -> relationships_recorded st'.
Proof.
  intros (_ & Ho & Hr) H. unfold relationships_recorded in *.
  rewrite Hr, Ho, H, List.filter_app. reflexivity.
Qed.

(** Every call appends objects, and the relationships among them. *)
Lemma run_call_grows (c : call) (st : state) :
  exists new,
    grows st (run_call uuid4 clock fromisoformat stix2_check py_repr c st) new.
Proof.
  clear stix2_properties.
  destruct c as [ioc o | lines o | t n d | config | config | config]; cbn [run_call].
  - pose proof (generate_indicator_effect ioc o st) as H.
    destruct (generate_indicator uuid4 clock stix2_check ioc o st) as [[[i |] | e] st'];
      exists []; cbn [snd]; tauto.
  - pose proof (generate_indicators_from_lines_effect o lines [] st) as H.
    unfold generate_indicators_from_file.
    destruct (generate_indicators_from_lines uuid4 clock stix2_check lines o [] st)
      as [[r | e] st']; cbn [snd].
    + destruct H as (new & _ & _ & Hg). eauto.
    + tauto.
  - pose proof (generate_attack_pattern_effect t n d st) as H.
    destruct (generate_attack_pattern uuid4 stix2_check t n d st) as [[[ap |] | e] st'];
      cbn [snd].
    + exists [ap]. tauto.
    + exists []. tauto.
    + exists []. tauto.
  - pose proof (generate_malware_effect config st) as H.
    destruct (generate_malware uuid4 stix2_check config st) as [[mw | e] st']; cbn [snd].
    + exists [mw]. tauto.
    + exists []. tauto.
  - pose proof (generate_threat_actor_effect config st) as H.
    destruct (generate_threat_actor uuid4 stix2_check config st) as [[a | e] st']; cbn [snd].
    + destruct H as (_ & _ & _ & ttps & extra & _ & _ & Hg). eauto.
    + tauto.
  - pose proof (generate_campaign_effect config st) as H.
    destruct (generate_campaign uuid4 fromisoformat stix2_check py_repr config st)
      as [[a | e] st']; cbn [snd].
    + destruct H as (_ & _ & _ & ap & mp & Hg & _). eauto.
    + tauto.
Qed.

Lemma run_calls_recorded (cs : list call) :
  forall st, relationships_recorded st ->
    relationships_recorded (run_calls uuid4 clock fromisoformat stix2_check py_repr cs st).
Proof.
  unfold run_calls. induction cs as [| c cs IH]; intros st H; cbn [fold_left].
  - exact H.
  - apply IH. destruct (run_call_grows c st) as (new & Hg).
    exact (grows_recorded _ _ _ Hg H).
Qed.

(** ** Bundle validation *)

Lemma check_object_members (errors : list string) (o : dict json) :
  check_object py_repr errors (JObj o) = Returns (errors ++ member_errors py_repr o).
Proof.
  unfold check_object, member_errors. cbn [py_in py_get obind].
  destruct (dict_has "type" o), (dict_has "id" o); cbn [negb obind app];
    rewrite ?app_nil_r, <- ?app_assoc; reflexivity.
Qed.

Lemma check_objects_members (members : list (dict json)) :
  forall errors,
    check_objects py_repr errors (map JObj members)
    = Returns (errors ++ flat_map (member_errors py_repr) members).
Proof.
  induction members as [| o members IH]; intros errors; cbn [map check_objects flat_map].
  - rewrite app_nil_r. reflexivity.
  - rewrite check_object_members. cbn [obind]. rewrite IH, <- app_assoc. reflexivity.
Qed.

Lemma length_no_errors (errors : list string) :
  Nat.eqb (length errors) 0 = no_errors errors.
Proof. destruct errors; reflexivity. Qed.

(** The report on a bundle whose document is a JSON object with a list of
    JSON objects as members. *)
Lemma validate_bundle_document (b : Bundle) (doc : dict json) (members : list (dict json)) :
  loads_serialize b = Returns (JObj doc) ->
  has_members doc members ->
  validate_bundle py_repr b
  = (no_errors (expected_errors py_repr doc members), expected_errors py_repr doc members).
Proof.
  intros Hload Hm. unfold validate_bundle. rewrite Hload. cbn [obind].
  unfold check_bundle, expected_errors. cbn [py_in py_getitem py_get obind].
  unfold dict_has, dict_get, differs_from.
  assert (Ht : truthy (JArr (map JObj members)) = no_errors
                 match members with [] => ["Bundle has no objects"] | _ :: _ => [] end)
    by (destruct members; reflexivity).
  destruct Hm as [Ho | [Ho ->]]; rewrite Ho.
  - destruct (dict_lookup "type" doc) as [t |]; cbn [negb obind py_iter]; rewrite Ht;
      [destruct (is_JStr "bundle" t) |]; destruct members;
      cbn [negb app no_errors]; rewrite check_objects_members; cbn [obind app];
      rewrite length_no_errors; reflexivity.
  - destruct (dict_lookup "type" doc) as [t |]; cbn [negb obind py_iter check_objects];
      [destruct (is_JStr "bundle" t) |]; reflexivity.
Qed.

(** The validity flag of a report says whether its error list is empty. *)
Lemma validate_bundle_flag (b : Bundle) :
  fst (validate_bundle py_repr b) = no_errors (snd (validate_bundle py_repr b)).
Proof.
  unfold validate_bundle.
  destruct (obind (loads_serialize b) (check_bundle py_repr)) as [[v errors] | e] eqn:E;
    [| reflexivity].
  cbn [fst snd]. destruct (loads_serialize b) as [d |]; [| discriminate].
  cbn [obind] in E. unfold check_bundle in E.
  repeat match type of E with
  | obind ?m _ = _ => destruct m; [cbn [obind] in E | discriminate]
  end.
  injection E as <- <-. apply length_no_errors.
Qed.

Lemma member_errors_nil (o : dict json) :
  dict_has "type" o = true -> dict_has "id" o = true -> member_errors py_repr o = [].
Proof. intros H1 H2. unfold member_errors. rewrite H1, H2. reflexivity. Qed.

Lemma members_errors_nil (members : list (dict json)) :
  Forall (fun o => dict_has "type" o = true /\ dict_has "id" o = true) members ->
  flat_map (member_errors py_repr) members = [].
Proof.
  induction 1 as [| o members [H1 H2] _ IH]; cbn [flat_map].
  - reflexivity.
  - rewrite (member_errors_nil o H1 H2), IH. reflexivity.
Qed.

(** C3. For a bundle whose document is a JSON object with a list of JSON
    objects as members (or no object list), [validate_bundle] returns the
    errors in check order: one for a type tag that is not "bundle", one for
    an empty or missing object list, then for each member one for a missing
    type field and one for a missing id field; the flag is true exactly when
    the error list is empty. So a bundle with type tag "bundle" and at least
    one member, every member with a type and an id, yields (true, []), and a
    bundle without members yields false and a list that holds "Bundle has no
    objects". *)
Theorem validate_bundle_accumulates (b : Bundle) (doc : dict json)
    (members : list (dict json)) :
  loads_serialize b = Returns (JObj doc) ->
  has_members doc members ->
  validate_bundle py_repr b
    = (no_errors (expected_errors py_repr doc members), expected_errors py_repr doc members)
  /\ (fst (validate_bundle py_repr b) = true <-> snd (validate_bundle py_repr b) = [])
  /\ (dict_lookup "type" doc = Some (JStr "bundle") -> members <> [] ->
      Forall (fun o => dict_has "type" o = true /\ dict_has "id" o = true) members ->
      validate_bundle py_repr b = (true, []))
  /\ (members = [] ->
      fst (validate_bundle py_repr b) = false
      /\ In "Bundle has no objects" (snd (validate_bundle py_repr b))).
Proof.
  intros Hload Hm. pose proof (validate_bundle_document b doc members Hload Hm) as Hv.
  split; [exact Hv |]. split; [| split].
  - rewrite validate_bundle_flag. destruct (snd (validate_bundle py_repr b)); simpl.
    + tauto.
    + split; discriminate.
  - intros Ht Hne Hall. rewrite Hv. unfold expected_errors. rewrite Ht.
    rewrite (members_errors_nil members Hall).
    destruct members; [congruence | reflexivity].
  - intros ->. rewrite Hv. unfold expected_errors. cbn [flat_map fst snd].
    rewrite app_nil_r. split.
    + destruct (dict_lookup "type" doc) as [t |]; [destruct (is_JStr "bundle" t) |];
        reflexivity.
    + apply in_or_app. right. left. reflexivity.
Qed.

(** C4. [validate_bundle] returns a report for every bundle. When the
    check raises an exception, in [bundle.serialize()], in [json.loads] or
    later, the report is (false, [message of the exception]), whatever errors
    had been collected before; when it raises none, the report is the one
    the check returns. In every report the flag is true exactly when the
    error list is empty. *)
Theorem validate_bundle_catches (b : Bundle) :
  (forall e,
      obind (loads_serialize b) (fun d => check_bundle py_repr d) = Raises e ->
      validate_bundle py_repr b = (false, [exn_message e]))
  /\ (forall report,
        obind (loads_serialize b) (fun d => check_bundle py_repr d) = Returns report ->
        validate_bundle py_repr b = report)
  /\ (exists valid errors,
        validate_bundle py_repr b = (valid, errors) /\ (valid = true <-> errors = []))
  /\ validate_bundle py_repr
       (mk_bundle (Returns (JObj [("type", JStr "report");
                                  ("objects", JArr [JObj []; JInt 7])])))
     = (false, ["argument of type 'int' is not iterable"])
  /\ validate_bundle py_repr (mk_bundle (Raises (ValueError "Expecting value")))
     = (false, ["Expecting value"]).
Proof.
  split; [| split; [| split; [| split]]].
  - intros e H. unfold validate_bundle. rewrite H. reflexivity.
  - intros report H. unfold validate_bundle. rewrite H. reflexivity.
  - pose proof (validate_bundle_flag b) as H.
    destruct (validate_bundle py_repr b) as [valid errors]. exists valid, errors.
    split; [reflexivity |]. cbn [fst snd] in H. rewrite H.
    destruct errors; simpl; [tauto | split; discriminate].
  - reflexivity.
  - reflexivity.
Qed.

Lemma object_json_members (objs : list stix_object) :
  map (object_json stix2_properties) objs
  = map JObj (map (fun o => ("type", JStr (obj_type o)) :: ("id", JStr (obj_id o))
                            :: stix2_properties o) objs).
Proof. rewrite map_map. reflexivity. Qed.

(** C9. [create_bundle] has no case for an empty object list: in every
    session it returns a bundle of the object list and leaves the list as it
    is. The bundle of an empty list has no objects, which [validate_bundle]
    reports as the one error "Bundle has no objects"; the bundle of a list
    that is not empty is valid. *)
Theorem create_bundle_always_returns (st : state) :
  exists b st',
    create_bundle uuid4 stix2_properties st = (Returns b, st')
    /\ b = stix2_Bundle stix2_properties ("bundle--" +:+ uuid4 (uuids st)) (objects st)
    /\ objects st' = objects st /\ relationships st' = relationships st
    /\ (objects st = [] -> validate_bundle py_repr b = (false, ["Bundle has no objects"]))
    /\ (objects st <> [] -> validate_bundle py_repr b = (true, [])).
Proof.
  eexists _, _. split; [reflexivity |]. split; [reflexivity |].
  split; [reflexivity |]. split; [reflexivity |]. split.
  - intros ->. reflexivity.
  - intros Hne. destruct (objects st) as [| o objs] eqn:E; [congruence |].
    set (members := map (fun o => ("type", JStr (obj_type o)) :: ("id", JStr (obj_id o))
                                  :: stix2_properties o) (o :: objs)).
    rewrite (validate_bundle_document _
               [("type", JStr "bundle"); ("id", JStr ("bundle--" +:+ uuid4 (uuids st)));
                ("objects", JArr (map (object_json stix2_properties) (o :: objs)))]
               members).
    + unfold expected_errors. cbn [dict_lookup String.eqb Ascii.eqb Bool.eqb is_JStr].
      rewrite members_errors_nil.
      * reflexivity.
      * unfold members. apply List.Forall_forall. intros m Hm.
        apply List.in_map_iff in Hm as (x & <- & _). split; reflexivity.
    + reflexivity.
    + left. rewrite object_json_members. reflexivity.
Qed.

End GeneratorProperties.

(** ** Reference enforcement *)

Lemma report_errors_enforced (contents : string -> json) (filepath : string)
    (options : ValidationOptions) (r : json) :
  In r (bundle_objects (contents filepath)) ->
  enforce_refs options = true ->
  dangling (object_ids (bundle_objects (contents filepath))) r = true ->
  In (mk_error_info (id_of r) (type_of r) unresolved_reference)
     (report_errors (snd (validate_single_file (validate_file_on contents) filepath options)))
  /\ fst (validate_single_file (validate_file_on contents) filepath options) = false.
Proof.
  intros Hin He Hd. unfold validate_single_file, validate_file_on, validate_document.
  cbn [fatal object_results is_valid]. rewrite He. cbn [andb].
  set (ids := object_ids (bundle_objects (contents filepath))) in *.
  set (check := fun o : json => mk_object_result _ _ _ _).
  assert (Herr : In (mk_error_info (id_of r) (type_of r) unresolved_reference)
            (flat_map (fun x => map (fun e => mk_error_info (object_id x) (object_type x) e)
                                    (result_errors x))
                      (map check (bundle_objects (contents filepath))))).
  { apply in_flat_map. exists (check r). split; [apply in_map; exact Hin |].
    apply in_map. unfold check. cbn [result_errors]. rewrite Hd.
    apply in_or_app. right. apply in_or_app. right. left. reflexivity. }
  assert (Hinvalid : forallb (fun x => match result_errors x with [] => true | _ :: _ => false end)
                       (map check (bundle_objects (contents filepath))) = false).
  { destruct (forallb _ _) eqn:E; [| reflexivity].
    rewrite forallb_forall in E. specialize (E (check r) (in_map check _ _ Hin)).
    unfold check in E. cbn [result_errors] in E. rewrite Hd in E.
    destruct (str_field "type" r), (str_field "id" r); discriminate. }
  match goal with
  | |- context [if ?c then Some _ else _] => destruct c
  end.
  - cbn [snd fst report_errors]. split; [apply in_or_app; left; exact Herr | reflexivity].
  - destruct (bundle_objects (contents filepath)) eqn:Eo.
    + cbn [snd fst report_errors]. split; [apply in_or_app; left; exact Herr | reflexivity].
    + cbn [snd fst report_errors]. split; [exact Herr |].
      rewrite Hinvalid. reflexivity.
Qed.

Lemma report_errors_not_enforced (contents : string -> json) (filepath : string)
    (options : ValidationOptions) (e : error_info) :
  enforce_refs options = false ->
  In e (report_errors (snd (validate_single_file (validate_file_on contents) filepath options))) ->
  info_message e <> unresolved_reference.
Proof.
  intros He Hin. unfold validate_single_file, validate_file_on, validate_document in Hin.
  cbn [fatal object_results is_valid] in Hin. rewrite He in Hin. cbn [andb] in Hin.
  set (check := fun o : json => mk_object_result _ _ _ _) in Hin.
  assert (Hobj : forall x,
            In x (flat_map (fun x => map (fun e => mk_error_info (object_id x) (object_type x) e)
                                         (result_errors x))
                           (map check (bundle_objects (contents filepath)))) ->
            info_message x <> unresolved_reference).
  { intros x Hx. apply in_flat_map in Hx as (res & Hres & Hx).
    apply List.in_map_iff in Hres as (o & <- & _).
    apply List.in_map_iff in Hx as (msg & <- & Hmsg).
    unfold check in Hmsg. cbn [result_errors info_message] in *.
    rewrite app_nil_r in Hmsg. apply in_app_or in Hmsg as [Hmsg | Hmsg].
    - destruct (str_field "type" o); [destruct Hmsg |].
      destruct Hmsg as [<- | []]. discriminate.
    - destruct (str_field "id" o); [destruct Hmsg |].
      destruct Hmsg as [<- | []]. discriminate. }
  match type of Hin with
  | context [if ?c then Some _ else _] => destruct c
  end.
  - cbn [snd report_errors] in Hin. apply in_app_or in Hin as [Hin | [<- | []]]; auto;
      discriminate.
  - destruct (bundle_objects (contents filepath)) eqn:Eo; cbn [snd report_errors] in Hin.
    + apply in_app_or in Hin as [Hin | [<- | []]]; auto; discriminate.
    + auto.
Qed.

(** C7. The script hands the flag it was given to the validator. With the
    validator's checks as specified, when reference enforcement is requested
    every relationship of the bundle whose source or target id is not the id
    of an object of the same bundle gets an error entry and the bundle is
    invalid; when it is not requested no such error is reported, and a
    bundle whose only object is such a relationship is reported valid without
    errors. The generator's [validate_bundle], which has no enforcement,
    accepts that bundle too. *)
Theorem enforce_refs_reports_unresolved (contents : string -> json) (filepath : string)
    (strict : bool) (r : json) :
  In r (bundle_objects (contents filepath)) ->
  dangling (object_ids (bundle_objects (contents filepath))) r = true ->
  (forall enforce, enforce_refs (create_options strict enforce) = enforce)
  /\ In (mk_error_info (id_of r) (type_of r) unresolved_reference)
        (report_errors (snd (validate_single_file (validate_file_on contents) filepath
                               (create_options strict true))))
  /\ fst (validate_single_file (validate_file_on contents) filepath
            (create_options strict true)) = false
  /\ (forall e,
        In e (report_errors (snd (validate_single_file (validate_file_on contents) filepath
                                    (create_options strict false)))) ->
        info_message e <> unresolved_reference)
  /\ dangling (object_ids (bundle_objects dangling_document)) dangling_relationship = true
  /\ validate_single_file (validate_file_on (fun _ => dangling_document)) filepath
       (create_options strict false)
     = (true, mk_report filepath true [] [])
  /\ (forall py_repr,
        validate_bundle py_repr (mk_bundle (Returns dangling_document)) = (true, [])).
Proof.
  intros Hin Hd.
  split; [reflexivity |].
  destruct (report_errors_enforced contents filepath (create_options strict true) r Hin
              eq_refl Hd) as [H1 H2].
  split; [exact H1 |]. split; [exact H2 |].
  split; [intros e; apply report_errors_not_enforced; reflexivity |].
  split; [reflexivity |]. split; [reflexivity |]. intros py_repr. reflexivity.
Qed.

Lemma enforce_refs_reports_unresolved_witness :
  In (mk_error_info "relationship--1" "relationship" unresolved_reference)
     (report_errors (snd (validate_single_file (validate_file_on (fun _ => dangling_document))
                            "bundle.json" (create_options false true)))).
Proof.
  apply (enforce_refs_reports_unresolved (fun _ => dangling_document) "bundle.json" false
           dangling_relationship).
  - left. reflexivity.
  - reflexivity.
Defined.

(** ** The properties at sample inputs *)

Lemma detect_ioc_type_priority_witness :
  detect_ioc_type "192.0.2.1" = Some "ipv4"
  /\ detect_ioc_type "e3b0c44298fc1c149afbf4c8996fb92427ae41e4649b934ca495991b7852b855"
     = Some "sha256".
Proof.
  split.
  - apply (detect_ioc_type_priority "192.0.2.1").
    exists (chars "192"), (chars "0"), (chars "2"), (chars "1").
    unfold digit_group. repeat split; try reflexivity; simpl; lia.
  - apply (detect_ioc_type_priority
             "e3b0c44298fc1c149afbf4c8996fb92427ae41e4649b934ca495991b7852b855").
    split; reflexivity.
Defined.

Lemma create_indicator_pattern_templates_witness :
  exists i st',
    generate_indicator sample_uuid4 sample_clock accept_all "192.0.2.1" default_options
      sample_session = (Returns (Some i), st')
    /\ kwarg "pattern" i =
       Some (PStr "[network-traffic:dst_ref.type = 'ipv4-addr' AND network-traffic:dst_ref.value = '192.0.2.1']").
Proof.
  apply (create_indicator_pattern_templates sample_uuid4 sample_clock accept_all
           "192.0.2.1" "ipv4" default_options sample_session).
  intros type kw. reflexivity.
Defined.



(** [generate_indicator] returns an indicator that is not in the object
    list of the session. *)
Lemma generate_indicator_not_recorded :
  exists i st',
    generate_indicator sample_uuid4 sample_clock accept_all "192.0.2.1" default_options
      sample_session = (Returns (Some i), st')
    /\ objects st' = [] /\ ~ In i (objects st').
Proof.
  eexists _, _. split; [vm_compute; reflexivity |]. split; [reflexivity |].
  intros [].
Qed.

Lemma successful_generation_recorded_witness :
  exists malware st',
    generate_malware sample_uuid4 accept_all [("name", JStr "Loader")] sample_session
      = (Returns malware, st')
    /\ grows sample_session st' [malware].
Proof.
  destruct (successful_generation_recorded sample_uuid4 sample_clock sample_fromisoformat
              accept_all sample_repr sample_session) as (_ & Hm & _).
  destruct (generate_malware sample_uuid4 accept_all [("name", JStr "Loader")]
              sample_session) as [[malware | e] st'] eqn:E.
  - exists malware, st'. split; [reflexivity | exact (Hm _ _ _ E)].
  - vm_compute in E. discriminate.
Defined.

Lemma validate_bundle_accumulates_witness :
  validate_bundle sample_repr
    (mk_bundle (Returns (JObj [("type", JStr "report");
                               ("objects", JArr [JObj [("id", JStr "x--1")]; JObj []])])))
  = (false, ["Invalid bundle type"; "Object missing type: x--1";
             "Object missing type: unknown"; "Object missing id: unknown"]).
Proof.
  apply (validate_bundle_accumulates sample_repr
           (mk_bundle (Returns (JObj [("type", JStr "report");
                                      ("objects", JArr [JObj [("id", JStr "x--1")]; JObj []])])))
           [("type", JStr "report"); ("objects", JArr [JObj [("id", JStr "x--1")]; JObj []])]
           [[("id", JStr "x--1")]; []]).
  - reflexivity.
  - left. reflexivity.
Defined.

Lemma validate_bundle_catches_witness :
  validate_bundle sample_repr (mk_bundle (Returns (JArr [])))
  = (false, ["'list' object has no attribute 'get'"]).
Proof.
  destruct (validate_bundle_catches sample_repr (mk_bundle (Returns (JArr []))))
    as (Hraise & _).
  apply (Hraise (AttributeError "'list' object has no attribute 'get'")).
  reflexivity.
Defined.

(** On a session without objects [create_bundle] returns a bundle. *)
Lemma create_bundle_of_no_objects :
  objects sample_session = []
  /\ exists b st',
       create_bundle sample_uuid4 sample_properties sample_session = (Returns b, st')
       /\ loads_serialize b
          = Returns (JObj [("type", JStr "bundle"); ("id", JStr "bundle--0")]).
Proof.
  split; [reflexivity |]. eexists _, _. split; vm_compute; reflexivity.
Qed.

Lemma create_bundle_always_returns_witness :
  exists b st',
    create_bundle sample_uuid4 sample_properties sample_session = (Returns b, st')
    /\ validate_bundle sample_repr b = (false, ["Bundle has no objects"]).
Proof.
  destruct (create_bundle_always_returns sample_uuid4 sample_repr sample_properties
              sample_session) as (b & st' & H & _ & _ & _ & Hempty & _).
  exists b, st'. split; [exact H |]. apply Hempty. reflexivity.
Defined.
(** * Further properties *)

(** ** Stripping *)

Lemma chars_append (a b : string) : chars (a +:+ b) = chars a ++ chars b.
Proof.
  unfold chars. induction a as [| c a IH]; simpl; [reflexivity |]. rewrite IH. reflexivity.
Qed.

Lemma lstrip_head (w : list ascii) (c : ascii) (w' : list ascii) :
  lstrip_chars w = c :: w' -> isspace c = false.
Proof.
  induction w as [| x w IH]; simpl; [discriminate |].
  destruct (isspace x) eqn:E; [exact IH |]. intros [= <- <-]. exact E.
Qed.

Lemma lstrip_idempotent (w : list ascii) : lstrip_chars (lstrip_chars w) = lstrip_chars w.
Proof.
  destruct (lstrip_chars w) as [| c w'] eqn:E; [reflexivity |].
  apply lstrip_keeps. exact (lstrip_head _ _ _ E).
Qed.

Lemma lstrip_blank (a w : list ascii) :
  forallb isspace a = true -> lstrip_chars (a ++ w) = lstrip_chars w.
Proof.
  induction a as [| c a IH]; simpl; [reflexivity |]. intros H.
  apply andb_true_iff in H as [Hc Ha]. rewrite Hc. auto.
Qed.

Lemma lstrip_all_blank (a : list ascii) :
  forallb isspace a = true -> lstrip_chars a = [].
Proof.
  intros H. rewrite <- (app_nil_r a). rewrite lstrip_blank by exact H. reflexivity.
Qed.

Lemma lstrip_app (w b : list ascii) :
  lstrip_chars (w ++ b)
  = if forallb isspace w then lstrip_chars b else lstrip_chars w ++ b.
Proof.
  induction w as [| c w IH]; simpl; [reflexivity |].
  destruct (isspace c); simpl; [exact IH | reflexivity].
Qed.

Lemma rstrip_blank (w b : list ascii) :
  forallb isspace b = true -> rstrip_chars (w ++ b) = rstrip_chars w.
Proof.
  intros H. unfold rstrip_chars. rewrite rev_app_distr, lstrip_blank; [reflexivity |].
  rewrite forallb_forall in *. intros x Hx. apply H. apply in_rev. exact Hx.
Qed.

Lemma rstrip_idempotent (w : list ascii) : rstrip_chars (rstrip_chars w) = rstrip_chars w.
Proof. unfold rstrip_chars. rewrite rev_involutive, lstrip_idempotent. reflexivity. Qed.

Lemma rstrip_last (w m : list ascii) (c : ascii) :
  rstrip_chars w = m ++ [c] -> isspace c = false.
Proof.
  unfold rstrip_chars. intros H. apply (f_equal (@rev ascii)) in H.
  rewrite rev_involutive, rev_app_distr in H. simpl in H.
  exact (lstrip_head _ _ _ H).
Qed.

Lemma rstrip_cons (x : ascii) (w : list ascii) :
  isspace x = false -> rstrip_chars (x :: w) = x :: rstrip_chars w.
Proof.
  intros Hx. unfold rstrip_chars. simpl. rewrite lstrip_app.
  destruct (forallb isspace (rev w)) eqn:E.
  - simpl. rewrite Hx. rewrite (lstrip_all_blank _ E). reflexivity.
  - rewrite rev_app_distr. reflexivity.
Qed.

Lemma lstrip_rstrip (w : list ascii) :
  lstrip_chars (rstrip_chars (lstrip_chars w)) = rstrip_chars (lstrip_chars w).
Proof.
  destruct (lstrip_chars w) as [| c w'] eqn:E; [reflexivity |].
  pose proof (lstrip_head _ _ _ E) as Hc. rewrite (rstrip_cons _ _ Hc).
  apply lstrip_keeps. exact Hc.
Qed.

Lemma strip_idempotent (s : string) : strip (strip s) = strip s.
Proof.
  unfold strip. rewrite chars_str, lstrip_rstrip, rstrip_idempotent. reflexivity.
Qed.

Lemma strip_padding (a s b : string) :
  blank a -> blank b -> strip (a +:+ s +:+ b) = strip s.
Proof.
  unfold blank, strip. intros Ha Hb. rewrite !chars_append. f_equal.
  rewrite (lstrip_blank _ _ Ha), lstrip_app.
  destruct (forallb isspace (chars s)) eqn:E.
  - rewrite (lstrip_all_blank _ Hb), (lstrip_all_blank _ E). reflexivity.
  - apply rstrip_blank. exact Hb.
Qed.

Lemma strip_no_trailing_space (s : string) (m : list ascii) (c : ascii) :
  chars (strip s) = m ++ [c] -> isspace c = false.
Proof. unfold strip. rewrite chars_str. apply rstrip_last. Qed.

(** ** More on IOC classification *)

(** X1. White space around an IOC does not change its class: the
    classifier gives the same answer on a string, on the stripped string and
    on the string with any white space before and after it. *)
Theorem detect_ioc_type_ignores_padding (a s b : string) :
  blank a -> blank b ->
  detect_ioc_type (a +:+ s +:+ b) = detect_ioc_type s
  /\ detect_ioc_type (strip s) = detect_ioc_type s.
Proof.
  intros Ha Hb. unfold detect_ioc_type.
  rewrite (strip_padding a s b Ha Hb), strip_idempotent. split; reflexivity.
Qed.

Lemma Lang_upto_class_inv (p : ascii -> bool) (n : nat) :
  forall w, Lang (upto n (Class p)) w -> (length w <= n)%nat /\ forallb p w = true.
Proof.
  induction n as [| n IH]; intros w H; cbn [upto] in H.
  - inversion H. simpl. auto.
  - apply Lang_opt_inv in H as [-> | H]; [simpl; split; [lia | reflexivity] |].
    apply Lang_Cat_inv in H as (u & v & -> & Hu & Hv).
    apply Lang_Class_inv in Hu as (c & -> & Hc). apply IH in Hv as [Hl Hp].
    simpl. rewrite Hc, Hp. split; [lia | reflexivity].
Qed.

Lemma Lang_between_class_inv (p : ascii -> bool) (m n : nat) (w : list ascii) :
  Lang (between m n (Class p)) w ->
  (m <= length w <= m + (n - m))%nat /\ forallb p w = true.
Proof.
  unfold between. intros H. apply Lang_Cat_inv in H as (u & v & -> & Hu & Hv).
  apply Lang_times_class_inv in Hu as [Hlu Hpu].
  apply Lang_upto_class_inv in Hv as [Hlv Hpv].
  rewrite length_app, forallb_app, Hpu, Hpv. split; [lia | reflexivity].
Qed.

Lemma Lang_lit_inv (c : ascii) (w : list ascii) : Lang (lit c) w -> w = [c].
Proof.
  intros H. apply Lang_Class_inv in H as (x & -> & Hx).
  apply Ascii.eqb_eq in Hx. subst. reflexivity.
Qed.

Lemma Lang_Dollar_inv (w : list ascii) : Lang Dollar w -> w = [] \/ w = [newline].
Proof.
  intros H. apply Lang_opt_inv in H as [-> | H]; [left; reflexivity | right].
  exact (Lang_lit_inv _ _ H).
Qed.

(** A match of a pattern on a stripped string leaves nothing for [$]. *)
Lemma re_match_strip (r : regex) (s : string) :
  re_match r (strip s) = true <-> Lang r (chars (strip s)).
Proof.
  rewrite re_match_Lang. split; [| apply Lang_anchored].
  intros H. apply Lang_Cat_inv in H as (u & v & E & Hu & Hv).
  apply Lang_Dollar_inv in Hv as [-> | ->].
  - rewrite app_nil_r in E. rewrite E. exact Hu.
  - pose proof (strip_no_trailing_space s u newline E) as Hn. discriminate.
Qed.

Lemma newline_not_hexdigit : hexdigit newline = false.
Proof. reflexivity. Qed.

Lemma hash_pattern_match (k n : nat) (s : string) :
  hex_string n s -> re_match (times k (Class hexdigit)) s = Nat.eqb n k.
Proof.
  intros [Hlen Hhex]. destruct (re_match (times k (Class hexdigit)) s) eqn:E.
  - symmetry. apply Nat.eqb_eq. apply re_match_Lang in E.
    apply Lang_Cat_inv in E as (u & v & Ew & Hu & Hv).
    apply Lang_times_class_inv in Hu as [Hlu _].
    apply Lang_Dollar_inv in Hv as [-> | ->].
    + rewrite app_nil_r in Ew. congruence.
    + rewrite Ew, forallb_app in Hhex. apply andb_true_iff in Hhex as [_ Hn].
      simpl in Hn. discriminate.
  - symmetry. apply Nat.eqb_neq. intros ->.
    assert (re_match (times k (Class hexdigit)) s = true); [| congruence].
    apply re_match_Lang, Lang_anchored, Lang_times_class; auto.
Qed.

Lemma hex_string_detect (n : nat) (s : string) :
  hex_string n s -> detect_ioc_type s = hash_tag n.
Proof.
  intros Hs. pose proof Hs as [Hlen Hhex].
  destruct (chars s) as [| c w] eqn:Ec.
  - assert (s = EmptyString) by (rewrite <- (str_chars s), Ec; reflexivity).
    subst s. simpl in Hlen. subst n. reflexivity.
  - assert (Hstrip : strip s = s).
    { apply (strip_keeps_class hexdigit); auto using hexdigit_not_space.
      - rewrite Ec. discriminate.
      - rewrite Ec. exact Hhex. }
    rewrite <- Ec in Hhex, Hlen. clear Ec.
    unfold detect_ioc_type. rewrite Hstrip.
    assert (Hno : forall r, requires hexdigit (Cat r Dollar) = true -> re_match r s = false).
    { intros r Hr. destruct (re_match r s) eqn:E; [| reflexivity].
      apply re_match_Lang in E. destruct (requires_Lang _ _ _ Hr E Hhex). }
    rewrite (Hno IPV4_PATTERN) by (vm_compute; reflexivity).
    rewrite (Hno IPV6_PATTERN) by (vm_compute; reflexivity).
    rewrite (Hno DOMAIN_PATTERN) by (vm_compute; reflexivity).
    rewrite (Hno URL_PATTERN) by (vm_compute; reflexivity).
    rewrite (Hno EMAIL_PATTERN) by (vm_compute; reflexivity).
    unfold MD5_PATTERN, SHA1_PATTERN, SHA256_PATTERN.
    rewrite !(hash_pattern_match _ n s Hs). reflexivity.
Qed.

(** X2. A string of hexadecimal digits is classified by its length alone:
    32 digits are an md5, 40 a sha1, 64 a sha256, and a string of any other
    number of hexadecimal digits is not recognized. *)
Theorem detect_ioc_type_hex_by_length (n : nat) (s : string) :
  hex_string n s ->
  detect_ioc_type s = hash_tag n
  /\ (n = 32%nat -> detect_ioc_type s = Some "md5")
  /\ (n = 40%nat -> detect_ioc_type s = Some "sha1")
  /\ (n <> 32%nat -> n <> 40%nat -> n <> 64%nat -> detect_ioc_type s = None).
Proof.
  intros Hs. rewrite (hex_string_detect n s Hs). split; [reflexivity |].
  split; [intros ->; reflexivity |]. split; [intros ->; reflexivity |].
  intros H1 H2 H3. unfold hash_tag.
  apply Nat.eqb_neq in H1, H2, H3. rewrite H1, H2, H3. reflexivity.
Qed.

Lemma lower_char_idempotent (c : ascii) : lower_char (lower_char c) = lower_char c.
Proof. destruct c as [[] [] [] [] [] [] [] []]; reflexivity. Qed.

Lemma hexdigit_lower_char (c : ascii) : hexdigit (lower_char c) = hexdigit c.
Proof. destruct c as [[] [] [] [] [] [] [] []]; reflexivity. Qed.

Lemma lower_idempotent (s : string) : lower (lower s) = lower s.
Proof.
  unfold lower. rewrite chars_str, map_map. f_equal. apply map_ext.
  intros c. apply lower_char_idempotent.
Qed.

Lemma hex_string_lower (n : nat) (s : string) : hex_string n s -> hex_string n (lower s).
Proof.
  intros [Hlen Hhex]. unfold hex_string, lower. rewrite chars_str, length_map.
  split; [exact Hlen |]. rewrite forallb_forall in *. intros c Hc.
  apply List.in_map_iff in Hc as (x & <- & Hx). rewrite hexdigit_lower_char. auto.
Qed.

(** X3. The case of a hash does not matter: a string of hexadecimal digits
    and its lower-case spelling get the same class, and for the three hash
    types the pattern of a value is the pattern of its lower-case spelling. *)
Theorem hash_case_insensitive (n : nat) (s : string) :
  hex_string n s ->
  detect_ioc_type (lower s) = detect_ioc_type s
  /\ create_indicator_pattern (lower s) "md5" = create_indicator_pattern s "md5"
  /\ create_indicator_pattern (lower s) "sha1" = create_indicator_pattern s "sha1"
  /\ create_indicator_pattern (lower s) "sha256" = create_indicator_pattern s "sha256".
Proof.
  intros Hs. split.
  - rewrite (hex_string_detect n s Hs), (hex_string_detect n _ (hex_string_lower n s Hs)).
    reflexivity.
  - unfold create_indicator_pattern. cbn [assoc_get String.eqb Ascii.eqb Bool.eqb].
    rewrite lower_idempotent. auto.
Qed.

Lemma Lang_groups_inv (m k : nat) (sep : ascii) (p : ascii -> bool) (n : nat) :
  forall w,
    Lang (times n (Cat (between m k (Class p)) (lit sep))) w ->
    exists gs,
      length gs = n
      /\ w = flat_map (fun g => g ++ [sep]) gs
      /\ Forall (fun g => (m <= length g <= m + (k - m))%nat /\ forallb p g = true) gs.
Proof.
  induction n as [| n IH]; intros w H; cbn [times] in H.
  - inversion H. exists []. repeat split. constructor.
  - apply Lang_Cat_inv in H as (u & v & -> & Hu & Hv).
    apply Lang_Cat_inv in Hu as (g & d & -> & Hg & Hd).
    apply Lang_lit_inv in Hd as ->. apply Lang_between_class_inv in Hg.
    apply IH in Hv as (gs & Hl & -> & Hall).
    exists (g :: gs). split; [simpl; congruence |]. split; [reflexivity |].
    constructor; auto.
Qed.

Lemma detect_ipv4_iff (s : string) :
  detect_ioc_type s = Some "ipv4" <-> re_match IPV4_PATTERN (strip s) = true.
Proof.
  unfold detect_ioc_type. split.
  - destruct (re_match IPV4_PATTERN (strip s)); [reflexivity |].
    repeat match goal with |- context [re_match ?r ?x] => destruct (re_match r x) end;
      discriminate.
  - intros ->. reflexivity.
Qed.

Lemma detect_ipv6_iff (s : string) :
  detect_ioc_type s = Some "ipv6"
  <-> re_match IPV4_PATTERN (strip s) = false /\ re_match IPV6_PATTERN (strip s) = true.
Proof.
  unfold detect_ioc_type. split.
  - destruct (re_match IPV4_PATTERN (strip s)); [discriminate |].
    destruct (re_match IPV6_PATTERN (strip s)); [auto |].
    repeat match goal with |- context [re_match ?r ?x] => destruct (re_match r x) end;
      discriminate.
  - intros [-> ->]. reflexivity.
Qed.

Lemma dotted_quad_match (s : string) :
  re_match IPV4_PATTERN (strip s) = true <-> dotted_quad (strip s).
Proof.
  rewrite re_match_strip. split.
  - unfold IPV4_PATTERN. intros H.
    apply Lang_Cat_inv in H as (u & d & E & Hu & Hd).
    apply Lang_groups_inv in Hu as (gs & Hl & -> & Hall).
    apply Lang_between_class_inv in Hd.
    destruct gs as [| a [| b [| c [| ? ?]]]]; try discriminate.
    inversion Hall as [| ? ? Ha Hall1]; subst.
    inversion Hall1 as [| ? ? Hb Hall2]; subst.
    inversion Hall2 as [| ? ? Hc _]; subst.
    exists a, b, c, d. split.
    + rewrite E. cbn [flat_map]. rewrite app_nil_r, <- !app_assoc. reflexivity.
    + unfold digit_group. simpl in Ha, Hb, Hc, Hd. tauto.
  - intros (a & b & c & d & E & Ha & Hb & Hc & Hd). rewrite E.
    apply dotted_quad_Lang; auto.
Qed.

(** X4. The classifier answers ipv4 exactly for the dotted quads: four
    groups of one to three decimal digits separated by dots, with white space
    around them at most, whatever the value of a group; nothing else is ever
    classified as ipv4. *)
Theorem detect_ioc_type_ipv4_exactly (s : string) :
  detect_ioc_type s = Some "ipv4" <-> dotted_quad (strip s).
Proof. rewrite detect_ipv4_iff. apply dotted_quad_match. Qed.

Lemma hex_group_Lang (g : list ascii) : hex_group g -> Lang (between 0 4 (Class hexdigit)) g.
Proof. intros [Hlen Hh]. apply Lang_between_class; auto. lia. Qed.

Lemma colon_groups_match (s : string) :
  re_match IPV6_PATTERN (strip s) = true <-> colon_groups (strip s).
Proof.
  rewrite re_match_strip. split.
  - unfold IPV6_PATTERN. intros H.
    apply Lang_Cat_inv in H as (u & g7 & E & Hu & H7).
    apply Lang_groups_inv in Hu as (gs & Hl & -> & Hall).
    apply Lang_between_class_inv in H7.
    destruct gs as [| g0 [| g1 [| g2 [| g3 [| g4 [| g5 [| g6 [| ? ?]]]]]]]]; try discriminate.
    repeat match goal with
    | H : Forall _ (_ :: _) |- _ => inversion H; clear H; subst
    end.
    exists g0, g1, g2, g3, g4, g5, g6, g7. split.
    + rewrite E. cbn [flat_map]. rewrite app_nil_r, <- !app_assoc. reflexivity.
    + unfold hex_group. simpl in *. tauto.
  - intros (g0 & g1 & g2 & g3 & g4 & g5 & g6 & g7 & E & H0 & H1 & H2 & H3 & H4 & H5
            & H6 & H7).
    rewrite E. unfold IPV6_PATTERN.
    assert (Hc : forall g, hex_group g ->
              Lang (Cat (between 0 4 (Class hexdigit)) (lit ":")) (g ++ [":"%char])).
    { intros g Hg. constructor; [apply hex_group_Lang; auto | constructor; reflexivity]. }
    replace (g0 ++ ":"%char :: g1 ++ ":"%char :: g2 ++ ":"%char :: g3 ++ ":"%char
             :: g4 ++ ":"%char :: g5 ++ ":"%char :: g6 ++ ":"%char :: g7)
      with (((g0 ++ [":"%char]) ++ (g1 ++ [":"%char]) ++ (g2 ++ [":"%char])
             ++ (g3 ++ [":"%char]) ++ (g4 ++ [":"%char]) ++ (g5 ++ [":"%char])
             ++ (g6 ++ [":"%char]) ++ []) ++ g7)
      by (rewrite app_nil_r, <- !app_assoc; reflexivity).
    constructor; [| apply hex_group_Lang; auto].
    cbn [times]. repeat (constructor; auto).
Qed.

Lemma colon_groups_not_ipv4 (s : string) :
  colon_groups s -> re_match IPV4_PATTERN s = false.
Proof.
  intros (g0 & g1 & g2 & g3 & g4 & g5 & g6 & g7 & E & H0 & H1 & H2 & H3 & H4 & H5
          & H6 & H7).
  destruct (re_match IPV4_PATTERN s) eqn:Em; [| reflexivity].
  apply re_match_Lang in Em. exfalso.
  assert (Hr : requires (fun c => hexdigit c || is_char ":" c) (Cat IPV4_PATTERN Dollar)
               = true) by (vm_compute; reflexivity).
  apply (requires_Lang _ _ _ Hr Em).
  assert (Hw : forall g, hex_group g ->
            forallb (fun c => hexdigit c || is_char ":" c) g = true).
  { intros g [_ Hg]. rewrite forallb_forall in *. intros x Hx. rewrite (Hg x Hx).
    reflexivity. }
  rewrite E. repeat (rewrite forallb_app; cbn [forallb]).
  rewrite (Hw g0 H0), (Hw g1 H1), (Hw g2 H2), (Hw g3 H3), (Hw g4 H4), (Hw g5 H5),
    (Hw g6 H6), (Hw g7 H7). reflexivity.
Qed.

(** X5. The classifier answers ipv6 exactly for eight groups of at most
    four hexadecimal digits separated by seven colons, white space around
    them at most. A group may be empty, so seven colons alone are an ipv6,
    and an address with fewer than seven colons, such as one compressed with
    a double colon, is never an ipv6. *)
Theorem detect_ioc_type_ipv6_exactly (s : string) :
  detect_ioc_type s = Some "ipv6" <-> colon_groups (strip s).
Proof.
  rewrite detect_ipv6_iff. split.
  - intros [_ H]. apply colon_groups_match. exact H.
  - intros H. split; [apply colon_groups_not_ipv4; exact H | apply colon_groups_match; exact H].
Qed.

(** ** The object list of a session *)

Section SessionInvariant.

Set Default Proof Using "Type".

Variable uuid4 : nat -> string.
Variable clock : nat -> datetime.
Variable fromisoformat : string -> option datetime.
Variable stix2_check : string -> dict pyval -> option string.
Variable py_repr : json -> string.

Lemma endpoints_known_mono (known known' : list string) (o : stix_object) :
  (forall x, In x known -> In x known') ->
  endpoints_known known o -> endpoints_known known' o.
Proof.
  intros Hsub H Hr. destruct (H Hr) as (src & tgt & Hs & Ht & H1 & H2).
  exists src, tgt. auto.
Qed.

Lemma well_formed_bounds (creator : string) (known : list string) (lo hi : nat)
    (new : list stix_object) :
  well_formed uuid4 creator known lo new hi -> (lo <= hi)%nat.
Proof. induction 1; lia. Qed.

Lemma well_formed_mono (creator : string) (known : list string) (lo hi : nat)
    (new : list stix_object) :
  well_formed uuid4 creator known lo new hi ->
  forall known' lo' hi',
    (forall x, In x known -> In x known') -> (lo' <= lo)%nat -> (hi <= hi')%nat ->
    well_formed uuid4 creator known' lo' new hi'.
Proof.
  induction 1 as [known lo hi Hle | known lo o new n hi Hle Hty Hid Hcb Hep _ IH];
    intros known' lo' hi' Hsub Hlo Hhi.
  - constructor. lia.
  - apply (wf_cons uuid4 creator known' lo' o new n hi'); auto; try lia.
    + exact (endpoints_known_mono _ _ _ Hsub Hep).
    + apply IH; try lia. intros x Hx. apply in_app_or in Hx as [Hx | Hx];
        apply in_or_app; auto.
Qed.

Lemma well_formed_app (creator : string) (known : list string) (lo mid hi : nat)
    (new1 new2 : list stix_object) :
  well_formed uuid4 creator known lo new1 mid ->
  well_formed uuid4 creator (known ++ map obj_id new1) mid new2 hi ->
  well_formed uuid4 creator known lo (new1 ++ new2) hi.
Proof.
  induction 1 as [known lo mid Hle | known lo o new n mid Hle Hty Hid Hcb Hep _ IH];
    intros H2.
  - simpl in *. rewrite app_nil_r in H2.
    apply (well_formed_mono _ _ _ _ _ H2); auto.
  - cbn [app]. apply (wf_cons uuid4 creator known lo o (new ++ new2) n hi); auto.
    apply IH. cbn [map] in H2. rewrite <- app_assoc. exact H2.
Qed.

Lemma advances_refl (st : state) : advances uuid4 st st [].
Proof. split; [apply grows_refl | constructor; lia]. Qed.

Lemma advances_trans (st1 st2 st3 : state) (new1 new2 : list stix_object) :
  advances uuid4 st1 st2 new1 -> advances uuid4 st2 st3 new2 ->
  advances uuid4 st1 st3 (new1 ++ new2).
Proof.
  intros [Hg1 Hw1] [Hg2 Hw2]. split; [exact (grows_trans _ _ _ _ _ Hg1 Hg2) |].
  destruct Hg1 as (Hi & Ho & _). rewrite Hi, Ho, map_app in Hw2.
  exact (well_formed_app _ _ _ _ _ _ _ Hw1 Hw2).
Qed.

(** A state that differs in the standard error stream, the clock or the
    number of uuids drawn only. *)
Lemma advances_same_lists (st st' : state) :
  identity st' = identity st -> objects st' = objects st ->
  relationships st' = relationships st -> (uuids st <= uuids st')%nat ->
  advances uuid4 st st' [].
Proof.
  intros Hi Ho Hr Hu. split; [apply grows_same_lists; auto | constructor; exact Hu].
Qed.

Lemma advances_ids (st st' : state) (new : list stix_object) (x : string) :
  advances uuid4 st st' new ->
  In x (map obj_id (objects st)) -> In x (map obj_id (objects st')).
Proof.
  intros [(_ & Ho & _) _] Hx. rewrite Ho, map_app. apply in_or_app. auto.
Qed.

Lemma advances_identity (st st' : state) (new : list stix_object) :
  advances uuid4 st st' new -> identity st' = identity st.
Proof. intros [(Hi & _) _]. exact Hi. Qed.

(** One object built by the library and appended. *)
Lemma advances_one (st : state) (type : string) (kwargs : dict pyval) :
  In type generated_types ->
  dict_lookup "created_by_ref" kwargs = Some (PStr (obj_id (identity st))) ->
  String.eqb type "relationship" = false ->
  advances uuid4 st
    (mk_state (identity st)
              (objects st ++ [mk_object type (type +:+ "--" +:+ uuid4 (uuids st)) kwargs])
              (relationships st) (stderr st) (S (uuids st)) (ticks st))
    [mk_object type (type +:+ "--" +:+ uuid4 (uuids st)) kwargs].
Proof.
  intros Hty Hcb Hrel. split.
  - unfold grows. cbn [identity objects relationships List.filter].
    unfold is_relationship_object. cbn [obj_type]. rewrite Hrel, app_nil_r. auto.
  - apply (wf_cons uuid4 _ _ _ _ [] (uuids st)); auto.
    + intros Hr. unfold is_relationship_object in Hr. cbn [obj_type] in Hr. congruence.
    + constructor. cbn [uuids]. lia.
Qed.

Lemma add_relationship_advances (rtype src tgt : string) (st : state) :
  In src (map obj_id (objects st)) -> In tgt (map obj_id (objects st)) ->
  exists new, advances uuid4 (st) (snd (add_relationship uuid4 stix2_check rtype src tgt st)) new.
Proof.
  clear fromisoformat.
  intros Hs Ht.
  unfold add_relationship, bind, identity_id, stix2_new, relationships_append,
    objects_append.
  match goal with
  | |- context [stix2_check "relationship" ?kw] =>
      destruct (stix2_check "relationship" kw) eqn:Hc
  end; cbn [snd].
  - exists []. apply advances_refl.
  - eexists [_]. split.
    + unfold grows. split; [reflexivity | split; reflexivity].
    + eapply (wf_cons uuid4 _ _ _ _ [] (uuids st)).
      * lia.
      * cbn [obj_type generated_types]. simpl. tauto.
      * reflexivity.
      * reflexivity.
      * intros _. exists src, tgt. cbn [objects]. auto.
      * constructor. cbn [uuids]. lia.
Qed.
Lemma generate_attack_pattern_advances (technique_id : string)
    (name description : option string) (st : state) :
  match generate_attack_pattern uuid4 stix2_check technique_id name description st with
  | (Returns (Some ap), st') => advances uuid4 st st' [ap]
  | (_, st') => advances uuid4 st st' []
  end.
Proof.
  clear fromisoformat.
  unfold generate_attack_pattern.
  destruct (re_match TECHNIQUE_PATTERN technique_id); cbn [negb].
  - unfold bind, identity_id, stix2_new, objects_append, ret.
    match goal with
    | |- context [stix2_check "attack-pattern" ?kw] =>
        destruct (stix2_check "attack-pattern" kw) eqn:Hc
    end.
    + apply advances_refl.
    + cbn [identity objects relationships stderr uuids ticks].
      apply advances_one; [simpl; tauto | reflexivity | reflexivity].
  - unfold bind, print_stderr, ret. apply advances_same_lists; reflexivity.
Qed.

Lemma generate_malware_advances (config : dict json) (st : state) :
  match generate_malware uuid4 stix2_check config st with
  | (Returns malware, st') => advances uuid4 st st' [malware]
  | (Raises _, st') => advances uuid4 st st' []
  end.
Proof.
  unfold generate_malware, bind, identity_id, stix2_new, objects_append, ret.
  match goal with
  | |- context [stix2_check "malware" ?kw] =>
      destruct (stix2_check "malware" kw) eqn:Hc
  end.
  - apply advances_refl.
  - cbn [identity objects relationships stderr uuids ticks].
    apply advances_one; [simpl; tauto | | reflexivity].
    rewrite !dict_lookup_copy_field by reflexivity. reflexivity.
Qed.

Lemma advances_last_id (st st' : state) (o : stix_object) :
  advances uuid4 st st' [o] -> In (obj_id o) (map obj_id (objects st')).
Proof.
  intros [(_ & Ho & _) _]. rewrite Ho, map_app. apply in_or_app. right. left. reflexivity.
Qed.

Lemma ttp_loop_advances (actor_id : string) (items : list json) :
  forall st,
    In actor_id (map obj_id (objects st)) ->
    exists new,
      advances uuid4 st
        (snd (for_each items (fun ttp =>
                r <- generate_attack_pattern_of uuid4 stix2_check ttp ;;
                match r with
                | Some attack_pattern =>
                    add_relationship uuid4 stix2_check "uses" actor_id (obj_id attack_pattern)
                | None => ret tt
                end) st))
        new.
Proof.
  set (body := fun ttp : json => _).
  induction items as [| item items IH]; intros st Hactor; cbn [for_each].
  - exists []. apply advances_refl.
  - unfold bind at 1. unfold body at 1. unfold bind at 1.
    destruct item as [| b | n | m e | t | l | d];
      try (exists []; apply advances_refl).
    cbn [generate_attack_pattern_of].
    pose proof (generate_attack_pattern_advances t None None st) as Ha.
    destruct (generate_attack_pattern uuid4 stix2_check t None None st)
      as [[[ap |] | e] st1].
    + destruct (add_relationship_advances "uses" actor_id (obj_id ap) st1
                  (advances_ids _ _ _ _ Ha Hactor) (advances_last_id _ _ _ Ha))
        as (new2 & Hr).
      destruct (add_relationship uuid4 stix2_check "uses" actor_id (obj_id ap) st1)
        as [[[] | e] st2]; cbn [snd] in Hr.
      * pose proof (advances_trans _ _ _ _ _ Ha Hr) as H12.
        destruct (IH st2 (advances_ids _ _ _ _ H12 Hactor)) as (new3 & H3).
        destruct (for_each items body st2) as [[[] | e] st3]; cbn [snd] in *;
          eexists; exact (advances_trans _ _ _ _ _ H12 H3).
      * cbn [snd]. eexists. exact (advances_trans _ _ _ _ _ Ha Hr).
    + unfold ret at 1.
      destruct (IH st1 (advances_ids _ _ _ _ Ha Hactor)) as (new3 & H3).
      destruct (for_each items body st1) as [[[] | e] st3]; cbn [snd] in *;
        eexists; exact (advances_trans _ _ _ _ _ Ha H3).
    + cbn [snd]. eexists. exact Ha.
Qed.

Lemma generate_threat_actor_advances (config : dict json) (st : state) :
  match generate_threat_actor uuid4 stix2_check config st with
  | (Returns actor, st') => exists induced, advances uuid4 st st' (actor :: induced)
  | (Raises _, st') => exists new, advances uuid4 st st' new
  end.
Proof.
  unfold generate_threat_actor.
  unfold bind at 1. unfold identity_id at 1. cbv beta iota.
  unfold bind at 1. unfold stix2_new at 1.
  match goal with
  | |- context [stix2_check "threat-actor" ?kw] =>
      assert (Hcb : dict_lookup "created_by_ref" kw = Some (PStr (obj_id (identity st))))
        by (cbn [fold_left]; rewrite !dict_lookup_copy_field by reflexivity; reflexivity);
      set (kwargs := kw) in *; clearbody kwargs;
      destruct (stix2_check "threat-actor" kwargs) eqn:Hc
  end.
  - exists []. apply advances_refl.
  - unfold bind at 1. unfold objects_append at 1. cbv beta iota.
    assert (Hty : In "threat-actor" generated_types) by (simpl; tauto).
    pose proof (advances_one st "threat-actor" kwargs Hty Hcb eq_refl) as H1.
    cbn [identity objects relationships stderr uuids ticks].
    set (actor := mk_object "threat-actor" _ kwargs) in *.
    set (st1 := mk_state _ _ _ _ _ _) in *.
    unfold bind at 1.
    destruct (dict_lookup "observed_ttps" config) as [v |].
    + unfold bind at 1. unfold lift at 1.
      destruct (py_iter v) as [items | e].
      * destruct (ttp_loop_advances (obj_id actor) items st1 (advances_last_id _ _ _ H1))
          as (new & Hl).
        match goal with
        | |- context [for_each items ?b st1] =>
            destruct (for_each items b st1) as [[[] | e] st2]
        end; cbn [snd] in Hl.
        -- unfold ret. exists new. exact (advances_trans _ _ _ _ _ H1 Hl).
        -- eexists. exact (advances_trans _ _ _ _ _ H1 Hl).
      * eexists. exact H1.
    + unfold ret. exists []. exact H1.
Qed.

Lemma malware_loop_advances (campaign_id : string) (items : list json) :
  forall st,
    In campaign_id (map obj_id (objects st)) ->
    exists new,
      advances uuid4 st
        (snd (for_each items (fun malware_config =>
                malware_config <- as_config malware_config ;;
                malware <- generate_malware uuid4 stix2_check malware_config ;;
                add_relationship uuid4 stix2_check "uses" campaign_id (obj_id malware)) st))
        new.
Proof.
  set (body := fun malware_config : json => _).
  induction items as [| item items IH]; intros st Hcampaign; cbn [for_each].
  - exists []. apply advances_refl.
  - unfold bind at 1. unfold body at 1. unfold bind at 1.
    destruct item as [| b | n | m e | t | l | d];
      try (exists []; apply advances_refl).
    cbn [as_config]. unfold ret at 1. cbv beta iota. unfold bind at 1.
    pose proof (generate_malware_advances d st) as Hm.
    destruct (generate_malware uuid4 stix2_check d st) as [[mw | e] st1].
    + destruct (add_relationship_advances "uses" campaign_id (obj_id mw) st1
                  (advances_ids _ _ _ _ Hm Hcampaign) (advances_last_id _ _ _ Hm))
        as (new2 & Hr).
      destruct (add_relationship uuid4 stix2_check "uses" campaign_id (obj_id mw) st1)
        as [[[] | e] st2]; cbn [snd] in Hr.
      * pose proof (advances_trans _ _ _ _ _ Hm Hr) as H12.
        destruct (IH st2 (advances_ids _ _ _ _ H12 Hcampaign)) as (new3 & H3).
        destruct (for_each items body st2) as [[[] | e] st3]; cbn [snd] in *;
          eexists; exact (advances_trans _ _ _ _ _ H12 H3).
      * cbn [snd]. eexists. exact (advances_trans _ _ _ _ _ Hm Hr).
    + cbn [snd]. eexists. exact Hm.
Qed.

Lemma campaign_fields_creator (config : dict json) (kw : dict pyval) :
  match campaign_fields fromisoformat py_repr config
          ["description"; "aliases"; "first_seen"; "last_seen"; "objective"] kw with
  | Returns kw' => dict_lookup "created_by_ref" kw' = dict_lookup "created_by_ref" kw
  | Raises _ => True
  end.
Proof.
  pose proof (campaign_fields_outcome fromisoformat py_repr config kw) as H.
  destruct (campaign_fields fromisoformat py_repr config _ kw); [exact H | exact I].
Qed.

Lemma generate_campaign_advances (config : dict json) (st : state) :
  exists new,
    advances uuid4 st
      (snd (generate_campaign uuid4 fromisoformat stix2_check py_repr config st)) new.
Proof.
  unfold generate_campaign.
  unfold bind at 1. unfold identity_id at 1. cbv beta iota.
  unfold bind at 1. unfold lift at 1.
  match goal with
  | |- context [campaign_fields fromisoformat py_repr config ?fs ?kw] =>
      pose proof (campaign_fields_creator config kw) as Hf;
      destruct (campaign_fields fromisoformat py_repr config fs kw) as [kwargs | e]
  end; [| exists []; apply advances_refl].
  cbn [dict_lookup String.eqb Ascii.eqb Bool.eqb] in Hf.
  unfold bind at 1. unfold stix2_new at 1.
  destruct (stix2_check "campaign" kwargs) eqn:Hc; [exists []; apply advances_refl |].
  unfold bind at 1. unfold objects_append at 1. cbv beta iota.
  assert (Hty : In "campaign" generated_types) by (simpl; tauto).
  pose proof (advances_one st "campaign" kwargs Hty Hf eq_refl) as H1.
  cbn [identity objects relationships stderr uuids ticks].
  set (campaign := mk_object "campaign" _ kwargs) in *.
  set (st1 := mk_state _ _ _ _ _ _) in *.
  pose proof (advances_last_id _ _ _ H1) as Hin1.
  unfold bind at 1.
  (* the threat actor *)
  assert (Hactor : exists new,
    advances uuid4 st1
      (snd (match dict_lookup "threat_actor" config with
            | Some actor_config =>
                actor_config <- as_config actor_config ;;
                threat_actor <- generate_threat_actor uuid4 stix2_check actor_config ;;
                add_relationship uuid4 stix2_check "attributed-to" (obj_id campaign)
                  (obj_id threat_actor)
            | None => ret tt
            end st1)) new).
  { destruct (dict_lookup "threat_actor" config) as [v |];
      [| exists []; apply advances_refl].
    unfold bind at 1.
    destruct v as [| b | n | m e | t | l | actor_config];
      try (exists []; apply advances_refl).
    cbn [as_config]. unfold ret at 1. cbv beta iota. unfold bind at 1.
    pose proof (generate_threat_actor_advances actor_config st1) as Ha.
    destruct (generate_threat_actor uuid4 stix2_check actor_config st1)
      as [[actor | e] st2]; [| exact Ha].
    destruct Ha as (induced & Ha).
    assert (Hin2 : In (obj_id actor) (map obj_id (objects st2))).
    { destruct Ha as [(_ & Ho & _) _]. rewrite Ho, map_app. apply in_or_app. right.
      left. reflexivity. }
    destruct (add_relationship_advances "attributed-to" (obj_id campaign) (obj_id actor)
                st2 (advances_ids _ _ _ _ Ha Hin1) Hin2) as (new & Hr).
    eexists. exact (advances_trans _ _ _ _ _ Ha Hr). }
  destruct Hactor as (new2 & H2).
  match goal with
  | H : advances uuid4 st1 (snd (?m st1)) _ |- context [?m' st1] =>
      change (m' st1) with (m st1); destruct (m st1) as [[[] | e] st2]
  end; cbn [snd] in H2; [| eexists; exact (advances_trans _ _ _ _ _ H1 H2)].
  pose proof (advances_trans _ _ _ _ _ H1 H2) as H12.
  unfold bind at 1.
  (* the malware records *)
  assert (Hmalware : exists new,
    advances uuid4 st2
      (snd (match dict_lookup "malware" config with
            | Some malware_list =>
                items <- lift (py_iter malware_list) ;;
                for_each items (fun malware_config =>
                  malware_config <- as_config malware_config ;;
                  malware <- generate_malware uuid4 stix2_check malware_config ;;
                  add_relationship uuid4 stix2_check "uses" (obj_id campaign)
                    (obj_id malware))
            | None => ret tt
            end st2)) new).
  { destruct (dict_lookup "malware" config) as [v |];
      [| exists []; apply advances_refl].
    unfold bind at 1. unfold lift at 1.
    destruct (py_iter v) as [items | e]; [| exists []; apply advances_refl].
    apply malware_loop_advances. exact (advances_ids _ _ _ _ H2 Hin1). }
  destruct Hmalware as (new3 & H3).
  match goal with
  | H : advances uuid4 st2 (snd (?m st2)) _ |- context [?m' st2] =>
      change (m' st2) with (m st2); destruct (m st2) as [[[] | e] st3]
  end; cbn [snd] in H3; eexists; exact (advances_trans _ _ _ _ _ H12 H3).
Qed.

Lemma generate_indicator_advances (ioc : string) (o : indicator_options) (st : state) :
  match generate_indicator uuid4 clock stix2_check ioc o st with
  | (Returns (Some i), st') =>
      advances uuid4 st
        (mk_state (identity st') (objects st' ++ [i]) (relationships st') (stderr st')
                  (uuids st') (ticks st'))
        [i]
      /\ advances uuid4 st st' []
  | (_, st') => advances uuid4 st st' []
  end.
Proof.
  clear fromisoformat.
  unfold generate_indicator. destruct (detect_ioc_type ioc) as [ioc_type |].
  - unfold bind, ret, identity_id, stix2_new, datetime_now.
    destruct (opt_valid_from o), (opt_valid_until o);
      cbn [fst snd identity objects relationships stderr uuids ticks];
      match goal with
      | |- context [stix2_check "indicator" ?kw] =>
          destruct (stix2_check "indicator" kw) eqn:E
      end;
      try (apply advances_same_lists; cbn [identity objects relationships uuids];
           (reflexivity || lia));
      (split;
       [| apply advances_same_lists; cbn [identity objects relationships uuids];
          (reflexivity || lia)]);
      cbn [identity objects relationships stderr uuids ticks];
      (split;
       [unfold grows; cbn [identity objects relationships List.filter];
        rewrite app_nil_r; auto
       | eapply (wf_cons uuid4 _ _ _ _ [] (uuids st));
         [lia | simpl; tauto | reflexivity | reflexivity
          | intros Hr; discriminate Hr | constructor; cbn [uuids]; lia]]).
  - unfold bind, print_stderr, ret. apply advances_same_lists; reflexivity.
Qed.

Lemma generate_indicators_from_lines_advances (o : indicator_options) (lines : list string) :
  forall (indicators : list stix_object) (st : state),
  exists new,
    advances uuid4 st
      (snd (generate_indicators_from_lines uuid4 clock stix2_check lines o indicators st))
      new.
Proof.
  induction lines as [| line lines IH]; intros indicators st;
    cbn [generate_indicators_from_lines].
  - exists []. apply advances_refl.
  - destruct (negb (String.eqb (strip line) EmptyString)
              && negb (startswith "#" (strip line))); [| apply IH].
    unfold bind at 1.
    pose proof (generate_indicator_advances (strip line) o st) as Hi.
    destruct (generate_indicator uuid4 clock stix2_check (strip line) o st)
      as [[[i |] | e] st1].
    + destruct Hi as [H1 _]. unfold bind at 1. unfold objects_append at 1. cbv beta iota.
      destruct (IH (indicators ++ [i])
                  (mk_state (identity st1) (objects st1 ++ [i]) (relationships st1)
                            (stderr st1) (uuids st1) (ticks st1))) as (new & H2).
      eexists. exact (advances_trans _ _ _ _ _ H1 H2).
    + destruct (IH indicators st1) as (new & H2).
      eexists. exact (advances_trans _ _ _ _ _ Hi H2).
    + cbn [snd]. eexists. exact Hi.
Qed.

(** Every call appends objects that are well formed after those of the
    session. *)
Lemma run_call_advances (c : call) (st : state) :
  exists new,
    advances uuid4 st (run_call uuid4 clock fromisoformat stix2_check py_repr c st) new.
Proof.
  destruct c as [ioc o | lines o | t n d | config | config | config]; cbn [run_call].
  - pose proof (generate_indicator_advances ioc o st) as H.
    destruct (generate_indicator uuid4 clock stix2_check ioc o st) as [[[i |] | e] st'];
      exists []; cbn [snd]; tauto.
  - apply generate_indicators_from_lines_advances.
  - pose proof (generate_attack_pattern_advances t n d st) as H.
    destruct (generate_attack_pattern uuid4 stix2_check t n d st) as [[[ap |] | e] st'];
      cbn [snd]; eauto.
  - pose proof (generate_malware_advances config st) as H.
    destruct (generate_malware uuid4 stix2_check config st) as [[mw | e] st']; cbn [snd];
      eauto.
  - pose proof (generate_threat_actor_advances config st) as H.
    destruct (generate_threat_actor uuid4 stix2_check config st) as [[a | e] st'];
      cbn [snd]; [destruct H as (induced & H); eauto | exact H].
  - apply generate_campaign_advances.
Qed.

Lemma advances_session_ok (st st' : state) (new : list stix_object) :
  advances uuid4 st st' new -> session_ok uuid4 st -> session_ok uuid4 st'.
Proof.
  intros [(Hi & Ho & _) Hw] H. unfold session_ok in *. rewrite Hi, Ho.
  exact (well_formed_app _ _ _ _ _ _ _ H Hw).
Qed.

Lemma run_calls_session_ok (cs : list call) :
  forall st, session_ok uuid4 st ->
    session_ok uuid4 (run_calls uuid4 clock fromisoformat stix2_check py_repr cs st)
    /\ identity (run_calls uuid4 clock fromisoformat stix2_check py_repr cs st)
       = identity st.
Proof.
  unfold run_calls. induction cs as [| c cs IH]; intros st H; cbn [fold_left].
  - auto.
  - destruct (run_call_advances c st) as (new & Ha).
    destruct (IH _ (advances_session_ok _ _ _ Ha H)) as [H1 H2].
    split; [exact H1 |]. rewrite H2. exact (advances_identity _ _ _ Ha).
Qed.

Lemma init_session_ok (identity0 : option stix_object) (w : world) (st0 : state) :
  __init__ uuid4 stix2_check identity0 w = Returns st0 ->
  session_ok uuid4 st0 /\ objects st0 = [].
Proof.
  unfold __init__. intros H. destruct identity0 as [i |].
  - injection H as <-. split; [constructor; lia | reflexivity].
  - destruct (_create_default_identity uuid4 stix2_check w) as [[i | e] w'];
      [injection H as <- | discriminate].
    split; [constructor; lia | reflexivity].
Qed.

Lemma well_formed_objects (creator : string) (known : list string) (lo hi : nat)
    (new : list stix_object) :
  well_formed uuid4 creator known lo new hi ->
  Forall (fun o => In (obj_type o) generated_types
                   /\ kwarg "created_by_ref" o = Some (PStr creator)
                   /\ exists n, (lo <= n < hi)%nat
                                /\ obj_id o = obj_type o +:+ "--" +:+ uuid4 n) new.
Proof.
  induction 1 as [| known lo o new n hi Hle Hty Hid Hcb Hep Hw IH]; constructor.
  - pose proof (well_formed_bounds _ _ _ _ _ Hw). repeat split; auto.
    exists n. split; [lia | exact Hid].
  - eapply Forall_impl; [exact IH |]. intros x (H1 & H2 & m & Hm & H3).
    repeat split; auto. exists m. split; [lia | exact H3].
Qed.

Lemma well_formed_endpoints (creator : string) (known : list string) (lo hi : nat)
    (new : list stix_object) :
  well_formed uuid4 creator known lo new hi ->
  forall o, In o new -> endpoints_known (known ++ map obj_id new) o.
Proof.
  induction 1 as [| known lo o new n hi Hle Hty Hid Hcb Hep Hw IH]; intros x Hx.
  - destruct Hx.
  - destruct Hx as [<- | Hx].
    + apply (endpoints_known_mono known); [| exact Hep].
      intros y Hy. apply in_or_app. auto.
    + cbn [map]. specialize (IH x Hx). rewrite <- app_assoc in IH. exact IH.
Qed.

Lemma generated_id_inj (t1 t2 u1 u2 : string) :
  In t1 generated_types -> In t2 generated_types ->
  t1 +:+ "--" +:+ u1 = t2 +:+ "--" +:+ u2 -> u1 = u2.
Proof.
  unfold generated_types. intros H1 H2 E.
  destruct H1 as [<- | [<- | [<- | [<- | [<- | [<- | []]]]]]];
    destruct H2 as [<- | [<- | [<- | [<- | [<- | [<- | []]]]]]];
    cbv in E; try discriminate E; inversion E; reflexivity.
Qed.

Lemma well_formed_NoDup (creator : string) (known : list string) (lo hi : nat)
    (new : list stix_object) :
  (forall a b, uuid4 a = uuid4 b -> a = b) ->
  well_formed uuid4 creator known lo new hi -> List.NoDup (map obj_id new).
Proof.
  intros Hinj. induction 1 as [| known lo o new n hi Hle Hty Hid Hcb Hep Hw IH]; cbn [map].
  - apply List.NoDup_nil.
  - apply List.NoDup_cons; [| exact IH]. intros Hin.
    apply List.in_map_iff in Hin as (x & Hx & Hin).
    pose proof (well_formed_objects _ _ _ _ _ Hw) as Hall.
    rewrite List.Forall_forall in Hall. destruct (Hall x Hin) as (Htx & _ & m & Hm & Hidx).
    rewrite Hid, Hidx in Hx. apply generated_id_inj in Hx; auto.
    apply Hinj in Hx. lia.
Qed.

(** X6. After any sequence of generator calls in a session every object
    of the object list is an indicator, attack pattern, malware, threat actor,
    campaign or relationship, has an identifier made of its type and a uuid,
    and names the identity of the session, which never changes, as its
    creator. The identity itself is never put on the object list. *)
Theorem objects_provenance (identity0 : option stix_object) (w : world) (st0 : state)
    (cs : list call) :
  __init__ uuid4 stix2_check identity0 w = Returns st0 ->
  let st := run_calls uuid4 clock fromisoformat stix2_check py_repr cs st0 in
  identity st = identity st0
  /\ forall o, In o (objects st) ->
       In (obj_type o) generated_types
       /\ obj_type o <> "identity"
       /\ kwarg "created_by_ref" o = Some (PStr (obj_id (identity st0)))
       /\ exists n, obj_id o = obj_type o +:+ "--" +:+ uuid4 n.
Proof.
  intros Hinit. cbv zeta. destruct (init_session_ok _ _ _ Hinit) as [H0 _].
  destruct (run_calls_session_ok cs st0 H0) as [Hok Hid]. split; [exact Hid |].
  unfold session_ok in Hok. rewrite Hid in Hok.
  pose proof (well_formed_objects _ _ _ _ _ Hok) as Hall.
  rewrite List.Forall_forall in Hall. intros o Hin.
  destruct (Hall o Hin) as (Hty & Hcb & n & _ & Hn). repeat split; eauto.
  intros E. rewrite E in Hty. simpl in Hty.
  repeat (destruct Hty as [Hty | Hty]; [discriminate Hty |]). exact Hty.
Qed.

(** X7. After any sequence of generator calls in a session, whether they
    returned or raised, the source and the target of every relationship of
    the object list are identifiers of objects of the same list: a bundle of
    the session has no relationship with a missing endpoint. *)
Theorem relationships_resolve (identity0 : option stix_object) (w : world) (st0 : state)
    (cs : list call) :
  __init__ uuid4 stix2_check identity0 w = Returns st0 ->
  let st := run_calls uuid4 clock fromisoformat stix2_check py_repr cs st0 in
  forall r, In r (objects st) -> is_relationship_object r = true ->
    exists src tgt,
      kwarg "source_ref" r = Some (PStr src) /\ kwarg "target_ref" r = Some (PStr tgt)
      /\ In src (map obj_id (objects st)) /\ In tgt (map obj_id (objects st)).
Proof.
  intros Hinit. cbv zeta. destruct (init_session_ok _ _ _ Hinit) as [H0 _].
  destruct (run_calls_session_ok cs st0 H0) as [Hok _].
  intros r Hin Hr. exact (well_formed_endpoints _ _ _ _ _ Hok r Hin Hr).
Qed.

(** X8. When [uuid4] never hands out the same value twice, after any
    sequence of generator calls in a session no two objects of the object
    list have the same identifier. *)
Theorem object_ids_distinct (identity0 : option stix_object) (w : world) (st0 : state)
    (cs : list call) :
  (forall a b, uuid4 a = uuid4 b -> a = b) ->
  __init__ uuid4 stix2_check identity0 w = Returns st0 ->
  List.NoDup (map obj_id
           (objects (run_calls uuid4 clock fromisoformat stix2_check py_repr cs st0))).
Proof.
  intros Hinj Hinit. destruct (init_session_ok _ _ _ Hinit) as [H0 _].
  destruct (run_calls_session_ok cs st0 H0) as [Hok _].
  exact (well_formed_NoDup _ _ _ _ _ Hinj Hok).
Qed.

(** ** Indicators in detail *)





(** X10. An indicator never has an empty label list or an empty
    description: labels that are missing or empty are replaced by
    "malicious-activity", a description that is missing or empty by the text
    made of the class and the IOC, and labels and a description that are
    given are kept. *)
Theorem generate_indicator_defaults (ioc : string) (o : indicator_options) (st : state)
    (i : stix_object) (st' : state) :
  generate_indicator uuid4 clock stix2_check ioc o st = (Returns (Some i), st') ->
  exists ioc_type labels description,
    detect_ioc_type ioc = Some ioc_type
    /\ kwarg "labels" i = Some (PJson (JArr (map JStr labels)))
    /\ kwarg "description" i = Some (PStr description)
    /\ kwarg "name" i = Some (PStr (upper ioc_type +:+ ": " +:+ ioc))
    /\ labels <> [] /\ description <> EmptyString
    /\ (forall l ls, opt_labels o = Some (l :: ls) -> labels = l :: ls)
    /\ (opt_labels o = None \/ opt_labels o = Some [] -> labels = ["malicious-activity"])
    /\ (forall d, opt_description o = Some d -> d <> EmptyString -> description = d)
    /\ (opt_description o = None \/ opt_description o = Some EmptyString ->
        description = "Indicator for " +:+ ioc_type +:+ " " +:+ ioc).
Proof.
  unfold generate_indicator. destruct (detect_ioc_type ioc) as [ioc_type |];
    [| unfold bind, print_stderr, ret; discriminate].
  unfold bind, ret, identity_id, stix2_new, datetime_now, kwarg. intros H.
  exists ioc_type,
    (match opt_labels o with Some (l :: ls) => l :: ls | _ => ["malicious-activity"] end),
    (match opt_description o with
     | Some d => if String.eqb d EmptyString
                 then "Indicator for " +:+ ioc_type +:+ " " +:+ ioc else d
     | None => "Indicator for " +:+ ioc_type +:+ " " +:+ ioc
     end).
  split; [reflexivity |].
  assert (Hkw : exists kw, obj_kwargs i = kw /\
      dict_lookup "labels" kw = Some (PJson (JArr (map JStr
        (match opt_labels o with Some (l :: ls) => l :: ls | _ => ["malicious-activity"] end))))
      /\ dict_lookup "description" kw = Some (PStr
        (match opt_description o with
         | Some d => if String.eqb d EmptyString
                     then "Indicator for " +:+ ioc_type +:+ " " +:+ ioc else d
         | None => "Indicator for " +:+ ioc_type +:+ " " +:+ ioc
         end))
      /\ dict_lookup "name" kw = Some (PStr (upper ioc_type +:+ ": " +:+ ioc))).
  { destruct (opt_valid_from o), (opt_valid_until o); cbn [fst snd uuids] in H;
      match type of H with
      | context [stix2_check "indicator" ?kw] =>
          destruct (stix2_check "indicator" kw); [discriminate H |]
      end;
      injection H as <- _; eexists; (split; [reflexivity |]); repeat split; reflexivity. }
  destruct Hkw as (kw & -> & Hl & Hdsc & Hn).
  split; [exact Hl |]. split; [exact Hdsc |]. split; [exact Hn |].
  split; [destruct (opt_labels o) as [[| l ls] |]; discriminate |].
  split.
  { destruct (opt_description o) as [d |]; [| discriminate].
    destruct (String.eqb d EmptyString) eqn:E; [discriminate |].
    apply String.eqb_neq in E. exact E. }
  split; [intros l ls ->; reflexivity |].
  split; [intros [-> | ->]; reflexivity |].
  split.
  { intros d -> Hd. apply String.eqb_neq in Hd. rewrite Hd. reflexivity. }
  intros [-> | ->]; reflexivity.
Qed.

(** ** Validity of a bundle, for any document *)

Lemma check_object_extends (errors : list string) (obj : json) (errors' : list string) :
  check_object py_repr errors obj = Returns errors' ->
  exists extra, errors' = errors ++ extra /\ (extra = [] <-> has_type_and_id obj = true).
Proof.
  clear stix2_check fromisoformat.
  unfold check_object, has_type_and_id.
  destruct (py_in "type" obj) as [[|] | e1]; cbn [obind negb]; [| | discriminate].
  - destruct (py_in "id" obj) as [[|] | e2]; cbn [obind negb]; [| | discriminate].
    + intros [= <-]. exists []. rewrite app_nil_r. split; [reflexivity | tauto].
    + destruct (py_get obj "type" (JStr "unknown")) as [t |]; cbn [obind]; [| discriminate].
      intros [= <-]. eexists. split; [reflexivity |]. split; discriminate.
  - destruct (py_get obj "id" (JStr "unknown")) as [i |]; cbn [obind]; [| discriminate].
    destruct (py_in "id" obj) as [[|] | e2]; cbn [obind negb]; [| | discriminate].
    + intros [= <-]. eexists. split; [reflexivity |]. split; discriminate.
    + destruct (py_get obj "type" (JStr "unknown")) as [t |]; cbn [obind]; [| discriminate].
      intros [= <-]. eexists. rewrite <- app_assoc. split; [reflexivity |].
      split; discriminate.
Qed.

Lemma check_object_passes (errors : list string) (obj : json) :
  has_type_and_id obj = true -> check_object py_repr errors obj = Returns errors.
Proof.
  unfold check_object, has_type_and_id.
  destruct (py_in "type" obj) as [[|] | e1]; try discriminate.
  destruct (py_in "id" obj) as [[|] | e2]; try discriminate. reflexivity.
Qed.

Lemma check_objects_extends (objs : list json) :
  forall errors errors',
    check_objects py_repr errors objs = Returns errors' ->
    exists extra,
      errors' = errors ++ extra
      /\ (extra = [] <-> forallb has_type_and_id objs = true).
Proof.
  induction objs as [| obj objs IH]; intros errors errors'; cbn [check_objects forallb].
  - intros [= <-]. exists []. rewrite app_nil_r. split; [reflexivity | tauto].
  - destruct (check_object py_repr errors obj) as [errors1 |] eqn:E1; cbn [obind];
      [| discriminate].
    intros E2. apply check_object_extends in E1 as (x1 & -> & H1).
    apply IH in E2 as (x2 & -> & H2). exists (x1 ++ x2).
    rewrite <- app_assoc. split; [reflexivity |].
    rewrite andb_true_iff, <- H1, <- H2. split.
    + intros H. apply app_eq_nil in H. exact H.
    + intros [-> ->]. reflexivity.
Qed.

Lemma check_objects_pass (objs : list json) (errors : list string) :
  forallb has_type_and_id objs = true ->
  check_objects py_repr errors objs = Returns errors.
Proof.
  induction objs as [| obj objs IH]; cbn [check_objects forallb]; [reflexivity |].
  intros H. apply andb_true_iff in H as [H1 H2].
  rewrite (check_object_passes errors obj H1). cbn [obind]. apply IH, H2.
Qed.

(** X11. A bundle whose document is a JSON object is reported valid
    exactly when the type tag is the string "bundle", the value under
    "objects" is true as a condition and can be iterated over, and for every
    item of the iteration both ["type" in item] and ["id" in item] hold. The
    items are not asked to be objects: a string or a list that contains
    "type" and "id" passes. *)
Theorem validate_bundle_valid_exactly (b : Bundle) (doc : dict json) :
  loads_serialize b = Returns (JObj doc) ->
  (fst (validate_bundle py_repr b) = true
   <-> dict_lookup "type" doc = Some (JStr "bundle")
       /\ exists objs items,
            dict_lookup "objects" doc = Some objs
            /\ truthy objs = true
            /\ py_iter objs = Returns items
            /\ forallb has_type_and_id items = true).
Proof.
  intros Hload. unfold validate_bundle. rewrite Hload. cbn [obind].
  unfold check_bundle. cbn [py_in py_getitem py_get obind].
  unfold dict_has, dict_get, differs_from. split.
  - destruct (dict_lookup "type" doc) as [t |]; cbn [negb obind].
    + destruct (dict_lookup "objects" doc) as [objs |]; cbn [negb obind].
      * destruct (py_iter objs) as [items |] eqn:Ei; cbn [obind fst]; [| discriminate].
        destruct (check_objects py_repr _ items) as [errors |] eqn:E; cbn [obind fst];
          [| discriminate].
        apply check_objects_extends in E as (extra & -> & Hx).
        intros H. apply Nat.eqb_eq in H. rewrite length_app in H.
        assert (H1 : length extra = 0) by lia.
        apply length_zero_iff_nil in H1.
        destruct (truthy objs) eqn:Ht; cbn [negb] in H;
          [| rewrite length_app in H; cbn [length] in H; lia].
        destruct (is_JStr "bundle" t) eqn:Es; cbn [negb app length] in H; [| lia].
        destruct t as [| | | | s | |]; try discriminate Es.
        cbn [is_JStr] in Es. apply String.eqb_eq in Es. subst s.
        split; [reflexivity |]. exists objs, items.
        split; [reflexivity |]. split; [exact Ht |]. split; [exact Ei |].
        apply Hx, H1.
      * cbn [py_iter obind check_objects fst].
        destruct (negb (is_JStr "bundle" t)); discriminate.
    + destruct (dict_lookup "objects" doc) as [objs |]; cbn [negb obind].
      * destruct (py_iter objs) as [items |]; cbn [obind fst]; [| discriminate].
        destruct (check_objects py_repr _ items) as [errors |] eqn:E; cbn [obind fst];
          [| discriminate].
        apply check_objects_extends in E as (extra & -> & Hx).
        intros H. apply Nat.eqb_eq in H. rewrite length_app in H.
        destruct (negb (truthy objs)); cbn [length app] in H; lia.
      * cbn [py_iter obind check_objects fst]. discriminate.
  - intros (-> & objs & items & -> & Ht & -> & Hall).
    cbn [negb obind is_JStr String.eqb Ascii.eqb Bool.eqb]. rewrite Ht.
    cbn [negb app]. rewrite (check_objects_pass items [] Hall). reflexivity.
Qed.

(** X12. A bundle whose document is not a JSON object is never valid: the
    checks raise a TypeError or an AttributeError on it, and the report holds
    exactly one message, the text of that exception. The validator's own
    messages are not in the report. *)
Theorem validate_bundle_not_an_object (b : Bundle) (d : json) :
  loads_serialize b = Returns d ->
  is_JObj d = false ->
  exists e,
    check_bundle py_repr d = Raises e
    /\ validate_bundle py_repr b = (false, [exn_message e])
    /\ (exn_class e = "TypeError" \/ exn_class e = "AttributeError")
    /\ exn_message e <> "Invalid bundle type"
    /\ exn_message e <> "Bundle has no objects".
Proof.
  intros Hload Hd.
  assert (H : exists e,
             check_bundle py_repr d = Raises e
             /\ (exn_class e = "TypeError" \/ exn_class e = "AttributeError")
             /\ exn_message e <> "Invalid bundle type"
             /\ exn_message e <> "Bundle has no objects").
  { unfold check_bundle.
    destruct d as [| x | n | m x | s | l | f]; try discriminate Hd;
      cbn [py_in py_getitem py_get obind type_name];
      try (eexists; split; [reflexivity |]; split; [left; reflexivity |];
           split; discriminate).
    - destruct (substring_of "type" s); cbn [negb obind py_getitem].
      + eexists; split; [reflexivity |]; split; [left; reflexivity |]; split; discriminate.
      + destruct (substring_of "objects" s); cbn [negb obind py_getitem py_get].
        * eexists; split; [reflexivity |]; split; [left; reflexivity |]; split; discriminate.
        * eexists; split; [reflexivity |]; split; [right; reflexivity |]; split; discriminate.
    - destruct (existsb (is_JStr "type") l); cbn [negb obind py_getitem].
      + eexists; split; [reflexivity |]; split; [left; reflexivity |]; split; discriminate.
      + destruct (existsb (is_JStr "objects") l); cbn [negb obind py_getitem py_get].
        * eexists; split; [reflexivity |]; split; [left; reflexivity |]; split; discriminate.
        * eexists; split; [reflexivity |]; split; [right; reflexivity |]; split; discriminate. }
  destruct H as (e & Hc & Hcls & Hm1 & Hm2). exists e.
  split; [exact Hc |]. split; [| auto].
  unfold validate_bundle. rewrite Hload. cbn [obind]. rewrite Hc. reflexivity.
Qed.

(** ** The techniques of a threat actor *)

Lemma single_character_no_technique (c : ascii) :
  re_match TECHNIQUE_PATTERN (String c EmptyString) = false.
Proof.
  destruct c as [[|] [|] [|] [|] [|] [|] [|] [|]]; vm_compute; reflexivity.
Qed.

Lemma strings_of_characters (cs : list ascii) :
  strings_of (map (fun c => JStr (String c EmptyString)) cs)
  = Some (map (fun c => String c EmptyString) cs).
Proof.
  induction cs as [| c cs IH]; cbn [map strings_of]; [reflexivity |].
  rewrite IH. reflexivity.
Qed.

Lemma filter_characters_no_technique (cs : list ascii) :
  List.filter (re_match TECHNIQUE_PATTERN) (map (fun c => String c EmptyString) cs) = [].
Proof.
  induction cs as [| c cs IH]; cbn [map List.filter]; [reflexivity |].
  rewrite single_character_no_technique. exact IH.
Qed.

Lemma ttp_trace_objects (actor_id creator : string) (ttps : list string)
    (new : list stix_object) :
  ttp_trace actor_id creator ttps new ->
  map external_id_of
      (List.filter (fun o => String.eqb (obj_type o) "attack-pattern") new)
  = map Some (List.filter (re_match TECHNIQUE_PATTERN) ttps)
  /\ length new = 2 * length (List.filter (re_match TECHNIQUE_PATTERN) ttps)
  /\ length (List.filter is_relationship_object new)
     = length (List.filter (re_match TECHNIQUE_PATTERN) ttps).
Proof.
  induction 1 as [| t ttps new Hm _ IH | t ttps ap rel new Hm Hty Hid Hrel _ (IH1 & IH2 & IH3)].
  - repeat split.
  - cbn [List.filter]. rewrite Hm. exact IH.
  - cbn [List.filter]. rewrite Hm.
    pose proof Hrel as (Hrt & _).
    rewrite (not_relationship_object ap _ Hty eq_refl).
    rewrite (relationship_is_object _ _ _ _ _ Hrel).
    rewrite Hty, Hrt. cbn [String.eqb Ascii.eqb Bool.eqb map length].
    split; [| split].
    + rewrite Hid, IH1. reflexivity.
    + rewrite IH2. lia.
    + rewrite IH3. reflexivity.
Qed.

(** X17. When [generate_threat_actor] returns, it has appended the actor
    and then, for each observed technique identifier that matches the
    pattern and in their order, an attack pattern with this identifier
    followed by one relationship: two objects and one relationship per
    matching identifier, none for the others. When "observed_ttps" is a
    string and not a list, the loop runs over its characters, none of which
    matches, so that no attack pattern is generated. *)
Theorem generate_threat_actor_techniques (config : dict json) (st : state)
    (actor : stix_object) (st' : state) :
  generate_threat_actor uuid4 stix2_check config st = (Returns actor, st') ->
  exists ttps new,
    observed_ttps config = Some ttps
    /\ objects st' = objects st ++ actor :: new
    /\ map external_id_of
           (List.filter (fun o => String.eqb (obj_type o) "attack-pattern") new)
       = map Some (List.filter (re_match TECHNIQUE_PATTERN) ttps)
    /\ length new = 2 * length (List.filter (re_match TECHNIQUE_PATTERN) ttps)
    /\ length (relationships st')
       = length (relationships st) + length (List.filter (re_match TECHNIQUE_PATTERN) ttps)
    /\ (forall s, dict_lookup "observed_ttps" config = Some (JStr s) -> new = []).
Proof.
  intros E. pose proof (generate_threat_actor_effect uuid4 stix2_check config st) as H.
  rewrite E in H.
  destruct H as (Hty & _ & _ & ttps & new & Hobs & Htrace & (_ & Ho & Hr)).
  apply ttp_trace_objects in Htrace as (H1 & H2 & H3).
  exists ttps, new. split; [exact Hobs |]. split; [exact Ho |].
  split; [exact H1 |]. split; [exact H2 |]. split.
  - rewrite Hr, length_app. cbn [List.filter].
    rewrite (not_relationship_object actor _ Hty eq_refl), H3. reflexivity.
  - intros s Hs. unfold observed_ttps in Hobs. rewrite Hs in Hobs. cbn [py_iter] in Hobs.
    rewrite strings_of_characters in Hobs. injection Hobs as <-.
    rewrite filter_characters_no_technique in H2. cbn [length] in H2.
    destruct new; [reflexivity | discriminate H2].
Qed.

(** ** The fields of a malware object *)

(** X18. When [generate_malware] returns, the keyword arguments it has
    handed to the library's [Malware] constructor are among the eight the
    function knows: any other key of the configuration is dropped before
    the call. The argument "created_by_ref" is the id of the identity of the
    session, whatever the configuration says under that key; the arguments
    for name, types and family flag are the values of the configuration or
    the defaults; each of the four optional arguments is passed exactly when
    the configuration has the key, with the value of the configuration. What
    the constructor makes of its arguments is the library's matter. *)
Theorem generate_malware_fields (config : dict json) (st : state)
    (malware : stix_object) (st' : state) :
  generate_malware uuid4 stix2_check config st = (Returns malware, st') ->
  Forall (fun k => In k malware_fields) (map fst (obj_kwargs malware))
  /\ kwarg "created_by_ref" malware = Some (PStr (obj_id (identity st)))
  /\ kwarg "name" malware = Some (PJson (dict_get "name" config (JStr "Unknown Malware")))
  /\ kwarg "malware_types" malware
     = Some (PJson (dict_get "malware_types" config (JArr [JStr "unknown"])))
  /\ kwarg "is_family" malware = Some (PJson (dict_get "is_family" config (JBool true)))
  /\ Forall (fun field => kwarg field malware = option_map PJson (dict_lookup field config))
            ["description"; "capabilities"; "kill_chain_phases"; "aliases"].
Proof.
  clear py_repr fromisoformat.
  unfold generate_malware, bind, identity_id, stix2_new, objects_append, ret, copy_field, kwarg.
  destruct (dict_lookup "description" config) as [v1 |] eqn:E1,
           (dict_lookup "capabilities" config) as [v2 |] eqn:E2,
           (dict_lookup "kill_chain_phases" config) as [v3 |] eqn:E3,
           (dict_lookup "aliases" config) as [v4 |] eqn:E4;
    cbn [dict_set String.eqb Ascii.eqb Bool.eqb];
    match goal with
    | |- context [stix2_check "malware" ?kw] => destruct (stix2_check "malware" kw)
    end;
    intros E; try discriminate E; injection E as <- _; cbn [obj_kwargs map fst].
  all: split; [apply List.Forall_forall; intros k Hk; vm_compute in Hk |- *; tauto |].
  all: do 4 (split; [reflexivity |]).
  all: repeat (apply List.Forall_cons; [rewrite ?E1, ?E2, ?E3, ?E4; reflexivity |]);
    apply List.Forall_nil.
Qed.

(** ** Nothing the library builds is lost *)

Lemma balanced_refl (st : state) : balanced st st.
Proof. unfold balanced. lia. Qed.

Lemma balanced_trans (st1 st2 st3 : state) :
  balanced st1 st2 -> balanced st2 st3 -> balanced st1 st3.
Proof. unfold balanced. lia. Qed.

Lemma keeps_ret {A : Type} (a : A) : keeps_balance (ret a).
Proof. intros st. apply balanced_refl. Qed.

Lemma keeps_raise {A : Type} (e : exn) : keeps_balance (@raise A e).
Proof. intros st. apply balanced_refl. Qed.

Lemma keeps_lift {A : Type} (o : outcome A) : keeps_balance (lift o).
Proof. intros st. apply balanced_refl. Qed.

Lemma keeps_identity_id : keeps_balance identity_id.
Proof. intros st. apply balanced_refl. Qed.

Lemma keeps_print_stderr (msg : string) : keeps_balance (print_stderr msg).
Proof. intros st. unfold balanced. reflexivity. Qed.

Lemma keeps_bind {A B : Type} (m : M A) (k : A -> M B) :
  keeps_balance m -> (forall a, keeps_balance (k a)) -> keeps_balance (bind m k).
Proof.
  intros Hm Hk st. unfold bind. specialize (Hm st).
  destruct (m st) as [[a | e] st1]; cbn [snd] in *; [| exact Hm].
  exact (balanced_trans _ _ _ Hm (Hk a st1)).
Qed.

(** An object built by the library and appended to the object list. *)
Lemma keeps_new_append {B : Type} (type : string) (kwargs : dict pyval)
    (k : stix_object -> M B) :
  (forall o, keeps_balance (k o)) ->
  keeps_balance (bind (stix2_new uuid4 stix2_check type kwargs)
                      (fun o => bind (objects_append o) (fun _ => k o))).
Proof.
  intros Hk st. unfold bind at 1. unfold stix2_new.
  destruct (stix2_check type kwargs); [apply balanced_refl |].
  unfold bind, objects_append. cbn [identity objects relationships stderr uuids ticks].
  match goal with |- balanced st (snd (k ?o ?s)) => pose proof (Hk o s) as H end.
  unfold balanced in *. cbn [uuids objects] in H. rewrite length_app in H.
  cbn [length] in H. lia.
Qed.

Lemma keeps_for_each {A : Type} (xs : list A) (body : A -> M unit) :
  (forall x, keeps_balance (body x)) -> keeps_balance (for_each xs body).
Proof.
  intros Hb. induction xs as [| x xs IH]; cbn [for_each].
  - apply keeps_ret.
  - apply keeps_bind; [apply Hb | intros _; exact IH].
Qed.

Lemma keeps_add_relationship (rtype src tgt : string) :
  keeps_balance (add_relationship uuid4 stix2_check rtype src tgt).
Proof.
  intros st.
  unfold add_relationship, bind, identity_id, stix2_new, relationships_append,
    objects_append.
  match goal with
  | |- context [stix2_check "relationship" ?kw] => destruct (stix2_check "relationship" kw)
  end; unfold balanced; cbn [snd uuids objects]; rewrite ?length_app; cbn [length]; lia.
Qed.

Lemma keeps_generate_attack_pattern (technique_id : string)
    (name description : option string) :
  keeps_balance (generate_attack_pattern uuid4 stix2_check technique_id name description).
Proof.
  unfold generate_attack_pattern.
  destruct (negb (re_match TECHNIQUE_PATTERN technique_id)).
  - apply keeps_bind; [apply keeps_print_stderr | intros _; apply keeps_ret].
  - apply keeps_bind; [apply keeps_identity_id | intros created_by].
    apply keeps_new_append. intros o. apply keeps_ret.
Qed.

Lemma keeps_generate_attack_pattern_of (ttp : json) :
  keeps_balance (generate_attack_pattern_of uuid4 stix2_check ttp).
Proof.
  destruct ttp; cbn [generate_attack_pattern_of];
    try apply keeps_raise. apply keeps_generate_attack_pattern.
Qed.

Lemma keeps_generate_malware (config : dict json) :
  keeps_balance (generate_malware uuid4 stix2_check config).
Proof.
  unfold generate_malware.
  apply keeps_bind; [apply keeps_identity_id | intros created_by]. cbv zeta.
  apply keeps_new_append. intros o. apply keeps_ret.
Qed.

Lemma keeps_as_config (v : json) : keeps_balance (as_config v).
Proof. destruct v; cbn [as_config]; try apply keeps_raise. apply keeps_ret. Qed.

Lemma keeps_generate_threat_actor (config : dict json) :
  keeps_balance (generate_threat_actor uuid4 stix2_check config).
Proof.
  unfold generate_threat_actor.
  apply keeps_bind; [apply keeps_identity_id | intros created_by]. cbv zeta.
  apply keeps_new_append. intros threat_actor.
  apply keeps_bind; [| intros _; apply keeps_ret].
  destruct (dict_lookup "observed_ttps" config) as [ttps |]; [| apply keeps_ret].
  apply keeps_bind; [apply keeps_lift | intros items].
  apply keeps_for_each. intros ttp.
  apply keeps_bind; [apply keeps_generate_attack_pattern_of | intros [ap |]].
  - apply keeps_add_relationship.
  - apply keeps_ret.
Qed.

Lemma keeps_generate_campaign (config : dict json) :
  keeps_balance (generate_campaign uuid4 fromisoformat stix2_check py_repr config).
Proof.
  unfold generate_campaign.
  apply keeps_bind; [apply keeps_identity_id | intros created_by]. cbv zeta.
  apply keeps_bind; [apply keeps_lift | intros kwargs].
  apply keeps_new_append. intros campaign.
  apply keeps_bind; [| intros _; apply keeps_bind; [| intros _; apply keeps_ret]].
  - destruct (dict_lookup "threat_actor" config) as [actor_config |]; [| apply keeps_ret].
    apply keeps_bind; [apply keeps_as_config | intros actor].
    apply keeps_bind; [apply keeps_generate_threat_actor | intros threat_actor].
    apply keeps_add_relationship.
  - destruct (dict_lookup "malware" config) as [malware_list |]; [| apply keeps_ret].
    apply keeps_bind; [apply keeps_lift | intros items].
    apply keeps_for_each. intros malware_config.
    apply keeps_bind; [apply keeps_as_config | intros mc].
    apply keeps_bind; [apply keeps_generate_malware | intros malware].
    apply keeps_add_relationship.
Qed.

(** A direct call of [generate_indicator] draws one identifier when it
    returns an indicator, and none otherwise; it records nothing. *)
Lemma generate_indicator_draws (ioc : string) (o : indicator_options) (st : state) :
  match generate_indicator uuid4 clock stix2_check ioc o st with
  | (Returns (Some i), st') =>
      uuids st' = S (uuids st) /\ objects st' = objects st
      /\ obj_type i = "indicator"
      /\ obj_id i = obj_type i +:+ "--" +:+ uuid4 (uuids st)
  | (_, st') => uuids st' = uuids st /\ objects st' = objects st
  end.
Proof.
  unfold generate_indicator.
  destruct (detect_ioc_type ioc) as [ioc_type |]; [| split; reflexivity].
  unfold bind, ret, identity_id, stix2_new, datetime_now.
  destruct (opt_valid_from o), (opt_valid_until o); cbn [fst snd uuids];
    match goal with
    | |- context [stix2_check "indicator" ?kw] => destruct (stix2_check "indicator" kw)
    end; repeat split; reflexivity.
Qed.

Lemma keeps_generate_indicators_from_lines (o : indicator_options) (lines : list string) :
  forall indicators,
    keeps_balance (generate_indicators_from_lines uuid4 clock stix2_check lines o indicators).
Proof.
  induction lines as [| line lines IH]; intros indicators st;
    cbn [generate_indicators_from_lines].
  - apply balanced_refl.
  - destruct (negb (String.eqb (strip line) EmptyString)
              && negb (startswith "#" (strip line))); [| apply IH].
    unfold bind at 1.
    pose proof (generate_indicator_draws (strip line) o st) as H.
    destruct (generate_indicator uuid4 clock stix2_check (strip line) o st)
      as [[[i |] | e] st1]; cbn [snd].
    + destruct H as (Hu & Ho & _). unfold bind at 1. unfold objects_append at 1.
      cbv beta iota.
      match goal with
      | |- balanced st (snd (generate_indicators_from_lines _ _ _ lines o ?acc ?s)) =>
          pose proof (IH acc s) as H
      end.
      apply (f_equal (@length stix_object)) in Ho.
      unfold balanced in *. cbn [uuids objects] in H. rewrite length_app in H.
      cbn [length] in H. lia.
    + destruct H as (Hu & Ho). pose proof (IH indicators st1) as H.
      apply (f_equal (@length stix_object)) in Ho.
      unfold balanced in *. lia.
    + destruct H as (Hu & Ho). unfold balanced. rewrite Hu, Ho. reflexivity.
Qed.

Lemma well_formed_length (creator : string) (known : list string) (lo hi : nat)
    (new : list stix_object) :
  well_formed uuid4 creator known lo new hi -> (lo + length new <= hi)%nat.
Proof. induction 1; cbn [length] in *; lia. Qed.

(** Objects that are as many as the identifiers drawn carry each of them. *)
Lemma well_formed_covers (creator : string) (known : list string) (lo hi : nat)
    (new : list stix_object) :
  well_formed uuid4 creator known lo new hi ->
  hi = (lo + length new)%nat ->
  forall n, (lo <= n < hi)%nat ->
    exists o, In o new /\ obj_id o = obj_type o +:+ "--" +:+ uuid4 n.
Proof.
  induction 1 as [known lo hi Hle | known lo o new n0 hi Hle Hty Hid Hcb Hep Hw IH];
    intros Hhi n Hn; cbn [length] in *.
  - lia.
  - pose proof (well_formed_length _ _ _ _ _ Hw) as Hlen.
    assert (n0 = lo) by lia. subst n0.
    destruct (Nat.eq_dec n lo) as [-> | Hne].
    + exists o. split; [left; reflexivity | exact Hid].
    + destruct (IH ltac:(lia) n ltac:(lia)) as (o' & Hin & Hid').
      exists o'. split; [right; exact Hin | exact Hid'].
Qed.

(** Every identifier a call draws is the identifier of an object of the
    object list, or of the indicator that a direct call of
    [generate_indicator] returned. *)
Lemma run_call_built (c : call) (st : state) (n : nat) :
  (uuids st <= n < uuids (run_call uuid4 clock fromisoformat stix2_check py_repr c st))%nat ->
  exists o,
    obj_id o = obj_type o +:+ "--" +:+ uuid4 n
    /\ (In o (objects (run_call uuid4 clock fromisoformat stix2_check py_repr c st))
        \/ (In o (handed_back uuid4 clock fromisoformat stix2_check py_repr [c] st)
            /\ obj_type o = "indicator")).
Proof.
  intros Hn.
  assert (Hrec : balanced st (run_call uuid4 clock fromisoformat stix2_check py_repr c st) ->
                 exists o,
                   obj_id o = obj_type o +:+ "--" +:+ uuid4 n
                   /\ In o (objects (run_call uuid4 clock fromisoformat stix2_check
                                              py_repr c st))).
  { intros Hb. destruct (run_call_advances c st) as (new & (_ & Ho & _) & Hw).
    unfold balanced in Hb. rewrite Ho, length_app in Hb.
    destruct (well_formed_covers _ _ _ _ _ Hw ltac:(lia) n Hn) as (o & Hin & Hid).
    exists o. split; [exact Hid |]. rewrite Ho. apply in_or_app. right. exact Hin. }
  destruct c as [ioc o | lines o | t nm d | config | config | config].
  - cbn [run_call handed_back] in *.
    pose proof (generate_indicator_draws ioc o st) as H.
    destruct (generate_indicator uuid4 clock stix2_check ioc o st) as [[[i |] | e] st1];
      cbn [fst snd] in *.
    + destruct H as (Hu & _ & Hty & Hid). assert (n = uuids st) by lia. subst n.
      exists i. split; [exact Hid |]. right. split; [left; reflexivity | exact Hty].
    + destruct H as (Hu & _). lia.
    + destruct H as (Hu & _). lia.
  - destruct Hrec as (x & Hid & Hin);
      [apply keeps_generate_indicators_from_lines | eauto].
  - destruct Hrec as (x & Hid & Hin); [apply keeps_generate_attack_pattern | eauto].
  - destruct Hrec as (x & Hid & Hin); [apply keeps_generate_malware | eauto].
  - destruct Hrec as (x & Hid & Hin); [apply keeps_generate_threat_actor | eauto].
  - destruct Hrec as (x & Hid & Hin); [apply keeps_generate_campaign | eauto].
Qed.

Lemma run_calls_grows (cs : list call) :
  forall st, exists new,
    grows st (run_calls uuid4 clock fromisoformat stix2_check py_repr cs st) new.
Proof.
  unfold run_calls. induction cs as [| c cs IH]; intros st; cbn [fold_left].
  - exists []. apply grows_refl.
  - destruct (run_call_grows uuid4 clock fromisoformat stix2_check py_repr c st)
      as (new1 & H1).
    destruct (IH (run_call uuid4 clock fromisoformat stix2_check py_repr c st))
      as (new2 & H2).
    exists (new1 ++ new2). exact (grows_trans _ _ _ _ _ H1 H2).
Qed.

Lemma run_calls_app (cs cs' : list call) (st : state) :
  run_calls uuid4 clock fromisoformat stix2_check py_repr (cs ++ cs') st
  = run_calls uuid4 clock fromisoformat stix2_check py_repr cs'
      (run_calls uuid4 clock fromisoformat stix2_check py_repr cs st).
Proof. unfold run_calls. apply fold_left_app. Qed.

Lemma run_calls_built (cs : list call) :
  forall st n,
    (uuids st <= n < uuids (run_calls uuid4 clock fromisoformat stix2_check py_repr cs st))%nat ->
    exists o,
      obj_id o = obj_type o +:+ "--" +:+ uuid4 n
      /\ (In o (objects (run_calls uuid4 clock fromisoformat stix2_check py_repr cs st))
          \/ (In o (handed_back uuid4 clock fromisoformat stix2_check py_repr cs st)
              /\ obj_type o = "indicator")).
Proof.
  induction cs as [| c cs IH]; intros st n Hn.
  - unfold run_calls in Hn. cbn [fold_left] in Hn. lia.
  - change (run_calls uuid4 clock fromisoformat stix2_check py_repr (c :: cs) st)
      with (run_calls uuid4 clock fromisoformat stix2_check py_repr cs
              (run_call uuid4 clock fromisoformat stix2_check py_repr c st)) in *.
    set (st1 := run_call uuid4 clock fromisoformat stix2_check py_repr c st) in *.
    destruct (Nat.lt_ge_cases n (uuids st1)) as [Hlt | Hge].
    + destruct (run_call_built c st n ltac:(fold st1; lia)) as (o & Hid & [Hin | [Hin Hty]]).
      * exists o. split; [exact Hid |]. left. fold st1 in Hin.
        destruct (run_calls_grows cs st1) as (new & _ & Ho & _).
        rewrite Ho. apply in_or_app. left. exact Hin.
      * exists o. split; [exact Hid |]. right. split; [| exact Hty].
        cbn [handed_back] in *. rewrite app_nil_r in Hin. apply in_or_app. left. exact Hin.
    + destruct (IH st1 n ltac:(lia)) as (o & Hid & [Hin | [Hin Hty]]).
      * exists o. split; [exact Hid |]. left. exact Hin.
      * exists o. split; [exact Hid |]. right. split; [| exact Hty].
        cbn [handed_back]. apply in_or_app. right. exact Hin.
Qed.

(** C10. A session starts with an empty object list and an empty
    relationship list. Each relationship the composite generators create is
    created by the same three statements, which append it to the end of
    both lists; no call removes anything from either list; and every
    identifier the library draws in the session is the identifier of an
    object of the object list, or of an indicator that a direct call of
    [generate_indicator] returned to its caller. So after any sequence of
    generator calls, whether they returned or raised, every relationship
    ever created is in both lists, the relationship list is the list of the
    relationship objects of the object list in the same order, and it is a
    sublist of the object list. *)
Theorem relationships_sublist_of_objects (identity0 : option stix_object) (w : world)
    (st0 : state) (cs : list call) :
  __init__ uuid4 stix2_check identity0 w = Returns st0 ->
  objects st0 = [] /\ relationships st0 = []
  /\ let st := run_calls uuid4 clock fromisoformat stix2_check py_repr cs st0 in
     relationships st = List.filter is_relationship_object (objects st)
     /\ sublist (relationships st) (objects st)
     /\ (forall r, In r (relationships st) -> In r (objects st))
     /\ (forall o, In o (objects st) -> is_relationship_object o = true ->
                   In o (relationships st))
     /\ (forall rtype src tgt st1 st1',
           add_relationship uuid4 stix2_check rtype src tgt st1 = (Returns tt, st1') ->
           exists rel,
             relationship_is rtype src tgt (obj_id (identity st1)) rel
             /\ obj_id rel = "relationship--" +:+ uuid4 (uuids st1)
             /\ uuids st1' = S (uuids st1)
             /\ objects st1' = objects st1 ++ [rel]
             /\ relationships st1' = relationships st1 ++ [rel])
     /\ (forall n, (uuids st0 <= n < uuids st)%nat ->
           exists o,
             obj_id o = obj_type o +:+ "--" +:+ uuid4 n
             /\ ((In o (objects st)
                  /\ (is_relationship_object o = true -> In o (relationships st)))
                 \/ (In o (handed_back uuid4 clock fromisoformat stix2_check py_repr cs st0)
                     /\ obj_type o = "indicator")))
     /\ (forall cs', exists more,
           let st' := run_calls uuid4 clock fromisoformat stix2_check py_repr
                                (cs ++ cs') st0 in
           objects st' = objects st ++ more
           /\ relationships st' = relationships st ++ List.filter is_relationship_object more).
Proof.
  intros Hinit.
  assert (H0 : objects st0 = [] /\ relationships st0 = []).
  { unfold __init__ in Hinit. destruct identity0 as [i |].
    - injection Hinit as <-. auto.
    - destruct (_create_default_identity uuid4 stix2_check w) as [[i | e] w'];
        [injection Hinit as <- | discriminate]. auto. }
  destruct H0 as [Ho Hr]. split; [exact Ho |]. split; [exact Hr |]. cbv zeta.
  assert (H : relationships_recorded
                (run_calls uuid4 clock fromisoformat stix2_check py_repr cs st0)).
  { apply run_calls_recorded. unfold relationships_recorded. rewrite Ho, Hr. reflexivity. }
  unfold relationships_recorded in H. split; [exact H |].
  split; [rewrite H; apply filter_sublist |].
  split; [intros r Hin; rewrite H in Hin; apply List.filter_In in Hin; tauto |].
  assert (Hrel : forall o,
             In o (objects (run_calls uuid4 clock fromisoformat stix2_check py_repr cs st0)) ->
             is_relationship_object o = true ->
             In o (relationships
                     (run_calls uuid4 clock fromisoformat stix2_check py_repr cs st0))).
  { intros o Hin Ho'. rewrite H. apply List.filter_In. auto. }
  split; [exact Hrel |]. split; [| split].
  - intros rtype src tgt st1 st1'.
    unfold add_relationship, bind, identity_id, stix2_new, relationships_append,
      objects_append.
    match goal with
    | |- context [stix2_check "relationship" ?kw] => destruct (stix2_check "relationship" kw)
    end; [discriminate |].
    intros [= <-]. cbn [identity objects relationships stderr uuids ticks].
    match goal with
    | |- context [relationships st1 ++ [?r]] => exists r
    end.
    split; [split; reflexivity |]. repeat split; reflexivity.
  - intros n Hn. destruct (run_calls_built cs st0 n Hn) as (o & Hid & [Hin | Hback]).
    + exists o. split; [exact Hid |]. left. split; [exact Hin | exact (Hrel o Hin)].
    + exists o. split; [exact Hid |]. right. exact Hback.
  - intros cs'. rewrite run_calls_app.
    destruct (run_calls_grows cs'
                (run_calls uuid4 clock fromisoformat stix2_check py_repr cs st0))
      as (more & _ & Hobjs & Hrels).
    exists more. cbv zeta. split; [exact Hobjs | exact Hrels].
Qed.

End SessionInvariant.

(** ** The validator script on files and directories *)

Section ValidatorOutputProperties.

Set Default Proof Using "Type".

Variable validate_file : string -> ValidationOptions -> file_results.
Variable check_mark : string.
Variable cross_mark : string.
Variable glob : string -> string -> list string.
Variable sorted : list string -> list string.
Variable path_exists : string -> bool.
Variable path_is_file : string -> bool.
Variable json_dumps : json -> string.
Variable parse_args : list string -> parsed.

Lemma validate_files_unfold (options : ValidationOptions) (output_json quiet : bool)
    (files : list string) :
  forall all_valid all_results,
    validate_files validate_file check_mark cross_mark files options output_json quiet
                   all_valid all_results
    = ((all_valid
        && forallb (fun f => fst (validate_single_file validate_file f options)) files,
        all_results
        ++ map (fun f => snd (validate_single_file validate_file f options)) files),
       flat_map (fun f => snd (validate_single_file_printing
                                 validate_file check_mark cross_mark f options
                                 output_json quiet)) files).
Proof.
  induction files as [| f files IH]; intros all_valid all_results;
    cbn [validate_files forallb map flat_map].
  - rewrite andb_true_r, app_nil_r. reflexivity.
  - destruct (validate_single_file_printing validate_file check_mark cross_mark f options
                                            output_json quiet)
      as [[is_valid result] out] eqn:E.
    rewrite IH. unfold validate_single_file_printing in E.
    destruct (validate_single_file validate_file f options) as [is_valid' result'].
    injection E as -> -> _. cbn [fst snd]. rewrite <- app_assoc. cbn [app].
    destruct is_valid, all_valid; reflexivity.
Qed.

Lemma validate_single_file_silent (f : string) (options : ValidationOptions)
    (output_json quiet : bool) :
  output_json || quiet = true ->
  snd (validate_single_file_printing validate_file check_mark cross_mark f options
                                     output_json quiet) = [].
Proof.
  intros H. unfold validate_single_file_printing. cbn [snd].
  destruct output_json, quiet; try reflexivity. discriminate H.
Qed.

Lemma validate_files_silent (options : ValidationOptions) (output_json quiet : bool)
    (files : list string) :
  output_json || quiet = true ->
  flat_map (fun f => snd (validate_single_file_printing
                            validate_file check_mark cross_mark f options
                            output_json quiet)) files = [].
Proof.
  intros H. induction files as [| f files IH]; cbn [flat_map]; [reflexivity |].
  rewrite (validate_single_file_silent f options output_json quiet H), IH. reflexivity.
Qed.

Lemma validate_single_file_names (f : string) (options : ValidationOptions) :
  report_file (snd (validate_single_file validate_file f options)) = f
  /\ report_valid (snd (validate_single_file validate_file f options))
     = fst (validate_single_file validate_file f options).
Proof.
  unfold validate_single_file. destruct (fatal (validate_file f options)); split; reflexivity.
Qed.

Lemma forallb_permutation {A : Type} (p : A -> bool) (l l' : list A) :
  Permutation l l' -> forallb p l = forallb p l'.
Proof.
  induction 1 as [| x l l' _ IH | x y l | l l' l'' _ IH1 _ IH2]; cbn [forallb].
  - reflexivity.
  - rewrite IH. reflexivity.
  - destruct (p x), (p y); reflexivity.
  - congruence.
Qed.

(** The verdict of [validate_directory] does not depend on the order in
    which the files are visited. *)
Lemma validate_directory_all_valid (dirpath : string) (options : ValidationOptions)
    (recursive output_json quiet : bool) :
  (forall l, Permutation (sorted l) l) ->
  fst (fst (validate_directory validate_file check_mark cross_mark glob sorted
                               dirpath options recursive output_json quiet)) = true
  <-> forall f, In f (glob dirpath (if recursive then "**/*.json" else "*.json")) ->
                fst (validate_single_file validate_file f options) = true.
Proof.
  intros Hsort. unfold validate_directory.
  set (files := glob dirpath (if recursive then "**/*.json" else "*.json")).
  destruct files as [| f0 files0] eqn:Ef.
  - cbn [fst]. split; [intros _ f [] | reflexivity].
  - rewrite validate_files_unfold. cbn [fst andb].
    rewrite (forallb_permutation _ _ _ (Hsort (f0 :: files0))), List.forallb_forall.
    reflexivity.
Qed.

(** X13. [validate_directory] validates the files the pattern selects,
    in sorted order, and returns one report for each, named after its file.
    Its verdict is true exactly when every selected file is valid, in
    whatever order they are visited; a directory that holds no such file
    is valid, with no report and one line of output. *)
Theorem validate_directory_verdict (dirpath : string) (options : ValidationOptions)
    (recursive output_json quiet : bool) :
  (forall l, Permutation (sorted l) l) ->
  let files := glob dirpath (if recursive then "**/*.json" else "*.json") in
  let r := validate_directory validate_file check_mark cross_mark glob sorted
                              dirpath options recursive output_json quiet in
  map report_file (snd (fst r)) = sorted files
  /\ snd (fst r) = map (fun f => snd (validate_single_file validate_file f options))
                       (sorted files)
  /\ (fst (fst r) = true
      <-> forall f, In f files -> fst (validate_single_file validate_file f options) = true)
  /\ (files = [] -> r = ((true, []), ["No JSON files found in " +:+ dirpath])).
Proof.
  intros Hsort files r.
  pose proof (validate_directory_all_valid dirpath options recursive output_json quiet Hsort)
    as Hv.
  fold files in Hv. subst r. revert Hv. unfold validate_directory. fold files.
  assert (Hnil : sorted [] = []).
  { apply Permutation_nil. symmetry. apply Hsort. }
  destruct files as [| f0 files0] eqn:Ef; intros Hv.
  - rewrite Hnil. cbn [fst snd map] in *. split; [reflexivity |]. split; [reflexivity |].
    split; [exact Hv | reflexivity].
  - rewrite validate_files_unfold in *. cbn [fst snd app andb] in *.
    split; [| split; [| split]].
    + rewrite map_map. rewrite <- (map_id (sorted (f0 :: files0))) at 2.
      apply map_ext. intros f. apply validate_single_file_names.
    + reflexivity.
    + exact Hv.
    + discriminate.
Qed.

(** X14. On a command line that [parse_args] does not accept, or that
    asks for help, the script exits with the status of [parse_args] (2 on a
    usage error, 0 after the help text) and validates nothing. On a command
    line that parses, the exit status is 0 or 1. It is 1 with one line on
    the standard error stream and nothing on the standard output when the
    path does not exist. Otherwise it is 0 exactly when the file is valid
    or, for a directory, when every file the pattern selects is valid; so a
    directory that holds no JSON file exits with 0. *)
Theorem main_exit_status (argv : list string) :
  (forall l, Permutation (sorted l) l) ->
  let result := main_argv validate_file check_mark cross_mark glob sorted path_exists
                          path_is_file json_dumps parse_args argv in
  match parse_args argv with
  | Exits status out err => result = (status, out, err)
  | Parsed args =>
      let options := create_options (arg_strict args) (arg_enforce_refs args) in
      let files :=
        glob (arg_path args) (if arg_recursive args then "**/*.json" else "*.json") in
      (path_exists (arg_path args) = false ->
       result = (1, [], ["Error: Path not found: " +:+ arg_path args]))
      /\ (path_exists (arg_path args) = true -> snd result = [])
      /\ (fst (fst result) = 0 \/ fst (fst result) = 1)
      /\ (fst (fst result) = 0
          <-> path_exists (arg_path args) = true
              /\ if path_is_file (arg_path args)
                 then fst (validate_single_file validate_file (arg_path args) options) = true
                 else forall f, In f files ->
                                fst (validate_single_file validate_file f options) = true)
  end.
Proof.
  intros Hsort result. subst result. unfold main_argv.
  destruct (parse_args argv) as [args | status out err]; [| reflexivity].
  cbv zeta.
  set (options := create_options (arg_strict args) (arg_enforce_refs args)).
  set (files := glob (arg_path args)
                     (if arg_recursive args then "**/*.json" else "*.json")).
  unfold main.
  destruct (path_exists (arg_path args)); cbn [negb].
  - fold options. destruct (path_is_file (arg_path args)).
    + unfold validate_single_file_printing.
      destruct (validate_single_file validate_file (arg_path args) options)
        as [is_valid results]. cbn [fst snd].
      split; [discriminate |]. split; [reflexivity |].
      destruct is_valid; (split; [auto |]); split; try tauto; try discriminate.
      intros [_ H]. discriminate H.
    + pose proof (validate_directory_all_valid (arg_path args) options (arg_recursive args)
                    (arg_json args) (arg_quiet args) Hsort) as Hv.
      fold files in Hv.
      destruct (validate_directory validate_file check_mark cross_mark glob sorted
                  (arg_path args) options (arg_recursive args) (arg_json args)
                  (arg_quiet args)) as [[is_valid results] out].
      cbn [fst snd] in *.
      split; [discriminate |]. split; [reflexivity |].
      destruct is_valid; (split; [auto |]); split.
      * intros _. split; [reflexivity |]. apply Hv. reflexivity.
      * reflexivity.
      * discriminate.
      * intros [_ H]. apply Hv in H. discriminate H.
  - cbn [fst snd]. split; [reflexivity |]. split; [discriminate |].
    split; [auto |]. split; [discriminate |]. intros [H _]. discriminate H.
Qed.

(** X15. With [--json] and an existing path the script prints the JSON
    document and nothing after it; no per-file text and no summary is
    printed. The one line that can precede the document is
    "No JSON files found in <path>", which [validate_directory] prints for
    a directory in which the pattern selects no file, also in this mode. *)
Theorem main_json_output (args : arguments) :
  arg_json args = true ->
  path_exists (arg_path args) = true ->
  let result := main validate_file check_mark cross_mark glob sorted path_exists
                     path_is_file json_dumps args in
  let options := create_options (arg_strict args) (arg_enforce_refs args) in
  let files := glob (arg_path args) (if arg_recursive args then "**/*.json" else "*.json") in
  (path_is_file (arg_path args) = true ->
   snd (fst result)
   = [json_dumps (report_json
                    (snd (validate_single_file validate_file (arg_path args) options)))])
  /\ (path_is_file (arg_path args) = false -> files <> [] ->
      exists results is_valid,
        snd (fst result)
        = [json_dumps (JObj [("results", JArr (map report_json results));
                             ("all_valid", JBool is_valid)])]
        /\ results = map (fun f => snd (validate_single_file validate_file f options))
                         (sorted files)
        /\ is_valid = forallb (fun f => fst (validate_single_file validate_file f options))
                              (sorted files))
  /\ (path_is_file (arg_path args) = false -> files = [] ->
      snd (fst result)
      = ["No JSON files found in " +:+ arg_path args;
         json_dumps (JObj [("results", JArr []); ("all_valid", JBool true)])]).
Proof.
  intros Hjson Hexists result options files. subst result. unfold main.
  rewrite Hexists, Hjson. cbn [negb]. fold options.
  split; [| split].
  - intros ->. unfold validate_single_file_printing. cbn [negb andb].
    destruct (validate_single_file validate_file (arg_path args) options)
      as [is_valid results]. cbn [fst snd app]. reflexivity.
  - intros -> Hne. unfold validate_directory. fold files.
    destruct files as [| f0 files0] eqn:Ef; [congruence |].
    rewrite validate_files_unfold.
    rewrite (validate_files_silent options true (arg_quiet args) _ eq_refl).
    cbn [fst snd app andb]. eexists _, _. split; [reflexivity |]. split; reflexivity.
  - intros -> Hnil. unfold validate_directory. fold files. rewrite Hnil.
    cbn [fst snd app map]. reflexivity.
Qed.

(** X16. With [--quiet] and without [--json] the script prints for an
    existing path only the rule and the overall verdict (after the line
    "No JSON files found in <path>" for a directory without a selected
    file): the errors and warnings of the files are not shown, whether the
    files are valid or not. *)
Theorem main_quiet_output (args : arguments) :
  arg_quiet args = true ->
  arg_json args = false ->
  path_exists (arg_path args) = true ->
  let result := main validate_file check_mark cross_mark glob sorted path_exists
                     path_is_file json_dumps args in
  let files := glob (arg_path args) (if arg_recursive args then "**/*.json" else "*.json") in
  let overall :=
    "Overall: " +:+ (if Nat.eqb (fst (fst result)) 0
                     then check_mark +:+ " All files valid"
                     else cross_mark +:+ " Validation errors found") in
  snd (fst result)
  = (if negb (path_is_file (arg_path args))
        && match files with [] => true | _ :: _ => false end
     then ["No JSON files found in " +:+ arg_path args]
     else [])
    ++ [nl +:+ str (repeat "="%char 50); overall].
Proof.
  intros Hquiet Hjson Hexists result files overall. subst overall result. unfold main.
  rewrite Hexists, Hjson, Hquiet. cbn [negb].
  destruct (path_is_file (arg_path args)); cbn [negb andb].
  - unfold validate_single_file_printing. cbn [negb andb].
    destruct (validate_single_file validate_file (arg_path args) _)
      as [is_valid results]. cbn [fst snd app].
    destruct is_valid; reflexivity.
  - unfold validate_directory. fold files.
    destruct files as [| f0 files0] eqn:Ef.
    + reflexivity.
    + rewrite validate_files_unfold.
      rewrite (validate_files_silent _ false true _ eq_refl).
      cbn [fst snd app andb].
      destruct (forallb _ (sorted (f0 :: files0))); reflexivity.
Qed.

End ValidatorOutputProperties.

(** ** The further properties at sample inputs *)

Lemma detect_ioc_type_ignores_padding_witness :
  detect_ioc_type ("  " +:+ "192.0.2.1" +:+ " ") = detect_ioc_type "192.0.2.1".
Proof.
  apply (detect_ioc_type_ignores_padding "  " "192.0.2.1" " "); reflexivity.
Defined.

Lemma detect_ioc_type_hex_by_length_witness :
  detect_ioc_type "d41d8cd98f00b204e9800998ecf8427e" = Some "md5".
Proof.
  destruct (detect_ioc_type_hex_by_length 32 "d41d8cd98f00b204e9800998ecf8427e")
    as (_ & H & _).
  - split; reflexivity.
  - apply H. reflexivity.
Defined.

Lemma hash_case_insensitive_witness :
  create_indicator_pattern (lower "D41D8CD98F00B204E9800998ECF8427E") "md5"
  = create_indicator_pattern "D41D8CD98F00B204E9800998ECF8427E" "md5".
Proof.
  destruct (hash_case_insensitive 32 "D41D8CD98F00B204E9800998ECF8427E") as (_ & H & _).
  - split; reflexivity.
  - exact H.
Defined.

Lemma objects_provenance_witness :
  List.Forall (fun o => kwarg "created_by_ref" o = Some (PStr (obj_id sample_identity)))
              (objects sample_run).
Proof.
  unfold sample_run. apply List.Forall_forall. intros o Ho.
  destruct (objects_provenance sample_uuid4 sample_clock sample_fromisoformat accept_all
              sample_repr (Some sample_identity) sample_world sample_session
              [CallIndicatorsFromFile ["192.0.2.1"; "# comment"; "not-an-ioc"] default_options;
               CallCampaign sample_campaign])
    as (_ & H).
  - reflexivity.
  - apply (H o Ho).
Defined.

Lemma relationships_resolve_witness :
  List.Forall (fun r => is_relationship_object r = true ->
                        exists src tgt,
                          kwarg "source_ref" r = Some (PStr src)
                          /\ kwarg "target_ref" r = Some (PStr tgt)
                          /\ In src (map obj_id (objects sample_run))
                          /\ In tgt (map obj_id (objects sample_run)))
              (objects sample_run).
Proof.
  unfold sample_run. apply List.Forall_forall. intros r Hr.
  apply (relationships_resolve sample_uuid4 sample_clock sample_fromisoformat accept_all
           sample_repr (Some sample_identity) sample_world sample_session
           [CallIndicatorsFromFile ["192.0.2.1"; "# comment"; "not-an-ioc"] default_options;
            CallCampaign sample_campaign]).
  - reflexivity.
  - exact Hr.
Defined.

Lemma object_ids_distinct_witness :
  List.NoDup (map obj_id
    (objects (run_calls sample_uuid4 sample_clock sample_fromisoformat accept_all sample_repr
                [CallCampaign sample_campaign; CallCampaign sample_campaign]
                sample_session))).
Proof.
  apply (object_ids_distinct sample_uuid4 sample_clock sample_fromisoformat accept_all
           sample_repr (Some sample_identity) sample_world sample_session).
  - intros a b H. exact (inj pretty a b H).
  - reflexivity.
Defined.


Lemma generate_indicator_defaults_witness :
  exists i st',
    generate_indicator sample_uuid4 sample_clock accept_all "192.0.2.1" default_options
      sample_session = (Returns (Some i), st')
    /\ kwarg "labels" i = Some (PJson (JArr [JStr "malicious-activity"])).
Proof.
  destruct (generate_indicator sample_uuid4 sample_clock accept_all "192.0.2.1"
              default_options sample_session) as [[[i |] | e] st'] eqn:E.
  - exists i, st'. split; [reflexivity |].
    destruct (generate_indicator_defaults sample_uuid4 sample_clock accept_all "192.0.2.1"
                default_options sample_session i st' E)
      as (ioc_type & labels & description & _ & Hl & _ & _ & _ & _ & _ & Hd & _).
    rewrite Hl, (Hd (or_introl eq_refl)). reflexivity.
  - vm_compute in E. discriminate E.
  - vm_compute in E. discriminate E.
Defined.

Lemma validate_bundle_valid_exactly_witness :
  fst (validate_bundle sample_repr string_member_bundle) = true.
Proof.
  apply (validate_bundle_valid_exactly sample_repr string_member_bundle
           [("type", JStr "bundle"); ("objects", JArr [JStr "type-id"])]).
  - reflexivity.
  - split; [reflexivity |]. exists (JArr [JStr "type-id"]), [JStr "type-id"].
    repeat split; reflexivity.
Defined.

Lemma validate_bundle_not_an_object_witness :
  exists e,
    check_bundle sample_repr (JStr "bundle") = Raises e
    /\ validate_bundle sample_repr (mk_bundle (Returns (JStr "bundle")))
       = (false, [exn_message e])
    /\ (exn_class e = "TypeError" \/ exn_class e = "AttributeError")
    /\ exn_message e <> "Invalid bundle type"
    /\ exn_message e <> "Bundle has no objects".
Proof.
  apply (validate_bundle_not_an_object sample_repr (mk_bundle (Returns (JStr "bundle")))
           (JStr "bundle")); reflexivity.
Defined.

Lemma generate_threat_actor_techniques_witness :
  exists actor st',
    generate_threat_actor sample_uuid4 accept_all
      [("name", JStr "Group"); ("observed_ttps", JStr "T1055")] sample_session
      = (Returns actor, st')
    /\ objects st' = [actor].
Proof.
  destruct (generate_threat_actor sample_uuid4 accept_all
              [("name", JStr "Group"); ("observed_ttps", JStr "T1055")] sample_session)
    as [[actor | e] st'] eqn:E.
  - exists actor, st'. split; [reflexivity |].
    destruct (generate_threat_actor_techniques sample_uuid4 accept_all _ _ _ _ E)
      as (ttps & new & _ & Ho & _ & _ & _ & Hs).
    rewrite Ho, (Hs "T1055" eq_refl). reflexivity.
  - vm_compute in E. discriminate E.
Defined.

Lemma generate_malware_fields_witness :
  exists malware st',
    generate_malware sample_uuid4 accept_all
      [("name", JStr "Loader"); ("created_by_ref", JStr "identity--other");
       ("labels", JArr [JStr "x"])] sample_session
      = (Returns malware, st')
    /\ kwarg "created_by_ref" malware = Some (PStr (obj_id sample_identity))
    /\ kwarg "labels" malware = None.
Proof.
  destruct (generate_malware sample_uuid4 accept_all
              [("name", JStr "Loader"); ("created_by_ref", JStr "identity--other");
               ("labels", JArr [JStr "x"])] sample_session)
    as [[malware | e] st'] eqn:E.
  - exists malware, st'. split; [reflexivity |].
    destruct (generate_malware_fields sample_uuid4 accept_all _ _ _ _ E) as (_ & Hc & _).
    split; [exact Hc |]. vm_compute in E. injection E as <- _. reflexivity.
  - vm_compute in E. discriminate E.
Defined.

Lemma validate_directory_verdict_witness :
  map report_file
      (snd (fst (validate_directory sample_validate_file "[ok]" "[x]" sample_glob
                   (@rev string) "bundles" (create_options false true) false false false)))
  = ["bundles/a.json"; "bundles/b.json"].
Proof.
  destruct (validate_directory_verdict sample_validate_file "[ok]" "[x]" sample_glob
              (@rev string) "bundles" (create_options false true) false false false)
    as (H & _).
  - intros l. symmetry. apply Permutation_rev.
  - exact H.
Defined.

Lemma main_exit_status_witness :
  fst (fst (main_argv sample_validate_file "[ok]" "[x]" sample_glob (@rev string)
              (fun _ => true) (fun _ => false) sample_dumps
              (fun _ => Parsed sample_json_arguments)
              ["bundles"; "--enforce-refs"; "--json"])) <> 0.
Proof.
  pose proof (main_exit_status sample_validate_file "[ok]" "[x]" sample_glob (@rev string)
                (fun _ => true) (fun _ => false) sample_dumps
                (fun _ => Parsed sample_json_arguments)
                ["bundles"; "--enforce-refs"; "--json"]
                (fun l => Permutation_sym (Permutation_rev l))) as H.
  cbv beta iota zeta in H. destruct H as (_ & _ & _ & H).
  intros H0. apply H in H0 as [_ Hv].
  specialize (Hv "bundles/a.json" (or_intror (or_introl eq_refl))).
  vm_compute in Hv. discriminate Hv.
Defined.

Lemma main_json_output_witness :
  snd (fst (main sample_validate_file "[ok]" "[x]" sample_glob (@rev string)
              (fun _ => true) (fun _ => true) sample_dumps sample_json_arguments))
  = [sample_dumps
       (report_json (snd (validate_single_file sample_validate_file "bundles"
                            (create_options false true))))].
Proof.
  destruct (main_json_output sample_validate_file "[ok]" "[x]" sample_glob (@rev string)
              (fun _ => true) (fun _ => true) sample_dumps sample_json_arguments)
    as (H & _).
  - reflexivity.
  - reflexivity.
  - apply H. reflexivity.
Defined.

Lemma main_quiet_output_witness :
  snd (fst (main sample_validate_file "[ok]" "[x]" sample_glob (@rev string)
              (fun _ => true) (fun _ => false) sample_dumps sample_quiet_arguments))
  = [nl +:+ str (repeat "="%char 50); "Overall: [x] Validation errors found"].
Proof.
  rewrite (main_quiet_output sample_validate_file "[ok]" "[x]" sample_glob (@rev string)
             (fun _ => true) (fun _ => false) sample_dumps sample_quiet_arguments
             eq_refl eq_refl eq_refl).
  reflexivity.
Defined.

Lemma relationships_sublist_of_objects_witness :
  sublist (relationships sample_run) (objects sample_run)
  /\ length (relationships sample_run) = 4%nat.
Proof.
  unfold sample_run.
  destruct (relationships_sublist_of_objects sample_uuid4 sample_clock sample_fromisoformat
              accept_all sample_repr (Some sample_identity) sample_world sample_session
              [CallIndicatorsFromFile ["192.0.2.1"; "# comment"; "not-an-ioc"] default_options;
               CallCampaign sample_campaign])
    as (_ & _ & _ & H & _).
  - reflexivity.
  - split; [exact H | vm_compute; reflexivity].
Defined.
